(** * Issa Compass reply assistant: prompt store, AI client, dataset builder
      and HTTP service, embedded from the Python sources.

    - [prompt_store.py]   : the versioned prompt table (module [PromptStore]).
    - [ai_client.py]      : the two LLM calls (module [AIClient]).
    - [dataset_builder.py]: transcript segmentation (module [DatasetBuilder]).
    - [app.py]            : the Flask endpoints and the offline pipeline
                            (module [App]).

    Python [str] values are modelled as [string]; a character is a code point
    below 256.  Dictionaries are [gmap string json]. *)

From Stdlib Require Import ZArith String Ascii List Lia Bool.
From stdpp Require Import base option list strings gmap.

Set Warnings "-register-all".
#[local] Arguments String.append !_ _ / : simpl nomatch.
Local Open Scope Z_scope.

(* ================================================================== *)
(** ** Python strings *)
(* ================================================================== *)

Module PyStr.

(** [str.isspace] on one character: TAB..CR, FS..US, SPACE, NEL, NBSP. *)
Definition isspace (c : ascii) : bool :=
  let n := nat_of_ascii c in
  ((9 <=? n)%nat && (n <=? 13)%nat)
  || ((28 <=? n)%nat && (n <=? 32)%nat)
  || (n =? 133)%nat
  || (n =? 160)%nat.

(** [s.lstrip()] *)
Fixpoint lstrip (s : string) : string :=
  match s with
  | EmptyString => EmptyString
  | String c r => if isspace c then lstrip r else s
  end.

(** [s.rstrip()] *)
Fixpoint rstrip (s : string) : string :=
  match s with
  | EmptyString => EmptyString
  | String c r =>
      match rstrip r with
      | EmptyString => if isspace c then EmptyString else String c EmptyString
      | r' => String c r'
      end
  end.

(** [s.strip()] *)
Definition strip (s : string) : string := rstrip (lstrip s).

(** Truth value of a string: [bool(s)]. *)
Definition truthy (s : string) : bool :=
  match s with
  | EmptyString => false
  | String _ _ => true
  end.

(** Every character is whitespace (vacuously so for the empty string). *)
Fixpoint all_whitespace (s : string) : bool :=
  match s with
  | EmptyString => true
  | String c r => isspace c && all_whitespace r
  end.

(** First and last character, when there is one. *)
Definition head (s : string) : option ascii :=
  match s with
  | EmptyString => None
  | String c _ => Some c
  end.

Fixpoint last (s : string) : option ascii :=
  match s with
  | EmptyString => None
  | String c EmptyString => Some c
  | String _ r => last r
  end.

Definition is_space_opt (o : option ascii) : bool :=
  match o with
  | Some c => isspace c
  | None => false
  end.

(** The string starts or ends with a whitespace character. *)
Definition outer_whitespace (s : string) : bool :=
  is_space_opt (head s) || is_space_opt (last s).

(** [t] is a suffix of [s]: [s.endswith(t)]. *)
Definition endswith (s t : string) : Prop := exists p, s = p +:+ t.

Definition nl : string := String (ascii_of_nat 10) EmptyString.
Definition dq : string := String (ascii_of_nat 34) EmptyString.

(** [sep.join(parts)] on strings. *)
Fixpoint join (sep : string) (parts : list string) : string :=
  match parts with
  | [] => EmptyString
  | [p] => p
  | p :: rest => p +:+ sep +:+ join sep rest
  end.

(** [nl.join(lines)] for a literal written line by line. *)
Definition lines (ls : list string) : string := join nl ls.

End PyStr.

(* ================================================================== *)
(** ** JSON values, exceptions and the effect monad *)
(* ================================================================== *)

(** A value as [json.loads] and Flask's [get_json] produce it.  Numbers
    carry an integer payload; no function below inspects it beyond its
    truth value. *)
Inductive json : Type :=
  | JNull
  | JBool (b : bool)
  | JNum (n : Z)
  | JStr (s : string)
  | JArr (l : list json)
  | JObj (m : gmap string json).

Abbreviation dict := (gmap string json).

(** The exceptions the sources raise or let escape. *)
Inductive exn : Type :=
  | AIClientError (msg : string)
  | ValueError (msg : string)
  | AttributeError (msg : string)
  | TypeError (msg : string).

Inductive result (A : Type) : Type :=
  | Ok (a : A)
  | Raise (e : exn).
Arguments Ok {A} a.
Arguments Raise {A} e.

(** One line written to standard output by [print]. *)
Inductive log_line : Type :=
  | LogKuay
  | LogUpdated (idx : nat) (contact_id : json)
  | LogSkipped (idx : nat) (exc : string).

(** One row of table [prompts]. *)
Record prompt_row : Type := mk_row {
  row_id : Z;
  version : Z;
  prompt_text : string;
  created_at : string
}.

(** Everything the program reads and writes: the [prompts] table with the
    AUTOINCREMENT counter, how often the clock and the completion service
    were consulted, and standard output. *)
Record world : Type := mk_world {
  prompts : list prompt_row;
  last_rowid : Z;
  clock_reads : nat;
  llm_calls : nat;
  stdout : list log_line
}.

(** A request to [client.chat.completions.create]. *)
Record chat_request : Type := mk_chat_request {
  req_model : string;
  req_system : string;
  req_user : json;
  req_temperature_tenths : Z
}.

(** What the completion call does: raise [OpenAIError] or return a
    completion whose first choice has the given message content. *)
Inductive llm_outcome : Type :=
  | OpenAIError (msg : string)
  | Completion (content : option string).

(** One conversation of [conversations.json]: the three keys that are
    read, each possibly absent; a message is a dictionary. *)
Record conversation_record : Type := mk_conversation {
  convo_contact_id : option json;
  convo_scenario : option json;
  convo_conversation : option (list (gmap string json))
}.

(** The surroundings of the program: process environment, clock, the
    completion service, the [json] library and the transcript file. *)
Record environment : Type := mk_environment {
  OPENAI_API_KEY : option string;
  OPENAI_MODEL : option string;
  utcnow_isoformat : nat -> string;
  chat_completions_create : nat -> chat_request -> llm_outcome;
  json_loads : string -> option json;
  py_repr : json -> string;
  conversations_json : list conversation_record
}.

Module Py.

(** Computations that read and write the [world] and may raise. *)
Definition M (A : Type) : Type := world -> result A * world.

Definition ret {A} (a : A) : M A := fun w => (Ok a, w).

Definition raise {A} (e : exn) : M A := fun w => (Raise e, w).

Definition bind {A B} (c : M A) (k : A -> M B) : M B :=
  fun w =>
    match c w with
    | (Ok a, w') => k a w'
    | (Raise e, w') => (Raise e, w')
    end.

(** [try: c  except AIClientError as exc: h(str(exc))] *)
Definition try_except_AIClientError {A} (c : M A) (h : string -> M A) : M A :=
  fun w =>
    match c w with
    | (Raise (AIClientError msg), w') => h msg w'
    | other => other
    end.

Definition lift {A} (r : result A) : M A := fun w => (r, w).

Definition print (l : log_line) : M unit :=
  fun w =>
    (Ok tt, mk_world (prompts w) (last_rowid w) (clock_reads w)
                     (llm_calls w) (stdout w ++ [l])).

(** The world after [print(l)]. *)
Definition logged (l : log_line) (w : world) : world := snd (print l w).

(** [c] writes at most [n] lines to standard output, whatever it returns
    or raises. *)
Definition prints_at_most {A} (n : nat) (c : M A) : Prop :=
  forall w, exists lines,
    stdout (snd (c w)) = stdout w ++ lines /\ (length lines <= n)%nat.

(** Name of a value's type, as in the text of an [AttributeError]. *)
Definition type_name (j : json) : string :=
  match j with
  | JNull => "NoneType"
  | JBool _ => "bool"
  | JNum _ => "int"
  | JStr _ => "str"
  | JArr _ => "list"
  | JObj _ => "dict"
  end.

(** [bool(j)] *)
Definition truthy (j : json) : bool :=
  match j with
  | JNull => false
  | JBool b => b
  | JNum n => negb (n =? 0)
  | JStr s => PyStr.truthy s
  | JArr l => match l with [] => false | _ => true end
  | JObj m => negb (bool_decide (dom m = (∅ : gset string)))
  end.

(** [j.get(key)]: only dictionaries have the method. *)
Definition get (j : json) (key : string) : result (option json) :=
  match j with
  | JObj m => Ok (m !! key)
  | other =>
      Raise (AttributeError
        ("'" +:+ type_name other +:+ "' object has no attribute 'get'"))
  end.

(** [j.get(key, default)] *)
Definition get_default (j : json) (key : string) (d : json) : result json :=
  match get j key with
  | Ok o => Ok (default d o)
  | Raise e => Raise e
  end.

(** [x == s] for a string literal [s]. *)
Definition eq_str (o : option json) (s : string) : bool :=
  match o with
  | Some (JStr t) => String.eqb t s
  | _ => false
  end.

(** [sep.join(parts)]: every item must be a [str]. *)
Fixpoint strings_of (parts : list json) : result (list string) :=
  match parts with
  | [] => Ok []
  | JStr s :: rest =>
      match strings_of rest with
      | Ok l => Ok (s :: l)
      | Raise e => Raise e
      end
  | other :: _ =>
      Raise (TypeError
        ("sequence item: expected str instance, " +:+ type_name other +:+ " found"))
  end.

Definition join (sep : string) (parts : list json) : result string :=
  match strings_of parts with
  | Ok l => Ok (PyStr.join sep l)
  | Raise e => Raise e
  end.

(** [l[:limit]] *)
Definition slice_to {A} (l : list A) (limit : Z) : list A :=
  if 0 <=? limit then take (Z.to_nat limit) l
  else take (length l - Z.to_nat (- limit)) l.

End Py.

Notation "'let!' x ':=' c1 'in' c2" := (Py.bind c1 (fun x => c2))
  (at level 10, x pattern, c1 at level 100, c2 at level 200).

(* ================================================================== *)
(** ** prompt_store.py *)
(* ================================================================== *)

Module PromptStore.

Import PyStr.

Definition DEFAULT_BASE_PROMPT : string :=
  strip (lines [
    "";
    "You are a friendly, human-sounding visa consultant working for Issa Compass.";
    "";
    "Your job is to reply to potential customers who are asking about the Thai DTV (Destination Thailand Visa). You:";
    "- Sound like a real human, not an AI";
    "- Use casual, warm language similar to WhatsApp or LINE chats";
    "- Are concise but supportive, and avoid long walls of text";
    "- Use occasional emojis when they feel natural, but don't overdo it";
    "- Are always honest about requirements and timelines";
    "- Clearly explain next steps and gently move high-intent users towards downloading the app, uploading documents, or booking an appointment";
    "";
    "You must ALWAYS respond in JSON format only, with this schema:";
    "{ " +:+ dq +:+ "reply" +:+ dq +:+ ": " +:+ dq
      +:+ "string with your reply message" +:+ dq +:+ " }";
    "";
    "The input will contain:";
    "- clientSequence: the latest 1+ messages from the client";
    "- chatHistory: a list of earlier messages with roles " +:+ dq +:+ "client"
      +:+ dq +:+ " or " +:+ dq +:+ "consultant" +:+ dq;
    "";
    "Write your reply as if you are continuing the same chat thread. Do NOT repeat the client's question verbatim. Keep it natural and tailored to the specific situation.";
    ""
  ]).

#[global] Arguments DEFAULT_BASE_PROMPT : simpl never.

(** [SELECT ... FROM prompts ORDER BY version DESC LIMIT 1]: the row of
    greatest version (the earliest inserted one among equals). *)
Fixpoint order_by_version_desc_limit_1 (rows : list prompt_row) : option prompt_row :=
  match rows with
  | [] => None
  | r :: rest =>
      match order_by_version_desc_limit_1 rest with
      | Some r' => if version r <? version r' then Some r' else Some r
      | None => Some r
      end
  end.

(** [MAX(version)], NULL on the empty table. *)
Fixpoint max_version (rows : list prompt_row) : option Z :=
  match rows with
  | [] => None
  | r :: rest =>
      match max_version rest with
      | Some m => Some (Z.max (version r) m)
      | None => Some (version r)
      end
  end.

(** [row[0] if row and row[0]]: the text of a fetched row when the row
    exists and its text is not empty. *)
Definition row_and_text (row : option prompt_row) : option string :=
  match row with
  | Some r => if truthy (prompt_text r) then Some (prompt_text r) else None
  | None => None
  end.

Section WithEnvironment.

Context (E : environment).

(** [datetime.utcnow().isoformat()] *)
Definition utcnow : Py.M string :=
  fun w =>
    (Ok (utcnow_isoformat E (clock_reads w)),
     mk_world (prompts w) (last_rowid w) (S (clock_reads w))
              (llm_calls w) (stdout w)).

(** [SELECT prompt_text FROM prompts ORDER BY version DESC LIMIT 1] *)
Definition select_latest : Py.M (option prompt_row) :=
  fun w => (Ok (order_by_version_desc_limit_1 (prompts w)), w).

(** [SELECT COUNT(1) FROM prompts] *)
Definition select_count : Py.M nat :=
  fun w => (Ok (length (prompts w)), w).

(** [SELECT COALESCE(MAX(version), 0) FROM prompts] *)
Definition select_coalesce_max_version : Py.M Z :=
  fun w => (Ok (default 0 (max_version (prompts w))), w).

(** [INSERT INTO prompts (version, prompt_text, created_at) VALUES (?, ?, ?)]
    followed by [commit]. *)
Definition insert_prompt (v : Z) (text now : string) : Py.M unit :=
  fun w =>
    let id := last_rowid w + 1 in
    (Ok tt,
     mk_world (prompts w ++ [mk_row id v text now]) id (clock_reads w)
              (llm_calls w) (stdout w)).

Definition initialize_prompt_if_empty : Py.M unit :=
  let! count := select_count in
  if Nat.eqb count 0 then
    let! now := utcnow in
    insert_prompt 1 DEFAULT_BASE_PROMPT now
  else Py.ret tt.

Definition get_latest_prompt : Py.M string :=
  let! row := select_latest in
  match row_and_text row with
  | Some text => Py.ret text
  | None =>
      let! _ := initialize_prompt_if_empty in
      let! row := select_latest in
      Py.ret (default DEFAULT_BASE_PROMPT (row_and_text row))
  end.

Definition save_new_prompt (new_prompt : string) : Py.M string :=
  if negb (truthy new_prompt) || negb (truthy (strip new_prompt)) then
    Py.raise (ValueError "new_prompt must be a non-empty string")
  else
    let! current_version := select_coalesce_max_version in
    let current_version := if current_version =? 0 then 0 else current_version in
    let next_version := current_version + 1 in
    let! now := utcnow in
    let! _ := insert_prompt next_version (strip new_prompt) now in
    Py.ret (strip new_prompt).

(** The world after the seeding insert. *)
Definition seeded (w : world) : world :=
  mk_world (prompts w ++
              [mk_row (last_rowid w + 1) 1 DEFAULT_BASE_PROMPT
                      (utcnow_isoformat E (clock_reads w))])
           (last_rowid w + 1) (S (clock_reads w)) (llm_calls w) (stdout w).

(** The world after [save_new_prompt] has inserted [text]. *)
Definition saved (text : string) (w : world) : world :=
  mk_world (prompts w ++
              [mk_row (last_rowid w + 1)
                      (default 0 (max_version (prompts w)) + 1) text
                      (utcnow_isoformat E (clock_reads w))])
           (last_rowid w + 1) (S (clock_reads w)) (llm_calls w) (stdout w).

(** The calls other modules make to the store, and a sequence of them
    run one after the other. *)
Inductive store_call : Type :=
  | CallGetLatest
  | CallInitialize
  | CallSave (new_prompt : string).

Definition run_call (c : store_call) (w : world) : world :=
  match c with
  | CallGetLatest => snd (get_latest_prompt w)
  | CallInitialize => snd (initialize_prompt_if_empty w)
  | CallSave new_prompt => snd (save_new_prompt new_prompt w)
  end.

Definition run_calls (cs : list store_call) (w : world) : world :=
  fold_left (fun w c => run_call c w) cs w.

End WithEnvironment.

End PromptStore.

(* ================================================================== *)
(** ** ai_client.py *)
(* ================================================================== *)

Module AIClient.

Import PyStr.

Definition EDITOR_PROMPT : string :=
  strip (lines [
    "";
    "You are an expert AI prompt engineer helping improve a visa-consultant chatbot prompt.";
    "";
    "You will be given:";
    "1) existingPrompt: the current chatbot system prompt";
    "2) clientSequence: latest 1+ client messages";
    "3) chatHistory: previous messages in the conversation";
    "4) consultantReply: the real reply written by a human Issa Compass consultant";
    "5) predictedReply: the reply produced by the AI using existingPrompt";
    "";
    "Your job:";
    "- Carefully compare consultantReply vs predictedReply";
    "- Infer what is missing or wrong in existingPrompt (logic, style, tone, sales motions, risk warnings, etc.)";
    "- Make **surgical** edits to existingPrompt to better match the human consultant behaviour";
    "- Preserve all good parts of the prompt; only change what is necessary";
    "";
    "You MUST respond in JSON format only:";
    "{ " +:+ dq +:+ "prompt" +:+ dq +:+ ": " +:+ dq
      +:+ "the full updated system prompt, as a string" +:+ dq +:+ " }";
    ""
  ]).

#[global] Arguments EDITOR_PROMPT : simpl never.

(** [message.content or "{}"] *)
Definition content_or_empty_object (content : option string) : string :=
  match content with
  | Some c => if truthy c then c else "{}"
  | None => "{}"
  end.

Section WithEnvironment.

Context (E : environment).

Definition _get_openai_client : Py.M unit :=
  match OPENAI_API_KEY E with
  | Some api_key =>
      if truthy api_key then Py.ret tt
      else Py.raise (AIClientError
             "OPENAI_API_KEY is not set. Please configure it in your .env file.")
  | None =>
      Py.raise (AIClientError
        "OPENAI_API_KEY is not set. Please configure it in your .env file.")
  end.

Definition _get_model_name : string :=
  default "gpt-4.1-mini" (OPENAI_MODEL E).

(** [client.chat.completions.create(...)]: one round trip. *)
Definition create_completion (req : chat_request) : Py.M llm_outcome :=
  fun w =>
    (Ok (chat_completions_create E (llm_calls w) req),
     mk_world (prompts w) (last_rowid w) (clock_reads w)
              (S (llm_calls w)) (stdout w)).

Definition generate_chat_reply (payload : json) : Py.M string :=
  let! base_prompt := PromptStore.get_latest_prompt E in
  let system_prompt := base_prompt in
  let! _ := _get_openai_client in
  let! outcome :=
    create_completion (mk_chat_request _get_model_name system_prompt payload 4) in
  match outcome with
  | OpenAIError exc =>
      Py.raise (AIClientError ("Error calling OpenAI: " +:+ exc))
  | Completion content =>
      let message_content := content_or_empty_object content in
      match json_loads E message_content with
      | None =>
          Py.raise (AIClientError
            ("Model did not return valid JSON. Raw content: " +:+ message_content))
      | Some parsed =>
          let! reply := Py.lift (Py.get parsed "reply") in
          match reply with
          | Some (JStr reply) => Py.ret reply
          | _ =>
              Py.raise (AIClientError
                ("Model JSON missing 'reply' field or not a string: "
                   +:+ py_repr E parsed))
          end
      end
  end.

Definition improve_prompt_with_editor
    (existing_prompt client_sequence : string) (chat_history : list json)
    (consultant_reply predicted_reply : string) : Py.M string :=
  let! _ := _get_openai_client in
  let payload :=
    JObj (<["predictedReply" := JStr predicted_reply]>
         (<["consultantReply" := JStr consultant_reply]>
         (<["chatHistory" := JArr chat_history]>
         (<["clientSequence" := JStr client_sequence]>
         (<["existingPrompt" := JStr existing_prompt]> ∅))))) in
  let! outcome :=
    create_completion (mk_chat_request _get_model_name EDITOR_PROMPT payload 3) in
  match outcome with
  | OpenAIError exc =>
      Py.raise (AIClientError ("Error calling OpenAI editor: " +:+ exc))
  | Completion content =>
      let message_content := content_or_empty_object content in
      match json_loads E message_content with
      | None =>
          Py.raise (AIClientError
            ("Editor model did not return valid JSON. Raw content: "
               +:+ message_content))
      | Some parsed =>
          let! new_prompt := Py.lift (Py.get parsed "prompt") in
          match new_prompt with
          | Some (JStr new_prompt) => Py.ret new_prompt
          | _ =>
              Py.raise (AIClientError
                ("Editor JSON missing 'prompt' field or not a string: "
                   +:+ py_repr E parsed))
          end
      end
  end.

(** The world after one round trip to the completion service. *)
Definition after_call (w : world) : world :=
  mk_world (prompts w) (last_rowid w) (clock_reads w)
           (S (llm_calls w)) (stdout w).

(** What the two client functions make of the outcome of their call:
    [label] is "Model" or "Editor model", [label'] is "Model" or
    "Editor", [field] is "reply" or "prompt". *)
Definition read_field (what label label' field : string)
    (outcome : llm_outcome) : result string :=
  match outcome with
  | OpenAIError exc => Raise (AIClientError (what +:+ exc))
  | Completion content =>
      let message_content := content_or_empty_object content in
      match json_loads E message_content with
      | None =>
          Raise (AIClientError
            (label +:+ " did not return valid JSON. Raw content: "
               +:+ message_content))
      | Some parsed =>
          match Py.get parsed field with
          | Raise e => Raise e
          | Ok (Some (JStr s)) => Ok s
          | Ok _ =>
              Raise (AIClientError
                (label' +:+ " JSON missing '" +:+ field
                   +:+ "' field or not a string: " +:+ py_repr E parsed))
          end
      end
  end.

(** The API key is configured. *)
Definition key_set : Prop :=
  exists k, OPENAI_API_KEY E = Some k /\ k <> "".

(** The completion service answers its [k]-th call with [outcome],
    whatever the request. *)
Definition answers (k : nat) (outcome : llm_outcome) : Prop :=
  forall req, chat_completions_create E k req = outcome.

End WithEnvironment.

End AIClient.

(* ================================================================== *)
(** ** dataset_builder.py *)
(* ================================================================== *)

Module DatasetBuilder.

Record Sample : Type := mk_Sample {
  contact_id : json;
  scenario : json;
  client_sequence : list json;
  consultant_reply : list json;
  chat_history : list (gmap string json)
}.

(** [m.get("direction") == d] *)
Definition direction_is (d : string) (m : gmap string json) : bool :=
  Py.eq_str (m !! "direction") d.

(** [m.get("text", "")] *)
Definition text_of (m : gmap string json) : json :=
  default (JStr "") (m !! "text").

(** [while i < n and messages[i].get("direction") == d:
       seq.append(messages[i]); i += 1] *)
Fixpoint collect_run (d : string) (messages : list (gmap string json))
    (fuel i : nat) (seq : list (gmap string json))
    : nat * list (gmap string json) :=
  match fuel with
  | O => (i, seq)
  | S fuel' =>
      match messages !! i with
      | Some m =>
          if direction_is d m
          then collect_run d messages fuel' (S i) (seq ++ [m])
          else (i, seq)
      | None => (i, seq)
      end
  end.

(** The [while i < n] loop over one conversation. *)
Fixpoint scan (cid scen : json) (messages : list (gmap string json))
    (fuel i : nat) (history : list (gmap string json))
    (samples : list Sample) : list Sample :=
  match fuel with
  | O => samples
  | S fuel' =>
      match messages !! i with
      | None => samples
      | Some msg =>
          if Py.eq_str (msg !! "direction") "in" then
            let '(i1, client_seq) :=
              collect_run "in" messages (length messages) i [] in
            let '(i2, consultant_seq) :=
              collect_run "out" messages (length messages) i1 [] in
            let client_texts := map text_of client_seq in
            let consultant_texts := map text_of consultant_seq in
            scan cid scen messages fuel' i2
                 ((history ++ client_seq) ++ consultant_seq)
                 (samples ++ [mk_Sample cid scen client_texts
                                        consultant_texts history])
          else
            scan cid scen messages fuel' (S i) (history ++ [msg]) samples
      end
  end.

(** The body of [for convo in conversations]. *)
Definition scan_conversation (convo : conversation_record)
    (samples : list Sample) : list Sample :=
  let cid := default (JStr "") (convo_contact_id convo) in
  let scen := default (JStr "") (convo_scenario convo) in
  let messages := default [] (convo_conversation convo) in
  scan cid scen messages (length messages) 0 [] samples.

Definition build_samples (conversations : list conversation_record) : list Sample :=
  fold_left (fun samples convo => scan_conversation convo samples)
            conversations [].

(** *** The segmentation as the specification words it *)

Fixpoint take_while {A} (p : A -> bool) (l : list A) : list A :=
  match l with
  | [] => []
  | x :: rest => if p x then x :: take_while p rest else []
  end.

Fixpoint drop_while {A} (p : A -> bool) (l : list A) : list A :=
  match l with
  | [] => []
  | x :: rest => if p x then drop_while p rest else l
  end.

(** Position [i] holds an "in" message and the message before it, if
    any, is not an "in" message: a maximal run of "in" messages starts
    at [i]. *)
Definition starts_run (messages : list (gmap string json)) (i : nat) : bool :=
  match messages !! i with
  | Some m =>
      direction_is "in" m
      && match i with
         | O => true
         | S j =>
             match messages !! j with
             | Some m' => negb (direction_is "in" m')
             | None => true
             end
         end
  | None => false
  end.

(** The Sample of the run starting at [i]: the texts of the longest
    stretch of "in" messages from [i] on, the texts of the longest stretch
    of "out" messages right after it, and all messages before [i]. *)
Definition sample_at (cid scen : json) (messages : list (gmap string json))
    (i : nat) : Sample :=
  let rest := drop i messages in
  mk_Sample cid scen
    (map text_of (take_while (direction_is "in") rest))
    (map text_of (take_while (direction_is "out")
                    (drop_while (direction_is "in") rest)))
    (take i messages).

(** One Sample per maximal run of "in" messages, in order. *)
Definition spec_samples (cid scen : json) (messages : list (gmap string json))
    : list Sample :=
  map (sample_at cid scen messages)
      (List.filter (starts_run messages) (seq 0 (length messages))).

Definition spec_conversation (convo : conversation_record) : list Sample :=
  spec_samples (default (JStr "") (convo_contact_id convo))
               (default (JStr "") (convo_scenario convo))
               (default [] (convo_conversation convo)).

(** The same, told along the list: [prev_in] says whether the message
    just before [rest] is an "in" message, [history] is what precedes. *)
Fixpoint samples_from (cid scen : json) (prev_in : bool)
    (history rest : list (gmap string json)) : list Sample :=
  match rest with
  | [] => []
  | m :: rest' =>
      (if direction_is "in" m && negb prev_in
       then [mk_Sample cid scen
               (map text_of (take_while (direction_is "in") rest))
               (map text_of (take_while (direction_is "out")
                               (drop_while (direction_is "in") rest)))
               history]
       else [])
      ++ samples_from cid scen (direction_is "in" m) (history ++ [m]) rest'
  end.

End DatasetBuilder.

(* ================================================================== *)
(** ** app.py *)
(* ================================================================== *)

Module App.

Import PyStr.

(** A Flask response: [jsonify(body), status]. *)
Record response : Type := mk_response {
  status : Z;
  body : json
}.

Definition jsonify1 (key : string) (v : json) : json :=
  JObj (<[key := v]> ∅).

Definition error_response (code : Z) (msg : string) : response :=
  mk_response code (jsonify1 "error" (JStr msg)).

(** [request.get_json(force=True, silent=True) or {}]; the argument is
    the parsed body, [None] when there is none or it is malformed. *)
Definition request_data (request_json : option json) : json :=
  match request_json with
  | Some j => if Py.truthy j then j else JObj ∅
  | None => JObj ∅
  end.

(** [not isinstance(x, str) or not x.strip()] *)
Definition not_nonblank_str (x : option json) : bool :=
  match x with
  | Some (JStr s) => negb (truthy (strip s))
  | _ => true
  end.

(** The [for msg in raw_history] loop of [_normalize_chat_history]. *)
Fixpoint normalize_loop (raw_history normalized : list json) : result (list json) :=
  match raw_history with
  | [] => Ok normalized
  | msg :: rest =>
      match Py.get msg "role" with
      | Raise e => Raise e
      | Ok role =>
          match Py.get_default msg "message" (JStr "") with
          | Raise e => Raise e
          | Ok text =>
              if negb (Py.eq_str role "client" || Py.eq_str role "consultant")
              then normalize_loop rest normalized
              else normalize_loop rest
                     (normalized ++
                        [JObj (<["message" := text]>
                              (<["role" := default JNull role]> ∅))])
          end
      end
  end.

(** One entry of [history_for_model]: direction "in" becomes role
    "client", anything else "consultant". *)
Definition history_entry (m : gmap string json) : json :=
  let role := if Py.eq_str (m !! "direction") "in" then "client" else "consultant" in
  JObj (<["message" := default (JStr "") (m !! "text")]>
       (<["role" := JStr role]> ∅)).

(** *** The normalization as the specification words it *)

(** The entry's [role] is exactly "client" or "consultant". *)
Definition known_role (m : gmap string json) : Prop :=
  m !! "role" = Some (JStr "client") \/ m !! "role" = Some (JStr "consultant").

Definition known_roleb (m : gmap string json) : bool :=
  match m !! "role" with
  | Some (JStr r) => String.eqb r "client" || String.eqb r "consultant"
  | _ => false
  end.

(** The [{role, message}] pair of an entry, an absent [message] read as
    the empty string. *)
Definition reshape (m : gmap string json) : json :=
  JObj (<["message" := default (JStr "") (m !! "message")]>
       (<["role" := default JNull (m !! "role")]> ∅)).

Definition spec_normalize (entries : list (gmap string json)) : list json :=
  map reshape (List.filter known_roleb entries).

Section WithEnvironment.

Context (E : environment).

Definition health : Py.M response :=
  Py.ret (mk_response 200 (jsonify1 "status" (JStr "ok"))).

Definition _normalize_chat_history (raw_history : list json) : Py.M (list json) :=
  let! normalized := Py.lift (normalize_loop raw_history []) in
  let! _ := Py.print LogKuay in
  Py.ret normalized.

Definition generate_reply_endpoint (request_json : option json) : Py.M response :=
  let data := request_data request_json in
  let! client_sequence := Py.lift (Py.get data "clientSequence") in
  let! chat_history := Py.lift (Py.get_default data "chatHistory" (JArr [])) in
  match client_sequence, not_nonblank_str client_sequence with
  | Some (JStr client_sequence), false =>
      match chat_history with
      | JArr chat_history =>
          let! normalized := _normalize_chat_history chat_history in
          let payload :=
            JObj (<["chatHistory" := JArr normalized]>
                 (<["clientSequence" := JStr client_sequence]> ∅)) in
          let! attempt :=
            Py.try_except_AIClientError
              (let! reply := AIClient.generate_chat_reply E payload in
               Py.ret (inl reply))
              (fun exc => Py.ret (inr (error_response 500 exc))) in
          match attempt with
          | inl reply => Py.ret (mk_response 200 (jsonify1 "aiReply" (JStr reply)))
          | inr resp => Py.ret resp
          end
      | _ => Py.ret (error_response 400 "chatHistory must be a list")
      end
  | _, _ => Py.ret (error_response 400 "clientSequence must be a non-empty string")
  end.

Definition improve_ai_endpoint (request_json : option json) : Py.M response :=
  let data := request_data request_json in
  let! client_sequence := Py.lift (Py.get data "clientSequence") in
  let! chat_history := Py.lift (Py.get_default data "chatHistory" (JArr [])) in
  let! consultant_reply := Py.lift (Py.get data "consultantReply") in
  match client_sequence, not_nonblank_str client_sequence with
  | Some (JStr client_sequence), false =>
      match consultant_reply, not_nonblank_str consultant_reply with
      | Some (JStr consultant_reply), false =>
          match chat_history with
          | JArr chat_history =>
              let! normalized_history := _normalize_chat_history chat_history in
              let! attempt :=
                Py.try_except_AIClientError
                  (let! predicted_reply :=
                     AIClient.generate_chat_reply E
                       (JObj (<["chatHistory" := JArr normalized_history]>
                             (<["clientSequence" := JStr client_sequence]> ∅))) in
                   Py.ret (inl predicted_reply))
                  (fun exc => Py.ret (inr (error_response 500 exc))) in
              match attempt with
              | inr resp => Py.ret resp
              | inl predicted_reply =>
                  let! existing_prompt := PromptStore.get_latest_prompt E in
                  let! attempt :=
                    Py.try_except_AIClientError
                      (let! updated_prompt :=
                         AIClient.improve_prompt_with_editor E existing_prompt
                           client_sequence normalized_history consultant_reply
                           predicted_reply in
                       Py.ret (inl updated_prompt))
                      (fun exc => Py.ret (inr (error_response 500 exc))) in
                  match attempt with
                  | inr resp => Py.ret resp
                  | inl updated_prompt =>
                      let! _ := PromptStore.save_new_prompt E updated_prompt in
                      Py.ret (mk_response 200
                        (JObj (<["updatedPrompt" := JStr updated_prompt]>
                              (<["predictedReply" := JStr predicted_reply]> ∅))))
                  end
              end
          | _ => Py.ret (error_response 400 "chatHistory must be a list")
          end
      | _, _ =>
          Py.ret (error_response 400 "consultantReply must be a non-empty string")
      end
  | _, _ => Py.ret (error_response 400 "clientSequence must be a non-empty string")
  end.

(** The text between the current prompt and the instructions. *)
Definition manual_heading : string :=
  nl +:+ nl +:+ "# Additional manual instructions" +:+ nl.

(** The appended instructions block: heading line, then the trimmed
    instructions. *)
Definition manual_block (instructions : string) : string :=
  "# Additional manual instructions" +:+ nl +:+ strip instructions.

Definition improve_ai_manually_endpoint (request_json : option json) : Py.M response :=
  let data := request_data request_json in
  let! instructions := Py.lift (Py.get data "instructions") in
  match instructions, not_nonblank_str instructions with
  | Some (JStr instructions), false =>
      let! current_prompt := PromptStore.get_latest_prompt E in
      let manual_update :=
        strip current_prompt +:+ manual_heading +:+ strip instructions in
      let! updated_prompt := PromptStore.save_new_prompt E manual_update in
      Py.ret (mk_response 200 (jsonify1 "updatedPrompt" (JStr updated_prompt)))
  | _, _ => Py.ret (error_response 400 "instructions must be a non-empty string")
  end.

(** What the pipeline sends to the model for a sample. *)
Definition model_history (s : DatasetBuilder.Sample) : list json :=
  map history_entry (DatasetBuilder.chat_history s).

Definition model_payload (client_seq_text : string)
    (s : DatasetBuilder.Sample) : json :=
  JObj (<["chatHistory" := JArr (model_history s)]>
       (<["clientSequence" := JStr client_seq_text]> ∅)).

(** The two text lists of a sample are lists of strings, joined to
    [client_seq_text] and [consultant_reply_text]. *)
Definition joined (s : DatasetBuilder.Sample)
    (client_seq_text consultant_reply_text : string) : Prop :=
  Py.join nl (DatasetBuilder.client_sequence s) = Ok client_seq_text /\
  Py.join nl (DatasetBuilder.consultant_reply s) = Ok consultant_reply_text.

(** The body of the [try] of the pipeline for one sample; its value is
    the new running prompt. *)
Definition learn_from_sample (idx : nat) (s : DatasetBuilder.Sample)
    (prompt client_seq_text consultant_reply_text : string)
    (history_for_model : list json) : Py.M string :=
  let! predicted :=
    AIClient.generate_chat_reply E
      (JObj (<["chatHistory" := JArr history_for_model]>
            (<["clientSequence" := JStr client_seq_text]> ∅))) in
  let! prompt :=
    AIClient.improve_prompt_with_editor E prompt client_seq_text
      history_for_model consultant_reply_text predicted in
  let! _ := PromptStore.save_new_prompt E prompt in
  let! _ := Py.print (LogUpdated idx (DatasetBuilder.contact_id s)) in
  Py.ret prompt.

(** One iteration of [for idx, s in enumerate(samples, start=1)]. *)
Definition pipeline_step (idx : nat) (s : DatasetBuilder.Sample)
    (prompt : string) : Py.M string :=
  let! client_seq_text := Py.lift (Py.join nl (DatasetBuilder.client_sequence s)) in
  let! consultant_reply_text :=
    Py.lift (Py.join nl (DatasetBuilder.consultant_reply s)) in
  let history_for_model := map history_entry (DatasetBuilder.chat_history s) in
  Py.try_except_AIClientError
    (learn_from_sample idx s prompt client_seq_text consultant_reply_text
                       history_for_model)
    (fun exc =>
       let! _ := Py.print (LogSkipped idx exc) in
       Py.ret prompt).

Fixpoint pipeline_loop (idx : nat) (samples : list DatasetBuilder.Sample)
    (prompt : string) : Py.M unit :=
  match samples with
  | [] => Py.ret tt
  | s :: rest =>
      let! prompt := pipeline_step idx s prompt in
      pipeline_loop (S idx) rest prompt
  end.

Definition run_self_learning_pipeline (limit : option Z) : Py.M unit :=
  let conversations := conversations_json E in
  let samples := DatasetBuilder.build_samples conversations in
  let samples :=
    match limit with
    | Some limit => Py.slice_to samples limit
    | None => samples
    end in
  let! prompt := PromptStore.get_latest_prompt E in
  pipeline_loop 1 samples prompt.

(** A request to [/improve-ai] with well-formed fields. *)
Definition improve_request (data : gmap string json)
    (client_sequence consultant_reply : string)
    (entries : list (gmap string json)) : Prop :=
  data !! "clientSequence" = Some (JStr client_sequence) /\
  strip client_sequence <> "" /\
  data !! "consultantReply" = Some (JStr consultant_reply) /\
  strip consultant_reply <> "" /\
  default (JArr []) (data !! "chatHistory") = JArr (JObj <$> entries).

(** Both AI calls of [/improve-ai] succeed, with predicted reply [p] and
    edited prompt [e]. *)
Definition both_calls_succeed (w : world) (p e : string) : Prop :=
  AIClient.key_set E /\
  exists o1 o2,
    AIClient.answers E (llm_calls w) o1 /\
    AIClient.read_field E "Error calling OpenAI: " "Model" "Model" "reply" o1 = Ok p /\
    AIClient.answers E (S (llm_calls w)) o2 /\
    AIClient.read_field E "Error calling OpenAI editor: " "Editor model" "Editor"
      "prompt" o2 = Ok e.

(** The world in which [/improve-ai] hands the edited prompt to the
    store. *)
Definition before_save (w : world) : world :=
  AIClient.after_call (AIClient.after_call (snd (PromptStore.get_latest_prompt E
    (mk_world (prompts w) (last_rowid w) (clock_reads w) (llm_calls w)
              (stdout w ++ [LogKuay]))))).

End WithEnvironment.

End App.

(* ================================================================== *)
(** ** Concrete surroundings used to run the definitions *)
(* ================================================================== *)

Module Demo.

Import PyStr.

(** The text [{"key": "value"}]. *)
Definition obj1_text (key value : string) : string :=
  "{" +:+ dq +:+ key +:+ dq +:+ ": " +:+ dq +:+ value +:+ dq +:+ "}".

(** A parser that knows a handful of documents and rejects the rest. *)
Definition loads_table : list (string * json) :=
  [ ("{}", JObj ∅);
    ("[]", JArr []);
    (obj1_text "reply" "X", JObj (<["reply" := JStr "X"]> ∅));
    ("{" +:+ dq +:+ "reply" +:+ dq +:+ ": 5}", JObj (<["reply" := JNum 5]> ∅));
    (obj1_text "prompt" " P ", JObj (<["prompt" := JStr " P "]> ∅));
    (obj1_text "prompt" "  ", JObj (<["prompt" := JStr "  "]> ∅)) ].

Fixpoint lookup_table (tbl : list (string * json)) (s : string) : option json :=
  match tbl with
  | [] => None
  | (k, v) :: rest => if String.eqb k s then Some v else lookup_table rest s
  end.

(** Surroundings in which the completion service answers its k-th call
    with the k-th entry of [script]. *)
Definition env (script : list llm_outcome)
    (convs : list conversation_record) : environment :=
  {| OPENAI_API_KEY := Some "sk-test";
     OPENAI_MODEL := None;
     utcnow_isoformat := fun _ => "2025-01-01T00:00:00";
     chat_completions_create :=
       fun k _ => nth k script (OpenAIError "connection refused");
     json_loads := lookup_table loads_table;
     py_repr := fun _ => "<value>";
     conversations_json := convs |}.

Definition empty_world : world := mk_world [] 0 0 0 [].

Definition message (direction text : string) : gmap string json :=
  <["text" := JStr text]> (<["direction" := JStr direction]> ∅).

(** Request bodies. *)
Definition reply_request : option json :=
  Some (JObj (<["clientSequence" := JStr "hello"]> ∅)).

Definition improve_request_body : option json :=
  Some (JObj (<["consultantReply" := JStr "hi there"]>
             (<["clientSequence" := JStr "hello"]> ∅))).

Definition manual_request (instructions : string) : option json :=
  Some (JObj (<["instructions" := JStr instructions]> ∅)).

(** Completions whose content is the given document. *)
Definition reply_X : llm_outcome := Completion (Some (obj1_text "reply" "X")).
Definition reply_5 : llm_outcome :=
  Completion (Some ("{" +:+ dq +:+ "reply" +:+ dq +:+ ": 5}")).
Definition empty_object : llm_outcome := Completion (Some "{}").
Definition empty_array : llm_outcome := Completion (Some "[]").
Definition prompt_padded : llm_outcome := Completion (Some (obj1_text "prompt" " P ")).
Definition prompt_blank : llm_outcome := Completion (Some (obj1_text "prompt" "  ")).

(** A transcript with two client turns, the second one unanswered. *)
Definition two_turns : list conversation_record :=
  [ mk_conversation (Some (JStr "c-1")) (Some (JStr "dtv"))
      (Some [message "in" "hi"; message "out" "yo"; message "in" "more"]) ].

(** The Sample of the first turn. *)
Definition first_turn : DatasetBuilder.Sample :=
  DatasetBuilder.mk_Sample (JStr "c-1") (JStr "dtv") [JStr "hi"] [JStr "yo"] [].

(** A transcript with one answered client turn. *)
Definition one_turn : list conversation_record :=
  [ mk_conversation (Some (JStr "c-1")) (Some (JStr "dtv"))
      (Some [message "in" "hi"; message "out" "yo"]) ].

(** A store holding versions 1, 2 and 3. *)
Definition world_v3 : world :=
  mk_world [ mk_row 1 1 "first" "2025-01-01T00:00:00";
             mk_row 2 2 "second" "2025-01-02T00:00:00";
             mk_row 3 3 "third" "2025-01-03T00:00:00" ]
           3 0 0 [].

End Demo.

(* ================================================================== *)
(** ** prompt_store.py: listing the versions *)
(* ================================================================== *)

Module PromptListing.

(** [ORDER BY version DESC], built one row at a time: a row goes before the
    first row whose version is not greater than its own, so rows of equal
    version keep their table order. *)
Fixpoint insert_desc (r : prompt_row) (sorted : list prompt_row) : list prompt_row :=
  match sorted with
  | [] => [r]
  | r' :: rest =>
      if version r' <=? version r then r :: sorted
      else r' :: insert_desc r rest
  end.

Definition order_by_version_desc (rows : list prompt_row) : list prompt_row :=
  foldr insert_desc [] rows.

(** [LIMIT ?]: a negative bound lifts the limit. *)
Definition sql_limit {A} (limit : Z) (rows : list A) : list A :=
  if limit <? 0 then rows else take (Z.to_nat limit) rows.

(** [{"version": version, "prompt_text": prompt_text, "created_at": created_at}] *)
Definition row_dict (r : prompt_row) : json :=
  JObj (<["created_at" := JStr (created_at r)]>
       (<["prompt_text" := JStr (prompt_text r)]>
       (<["version" := JNum (version r)]> ∅))).

Definition list_prompt_versions (limit : Z) : Py.M (list json) :=
  fun w =>
    let rows := sql_limit limit (order_by_version_desc (prompts w)) in
    (Ok (map row_dict rows), w).

(** Most recent first. *)
Definition newer_first (a b : prompt_row) : Prop := version b <= version a.

(** The versions of a list of rows are [k], [k + 1], [k + 2], ... *)
Fixpoint numbered (k : Z) (rows : list prompt_row) : Prop :=
  match rows with
  | [] => True
  | r :: rest => version r = k /\ numbered (k + 1) rest
  end.

(** The text of a row is what [save_new_prompt] or the seeding stores:
    trimmed and not empty. *)
Definition clean_text (r : prompt_row) : Prop :=
  PyStr.strip (prompt_text r) = prompt_text r /\ prompt_text r <> "".

End PromptListing.

(* ================================================================== *)
(** ** Any access to the store *)
(* ================================================================== *)

Module StoreAccess.

(** A call of one of the four public functions of prompt_store.py. *)
Inductive store_access : Type :=
  | Call (c : PromptStore.store_call)
  | CallList (limit : Z).

Definition run_access (E : environment) (a : store_access) (w : world) : world :=
  match a with
  | Call c => PromptStore.run_call E c w
  | CallList limit => snd (PromptListing.list_prompt_versions limit w)
  end.

Definition run_accesses (E : environment) (l : list store_access) (w : world) : world :=
  fold_left (fun w a => run_access E a w) l w.

(** The accesses that write when they find no row: the two seeding
    functions, and [save_new_prompt] with a text that passes its guard
    [not new_prompt or not new_prompt.strip()]. *)
Definition writes_when_empty (a : store_access) : bool :=
  match a with
  | Call PromptStore.CallGetLatest => true
  | Call PromptStore.CallInitialize => true
  | Call (PromptStore.CallSave new_prompt) =>
      negb (negb (PyStr.truthy new_prompt)
            || negb (PyStr.truthy (PyStr.strip new_prompt)))
  | CallList _ => false
  end.

End StoreAccess.

(* ================================================================== *)
(** ** What a computation may do to the world *)
(* ================================================================== *)

Module Effects.

(** [c] only appends rows to the table, at most [n] of them, whatever it
    returns or raises. *)
Definition appends_at_most {A} (n : nat) (c : Py.M A) : Prop :=
  forall w, exists extra,
    prompts (snd (c w)) = prompts w ++ extra /\ (length extra <= n)%nat.

(** The same, for a table that already has rows. *)
Definition appends_at_most_on_rows {A} (n : nat) (c : Py.M A) : Prop :=
  forall w, prompts w <> [] ->
    exists extra,
      prompts (snd (c w)) = prompts w ++ extra /\ (length extra <= n)%nat.

(** [c] makes at most [n] calls to the completion service. *)
Definition calls_at_most {A} (n : nat) (c : Py.M A) : Prop :=
  forall w,
    (llm_calls w <= llm_calls (snd (c w)))%nat /\
    (llm_calls (snd (c w)) <= llm_calls w + n)%nat.

End Effects.

(* ================================================================== *)
(** ** More concrete surroundings *)
(* ================================================================== *)

Module Demo2.

(** Surroundings without an API key. *)
Definition env_no_key : environment :=
  {| OPENAI_API_KEY := None;
     OPENAI_MODEL := None;
     utcnow_isoformat := fun _ => "2025-01-01T00:00:00";
     chat_completions_create := fun _ _ => Demo.reply_X;
     json_loads := Demo.lookup_table Demo.loads_table;
     py_repr := fun _ => "<value>";
     conversations_json := [] |}.

(** A table whose latest row has an empty text. *)
Definition world_empty_text : world :=
  mk_world [ mk_row 1 1 "first" "2025-01-01T00:00:00";
             mk_row 2 2 "" "2025-01-02T00:00:00" ]
           2 0 0 [].

(** A Sample whose client text is not a string. *)
Definition null_text_sample : DatasetBuilder.Sample :=
  DatasetBuilder.mk_Sample (JStr "c-2") (JStr "dtv") [JNull] [JStr "yo"] [].

(** Request bodies whose chat history holds the number 5. *)
Definition number_in_history : list json := [JNum 5].

Definition reply_request_number_in_history : option json :=
  Some (JObj (<["chatHistory" := JArr number_in_history]>
             (<["clientSequence" := JStr "hi"]> ∅))).

Definition improve_request_number_in_history : option json :=
  Some (JObj (<["consultantReply" := JStr "hello"]>
             (<["chatHistory" := JArr number_in_history]>
             (<["clientSequence" := JStr "hi"]> ∅)))).

(** A request body that is a list. *)
Definition list_body : option json := Some (JArr [JNum 1]).

End Demo2.

(* ================================================================== *)
(** * Properties *)
(* ================================================================== *)

(** ** Trimming *)

Module PyStrFacts.

Import PyStr.

Lemma append_assoc (a b c : string) : (a +:+ b) +:+ c = a +:+ (b +:+ c).
Proof. induction a as [|x r IH]; simpl; [reflexivity | now rewrite IH]. Qed.

Lemma lstrip_all_whitespace (s : string) :
  all_whitespace s = true -> lstrip s = "".
Proof.
  induction s as [|c r IH]; simpl; [reflexivity |].
  intros H. apply andb_true_iff in H as [Hc Hr]. rewrite Hc. auto.
Qed.

Lemma rstrip_empty_all_whitespace (s : string) :
  rstrip s = "" -> all_whitespace s = true.
Proof.
  induction s as [|c r IH]; simpl; [reflexivity |].
  destruct (rstrip r) eqn:Hr.
  - destruct (isspace c); [intros _; simpl; auto | discriminate].
  - discriminate.
Qed.

Lemma lstrip_head (s : string) : is_space_opt (head (lstrip s)) = false.
Proof.
  induction s as [|c r IH]; simpl; [reflexivity |].
  destruct (isspace c) eqn:Hc; [exact IH | simpl; exact Hc].
Qed.

(** What [lstrip] removes is whitespace, and what it keeps is a suffix. *)
Lemma lstrip_split (s : string) :
  exists p, s = p +:+ lstrip s /\ all_whitespace p = true.
Proof.
  induction s as [|c r [p [Hp Hw]]]; simpl.
  - exists ""; auto.
  - destruct (isspace c) eqn:Hc.
    + exists (String c p); simpl. rewrite Hc, Hw. split; [congruence | reflexivity].
    + exists ""; auto.
Qed.

Lemma all_whitespace_app (a b : string) :
  all_whitespace (a +:+ b) = all_whitespace a && all_whitespace b.
Proof.
  induction a as [|c r IH]; simpl; [reflexivity |].
  rewrite IH. now rewrite andb_assoc.
Qed.

Lemma strip_empty_iff (s : string) :
  strip s = "" <-> all_whitespace s = true.
Proof.
  unfold strip. split.
  - intros H. apply rstrip_empty_all_whitespace in H.
    destruct (lstrip_split s) as [p [Hp Hw]].
    rewrite Hp, all_whitespace_app, Hw, H. reflexivity.
  - intros H. now rewrite (lstrip_all_whitespace s H).
Qed.

Lemma rstrip_nonspace_head (c : ascii) (r : string) :
  isspace c = false -> exists r', rstrip (String c r) = String c r'.
Proof.
  intros Hc. simpl. destruct (rstrip r); rewrite ?Hc; eauto.
Qed.

Lemma rstrip_last (s : string) : is_space_opt (last (rstrip s)) = false.
Proof.
  induction s as [|c r IH]; simpl; [reflexivity |].
  destruct (rstrip r) as [|c' r'] eqn:Hr.
  - destruct (isspace c) eqn:Hc; simpl; [reflexivity | exact Hc].
  - simpl in *. exact IH.
Qed.

Lemma rstrip_fixed (s : string) :
  is_space_opt (last s) = false -> rstrip s = s.
Proof.
  induction s as [|c r IH]; simpl; [reflexivity |].
  destruct r as [|c' r'].
  - simpl. intros ->. reflexivity.
  - intros H. rewrite (IH H). reflexivity.
Qed.

Lemma rstrip_idempotent (s : string) : rstrip (rstrip s) = rstrip s.
Proof. apply rstrip_fixed, rstrip_last. Qed.

Lemma lstrip_fixed (s : string) :
  is_space_opt (head s) = false -> lstrip s = s.
Proof. destruct s as [|c r]; simpl; [reflexivity | intros ->; reflexivity]. Qed.

Lemma head_rstrip (s : string) :
  is_space_opt (head s) = false -> is_space_opt (head (rstrip s)) = false.
Proof.
  destruct s as [|c r]; [reflexivity |].
  change (isspace c = false -> is_space_opt (head (rstrip (String c r))) = false).
  intros Hc. destruct (rstrip_nonspace_head c r Hc) as [r' ->]. exact Hc.
Qed.

Lemma strip_head (s : string) : is_space_opt (head (strip s)) = false.
Proof. apply head_rstrip, lstrip_head. Qed.

Lemma strip_last (s : string) : is_space_opt (last (strip s)) = false.
Proof. apply rstrip_last. Qed.

Lemma strip_fixed (s : string) : outer_whitespace s = false -> strip s = s.
Proof.
  unfold outer_whitespace, strip. intros H.
  apply orb_false_iff in H as [Hh Hl].
  rewrite (lstrip_fixed s Hh). now apply rstrip_fixed.
Qed.

(** [strip] changes a string exactly when it starts or ends with
    whitespace. *)
Lemma strip_changes_iff (s : string) :
  strip s <> s <-> outer_whitespace s = true.
Proof.
  split.
  - intros H. destruct (outer_whitespace s) eqn:Ho; [reflexivity |].
    exfalso. apply H. now apply strip_fixed.
  - intros Ho Heq. unfold outer_whitespace in Ho.
    rewrite <- Heq, strip_head, strip_last in Ho. discriminate.
Qed.

Lemma strip_idempotent (s : string) : strip (strip s) = strip s.
Proof.
  apply strip_fixed. unfold outer_whitespace.
  now rewrite strip_head, strip_last.
Qed.

Lemma rstrip_app (a b : string) :
  rstrip b <> "" -> rstrip (a +:+ b) = a +:+ rstrip b.
Proof.
  intros Hb. induction a as [|c r IH]; simpl; [reflexivity |].
  rewrite IH. destruct (r +:+ rstrip b) eqn:Hr; [| reflexivity].
  exfalso. destruct r; simpl in Hr; [contradiction | discriminate].
Qed.

Lemma truthy_true_iff (s : string) : truthy s = true <-> s <> "".
Proof. destruct s; simpl; split; congruence. Qed.

Lemma endswith_refl (s : string) : endswith s s.
Proof. exists ""; reflexivity. Qed.

Lemma endswith_app (p s t : string) : endswith s t -> endswith (p +:+ s) t.
Proof. intros [q ->]. exists (p +:+ q). now rewrite append_assoc. Qed.

End PyStrFacts.

(** ** Sequencing *)

Module PyFacts.

Lemma bind_ok {A B} (c : Py.M A) (k : A -> Py.M B) (w w' : world) (a : A) :
  c w = (Ok a, w') -> Py.bind c k w = k a w'.
Proof. intros H. unfold Py.bind. now rewrite H. Qed.

Lemma bind_raise {A B} (c : Py.M A) (k : A -> Py.M B) (w w' : world) (e : exn) :
  c w = (Raise e, w') -> Py.bind c k w = (Raise e, w').
Proof. intros H. unfold Py.bind. now rewrite H. Qed.

Lemma try_ok {A} (c : Py.M A) (h : string -> Py.M A) (w w' : world) (a : A) :
  c w = (Ok a, w') -> Py.try_except_AIClientError c h w = (Ok a, w').
Proof. intros H. unfold Py.try_except_AIClientError. now rewrite H. Qed.

Lemma try_caught {A} (c : Py.M A) (h : string -> Py.M A) (w w' : world)
    (msg : string) :
  c w = (Raise (AIClientError msg), w') ->
  Py.try_except_AIClientError c h w = h msg w'.
Proof. intros H. unfold Py.try_except_AIClientError. now rewrite H. Qed.

End PyFacts.

(** ** The prompt store *)

Module PromptStoreFacts.

Import PyStr PyStrFacts PromptStore.

Lemma DEFAULT_BASE_PROMPT_truthy : truthy DEFAULT_BASE_PROMPT = true.
Proof. vm_compute. reflexivity. Qed.

Lemma DEFAULT_BASE_PROMPT_nonempty : DEFAULT_BASE_PROMPT <> "".
Proof. apply truthy_true_iff, DEFAULT_BASE_PROMPT_truthy. Qed.

Lemma max_version_bound (rows : list prompt_row) (m : Z) :
  max_version rows = Some m -> Forall (fun r => version r <= m) rows.
Proof.
  revert m. induction rows as [|r rest IH]; intros m H; [constructor |].
  simpl in H. destruct (max_version rest) as [m'|] eqn:Hm.
  - injection H as <-. constructor; [lia |].
    eapply Forall_impl; [apply IH; reflexivity |]. simpl. intros; lia.
  - injection H as <-. destruct rest; [repeat constructor; lia |].
    simpl in Hm. destruct (max_version rest); discriminate.
Qed.

Lemma max_version_none (rows : list prompt_row) :
  max_version rows = None <-> rows = [].
Proof.
  destruct rows as [|r rest]; simpl; [tauto |].
  destruct (max_version rest); split; discriminate.
Qed.

(** The version [save_new_prompt] assigns is above every stored one. *)
Lemma next_version_above (rows : list prompt_row) :
  Forall (fun r => version r < default 0 (max_version rows) + 1) rows.
Proof.
  destruct (max_version rows) as [m|] eqn:Hm.
  - eapply Forall_impl; [apply max_version_bound, Hm |]. simpl. intros; lia.
  - apply max_version_none in Hm. subst. constructor.
Qed.

Lemma max_version_snoc (rows : list prompt_row) (r : prompt_row) :
  Forall (fun r' => version r' < version r) rows ->
  max_version (rows ++ [r]) = Some (version r).
Proof.
  induction rows as [|r0 rest IH]; intros H; [reflexivity |].
  inversion H; subst. simpl. rewrite IH by assumption. f_equal. lia.
Qed.

(** A freshly appended row of greatest version is the latest one. *)
Lemma latest_snoc (rows : list prompt_row) (r : prompt_row) :
  Forall (fun r' => version r' < version r) rows ->
  order_by_version_desc_limit_1 (rows ++ [r]) = Some r.
Proof.
  induction rows as [|r0 rest IH]; intros H; [reflexivity |].
  inversion H; subst. simpl. rewrite IH by assumption.
  destruct (version r0 <? version r) eqn:Hlt; [reflexivity |].
  apply Z.ltb_ge in Hlt. lia.
Qed.

Section WithEnvironment.

Context (E : environment).

Lemma initialize_empty (w : world) :
  prompts w = [] -> initialize_prompt_if_empty E w = (Ok tt, seeded E w).
Proof.
  intros H. unfold initialize_prompt_if_empty, Py.bind, select_count.
  rewrite H. reflexivity.
Qed.

Lemma initialize_nonempty (w : world) :
  prompts w <> [] -> initialize_prompt_if_empty E w = (Ok tt, w).
Proof.
  intros H. unfold initialize_prompt_if_empty, Py.bind, select_count.
  destruct (prompts w); [contradiction | reflexivity].
Qed.

Lemma get_latest_prompt_empty (w : world) :
  prompts w = [] ->
  get_latest_prompt E w = (Ok DEFAULT_BASE_PROMPT, seeded E w).
Proof.
  intros H. unfold get_latest_prompt.
  rewrite (PyFacts.bind_ok _ _ w w None) by (unfold select_latest; now rewrite H).
  cbn [row_and_text].
  rewrite (PyFacts.bind_ok _ _ _ _ _ (initialize_empty w H)).
  unfold Py.bind, select_latest, Py.ret, seeded. rewrite H.
  cbn [app prompts order_by_version_desc_limit_1 row_and_text prompt_text].
  rewrite DEFAULT_BASE_PROMPT_truthy. reflexivity.
Qed.

Lemma get_latest_prompt_nonempty (w : world) :
  prompts w <> [] ->
  exists text,
    get_latest_prompt E w = (Ok text, w) /\ text <> "" /\ text = default DEFAULT_BASE_PROMPT
             (row_and_text (order_by_version_desc_limit_1 (prompts w))).
Proof.
  intros H. unfold get_latest_prompt, Py.bind, select_latest.
  destruct (row_and_text (order_by_version_desc_limit_1 (prompts w)))
    as [text|] eqn:Hrow.
  - exists text. repeat split.
    unfold row_and_text in Hrow.
    destruct (order_by_version_desc_limit_1 (prompts w)) as [r|]; [| discriminate].
    destruct (truthy (prompt_text r)) eqn:Ht; [| discriminate].
    injection Hrow as <-. now apply truthy_true_iff.
  - rewrite (initialize_nonempty w H), Hrow.
    exists DEFAULT_BASE_PROMPT. repeat split.
    apply DEFAULT_BASE_PROMPT_nonempty.
Qed.

Lemma save_new_prompt_ok (text : string) (w : world) :
  strip text <> "" ->
  save_new_prompt E text w = (Ok (strip text), saved E (strip text) w).
Proof.
  intros H. unfold save_new_prompt.
  assert (Ht : truthy (strip text) = true) by now apply truthy_true_iff.
  assert (Ht' : truthy text = true).
  { destruct text; [contradiction H; reflexivity | reflexivity]. }
  rewrite Ht, Ht'. simpl negb. simpl orb.
  unfold Py.bind, select_coalesce_max_version, utcnow, insert_prompt, saved.
  simpl.
  destruct (default 0 (max_version (prompts w)) =? 0) eqn:Hz; [| reflexivity].
  apply Z.eqb_eq in Hz. rewrite Hz. reflexivity.
Qed.

Lemma save_new_prompt_blank (text : string) (w : world) :
  strip text = "" ->
  save_new_prompt E text w =
    (Raise (ValueError "new_prompt must be a non-empty string"), w).
Proof.
  intros H. unfold save_new_prompt. rewrite H. simpl truthy.
  rewrite orb_true_r. reflexivity.
Qed.

(** After a save, the latest prompt is the text just saved. *)
Lemma get_latest_prompt_saved (text : string) (w : world) :
  text <> "" ->
  get_latest_prompt E (saved E text w) = (Ok text, saved E text w).
Proof.
  intros H. unfold get_latest_prompt, Py.bind, select_latest.
  unfold saved at 1. cbn [prompts].
  rewrite latest_snoc by apply next_version_above.
  unfold row_and_text. cbn [prompt_text].
  apply truthy_true_iff in H. rewrite H. reflexivity.
Qed.

End WithEnvironment.

End PromptStoreFacts.

Section PromptStoreClaims.

Import PyStr PyStrFacts PromptStore PromptStoreFacts.

Context (E : environment).

Lemma run_call_grows (c : store_call) (w : world) :
  exists extra, prompts (run_call E c w) = prompts w ++ extra.
Proof.
  destruct c as [| |text]; simpl.
  - destruct (prompts w) as [|r rest] eqn:Hp.
    + rewrite (get_latest_prompt_empty E w Hp). simpl. rewrite Hp. eauto.
    + destruct (get_latest_prompt_nonempty E w) as [t [Ht _]]; [congruence |].
      rewrite Ht. simpl. exists []. now rewrite Hp, app_nil_r.
  - destruct (prompts w) as [|r rest] eqn:Hp.
    + rewrite (initialize_empty E w Hp). simpl. rewrite Hp. eauto.
    + rewrite (initialize_nonempty E w) by congruence.
      simpl. exists []. now rewrite Hp, app_nil_r.
  - destruct (strip text) eqn:Hs.
    + rewrite (save_new_prompt_blank E text w Hs). simpl.
      exists []. now rewrite app_nil_r.
    + rewrite (save_new_prompt_ok E text w) by (rewrite Hs; discriminate).
      simpl. eauto.
Qed.

Lemma run_calls_grows (cs : list store_call) (w : world) :
  exists extra, prompts (run_calls E cs w) = prompts w ++ extra.
Proof.
  revert w. induction cs as [|c cs IH]; intros w.
  - exists []. simpl. now rewrite app_nil_r.
  - change (run_calls E (c :: cs) w) with (run_calls E cs (run_call E c w)).
    destruct (IH (run_call E c w)) as [x Hx].
    destruct (run_call_grows c w) as [y Hy].
    exists (y ++ x). rewrite Hx, Hy.
    now rewrite <- app_assoc.
Qed.

Lemma get_latest_prompt_total (w : world) :
  exists text w',
    get_latest_prompt E w = (Ok text, w') /\ text <> "" /\ prompts w' <> [].
Proof.
  destruct (prompts w) as [|r rest] eqn:Hp.
  - exists DEFAULT_BASE_PROMPT, (seeded E w). split; [| split].
    + now apply get_latest_prompt_empty.
    + apply DEFAULT_BASE_PROMPT_nonempty.
    + unfold seeded. simpl. rewrite Hp. discriminate.
  - destruct (get_latest_prompt_nonempty E w) as [t [Ht [Hne _]]]; [congruence |].
    exists t, w. repeat split; [assumption .. | congruence].
Qed.

(** C2. For a text that is neither empty nor all whitespace, and a store
    whose greatest version is [v] (or an empty store, with [v = 0]),
    [save_new_prompt] returns the trimmed text and the table afterwards is
    the table before followed by exactly one row, of version [v + 1] and
    with the trimmed text. *)
Theorem save_new_prompt_inserts_next_version (text : string) (w : world) (v : Z) :
  text <> "" ->
  all_whitespace text = false ->
  max_version (prompts w) = Some v \/ (prompts w = [] /\ v = 0) ->
  exists id now w',
    save_new_prompt E text w = (Ok (strip text), w') /\
    prompts w' = prompts w ++ [mk_row id (v + 1) (strip text) now] /\
    length (prompts w') = S (length (prompts w)).
Proof.
  intros _ Hws Hv.
  assert (Hs : strip text <> "").
  { intros Hs. apply strip_empty_iff in Hs. congruence. }
  assert (Hd : default 0 (max_version (prompts w)) = v).
  { destruct Hv as [-> | [-> ->]]; reflexivity. }
  exists (last_rowid w + 1), (utcnow_isoformat E (clock_reads w)),
         (saved E (strip text) w).
  split; [now apply save_new_prompt_ok |].
  unfold saved. cbn [prompts]. rewrite Hd. split; [reflexivity |].
  rewrite length_app. simpl. lia.
Qed.

(** C3. [save_new_prompt] raises [ValueError] exactly when the text is
    empty or all whitespace; it raises nothing else, and whenever it
    raises, the world (hence the table and its row count) is the one
    before the call. *)
Theorem save_new_prompt_rejects_exactly_blank (text : string) (w : world) :
  ((exists msg, fst (save_new_prompt E text w) = Raise (ValueError msg))
     <-> (text = "" \/ all_whitespace text = true)) /\
  (forall e, fst (save_new_prompt E text w) = Raise e ->
     (exists msg, e = ValueError msg) /\
     snd (save_new_prompt E text w) = w /\
     length (prompts (snd (save_new_prompt E text w))) = length (prompts w)).
Proof.
  destruct (strip text) eqn:Hs.
  - rewrite (save_new_prompt_blank E text w Hs). simpl. split.
    + split; [| eauto]. intros _. right. now apply strip_empty_iff.
    + intros e He. injection He as <-. eauto.
  - assert (Hne : strip text <> "") by (rewrite Hs; discriminate).
    rewrite (save_new_prompt_ok E text w Hne). simpl. split.
    + split; [intros [msg Hm]; discriminate |].
      intros [-> | Hw]; [discriminate Hs |].
      apply strip_empty_iff in Hw. congruence.
    + intros e He. discriminate.
Qed.

Lemma run_access_grows (a : StoreAccess.store_access) (w : world) :
  exists extra, prompts (StoreAccess.run_access E a w) = prompts w ++ extra.
Proof.
  destruct a as [c|limit]; [apply run_call_grows |].
  exists []. simpl. now rewrite app_nil_r.
Qed.

Lemma run_accesses_grows (l : list StoreAccess.store_access) (w : world) :
  exists extra, prompts (StoreAccess.run_accesses E l w) = prompts w ++ extra.
Proof.
  revert w. induction l as [|a l IH]; intros w.
  - exists []. simpl. now rewrite app_nil_r.
  - change (StoreAccess.run_accesses E (a :: l) w)
      with (StoreAccess.run_accesses E l (StoreAccess.run_access E a w)).
    destruct (IH (StoreAccess.run_access E a w)) as [x Hx].
    destruct (run_access_grows a w) as [y Hy].
    exists (y ++ x). rewrite Hx, Hy. now rewrite <- app_assoc.
Qed.

(** A seeding access, or a save the guard accepts, leaves a row. *)
Lemma run_access_leaves_rows (a : StoreAccess.store_access) (w : world) :
  StoreAccess.writes_when_empty a = true ->
  prompts (StoreAccess.run_access E a w) <> [].
Proof.
  destruct a as [[| |text]|limit]; cbn [StoreAccess.writes_when_empty]; intros Ha.
  - cbn [StoreAccess.run_access run_call].
    destruct (get_latest_prompt_total w) as [t [w' [Ht [_ Hne]]]].
    now rewrite Ht.
  - cbn [StoreAccess.run_access run_call].
    destruct (prompts w) as [|r rest] eqn:Hp.
    + rewrite (initialize_empty E w Hp). unfold seeded. cbn [snd prompts].
      rewrite Hp. discriminate.
    + rewrite (initialize_nonempty E w) by congruence.
      cbn [snd]. rewrite Hp. discriminate.
  - cbn [StoreAccess.run_access run_call].
    apply negb_true_iff, orb_false_iff in Ha. destruct Ha as [_ Ha].
    apply negb_false_iff, truthy_true_iff in Ha.
    rewrite (save_new_prompt_ok E text w Ha). unfold saved. cbn [snd prompts].
    destruct (prompts w); discriminate.
  - discriminate.
Qed.

(** The other accesses find an empty table and leave the world as it is. *)
Lemma run_access_reads_only (a : StoreAccess.store_access) (w : world) :
  StoreAccess.writes_when_empty a = false ->
  StoreAccess.run_access E a w = w.
Proof.
  destruct a as [[| |text]|limit]; cbn [StoreAccess.writes_when_empty]; intros Ha;
    try discriminate; [| reflexivity].
  cbn [StoreAccess.run_access run_call].
  apply negb_false_iff in Ha. unfold save_new_prompt. now rewrite Ha.
Qed.

(** C4, as amended.  On a table with no rows [get_latest_prompt] inserts
    one row, of version 1 and with the default prompt, and returns that
    text; a second call returns the same text and changes nothing.  Among
    the accesses to the store, [get_latest_prompt],
    [initialize_prompt_if_empty] and a [save_new_prompt] whose text passes
    the guard leave a row in the table, and once one of them has run the
    table is never empty again, whatever accesses came before and come
    after; [list_prompt_versions] and a rejected [save_new_prompt] leave
    the world, hence an empty table, as it is.  On any table
    [get_latest_prompt] returns a string that is not empty. *)
Theorem get_latest_prompt_seeds_once
    (rid : Z) (reads calls : nat) (out : list log_line) :
  let w := mk_world [] rid reads calls out in
  let w1 :=
    mk_world [mk_row (rid + 1) 1 DEFAULT_BASE_PROMPT (utcnow_isoformat E reads)]
             (rid + 1) (S reads) calls out in
  get_latest_prompt E w = (Ok DEFAULT_BASE_PROMPT, w1) /\
  get_latest_prompt E w1 = (Ok DEFAULT_BASE_PROMPT, w1) /\
  (forall (w0 : world) (before after : list StoreAccess.store_access)
          (a : StoreAccess.store_access),
     StoreAccess.writes_when_empty a = true ->
     let w' :=
       StoreAccess.run_accesses E after
         (StoreAccess.run_access E a (StoreAccess.run_accesses E before w0)) in
     prompts w' <> [] /\
     exists text, get_latest_prompt E w' = (Ok text, w') /\ text <> "") /\
  (forall (w0 : world) (a : StoreAccess.store_access),
     StoreAccess.writes_when_empty a = false ->
     StoreAccess.run_access E a w0 = w0) /\
  (forall w0 : world,
     exists text w', get_latest_prompt E w0 = (Ok text, w') /\
                     text <> "" /\ prompts w' <> []).
Proof.
  intros w w1. split; [| split; [| split; [| split]]].
  - apply (get_latest_prompt_empty E w). reflexivity.
  - destruct (get_latest_prompt_nonempty E w1) as [t [Ht [_ Hd]]];
      [discriminate |].
    rewrite Ht. f_equal. f_equal. rewrite Hd. subst w1.
    cbn [prompts order_by_version_desc_limit_1 row_and_text prompt_text].
    rewrite DEFAULT_BASE_PROMPT_truthy. reflexivity.
  - intros w0 before after a Ha w'.
    assert (Hne : prompts w' <> []).
    { subst w'.
      pose proof (run_access_leaves_rows a (StoreAccess.run_accesses E before w0) Ha)
        as Hrow.
      destruct (run_accesses_grows after
                  (StoreAccess.run_access E a (StoreAccess.run_accesses E before w0)))
        as [x ->].
      destruct (prompts (StoreAccess.run_access E a _)); [contradiction | discriminate]. }
    split; [exact Hne |].
    destruct (get_latest_prompt_nonempty E w' Hne) as [t [Ht [Htne _]]].
    exists t. auto.
  - intros w0 a. apply run_access_reads_only.
  - apply get_latest_prompt_total.
Qed.

End PromptStoreClaims.

(** C4 when the store is first listed, then seeded by
    [initialize_prompt_if_empty], then listed again and handed a blank
    text: the table has a row. *)
Lemma get_latest_prompt_seeds_once_witness :
  prompts
    (StoreAccess.run_accesses (Demo.env [] [])
       [StoreAccess.CallList 5; StoreAccess.Call (PromptStore.CallSave "  ")]
       (StoreAccess.run_access (Demo.env [] [])
          (StoreAccess.Call PromptStore.CallInitialize)
          (StoreAccess.run_accesses (Demo.env [] []) [StoreAccess.CallList 20]
             Demo.empty_world)))
    <> [].
Proof.
  destruct (get_latest_prompt_seeds_once (Demo.env [] []) 0 0 0 [])
    as (_ & _ & H & _).
  apply (H Demo.empty_world [StoreAccess.CallList 20]
           [StoreAccess.CallList 5; StoreAccess.Call (PromptStore.CallSave "  ")]
           (StoreAccess.Call PromptStore.CallInitialize)).
  reflexivity.
Defined.

(** C4 as stated fails when the first access is a listing or a rejected
    save: both run, and the table is as empty after them as before. *)
Lemma first_access_leaves_table_empty_counterexample :
  prompts Demo.empty_world = [] /\
  (let r := PromptListing.list_prompt_versions 20 Demo.empty_world in
   fst r = Ok [] /\ prompts (snd r) = []) /\
  (let r := PromptStore.save_new_prompt (Demo.env [] []) "  " Demo.empty_world in
   fst r = Raise (ValueError "new_prompt must be a non-empty string") /\
   prompts (snd r) = []) /\
  ~ (forall a : StoreAccess.store_access,
       prompts (StoreAccess.run_access (Demo.env [] []) a Demo.empty_world) <> []).
Proof.
  split; [reflexivity |]. split; [split; reflexivity |].
  split; [split; reflexivity |].
  intros H. apply (H (StoreAccess.CallList 20)). reflexivity.
Qed.

(** C2 at the store holding versions 1 to 3: the new row has version 4. *)
Lemma save_new_prompt_inserts_next_version_witness :
  exists id now w',
    PromptStore.save_new_prompt (Demo.env [] []) "  New prompt " Demo.world_v3
      = (Ok "New prompt", w') /\
    prompts w' = prompts Demo.world_v3 ++ [mk_row id 4 "New prompt" now] /\
    length (prompts w') = 4%nat.
Proof.
  apply (save_new_prompt_inserts_next_version (Demo.env [] [])
           "  New prompt " Demo.world_v3 3).
  - discriminate.
  - reflexivity.
  - left. reflexivity.
Defined.

(** ** Chat-history normalization *)

Section NormalizeClaims.

Import App.

Lemma known_roleb_spec (m : gmap string json) :
  known_roleb m = true <-> known_role m.
Proof.
  unfold known_roleb, known_role.
  destruct (m !! "role") as [[| | |r| |]|]; try (split; [discriminate | intros [H|H]; discriminate]).
  rewrite orb_true_iff, !String.eqb_eq. split.
  - intros [-> | ->]; auto.
  - intros [H | H]; injection H as ->; auto.
Qed.

Lemma known_roleb_code (m : gmap string json) :
  Py.eq_str (m !! "role") "client" || Py.eq_str (m !! "role") "consultant"
    = known_roleb m.
Proof.
  unfold known_roleb, Py.eq_str.
  destruct (m !! "role") as [[| | |r| |]|]; reflexivity.
Qed.

Lemma normalize_loop_spec (entries : list (gmap string json)) (acc : list json) :
  normalize_loop (JObj <$> entries) acc = Ok (acc ++ spec_normalize entries).
Proof.
  revert acc. induction entries as [|m rest IH]; intros acc.
  - simpl. unfold spec_normalize. simpl. now rewrite app_nil_r.
  - cbn [fmap list_fmap normalize_loop Py.get Py.get_default default].
    rewrite known_roleb_code. fold (reshape m).
    unfold spec_normalize. cbn [List.filter].
    destruct (known_roleb m); cbn [negb map].
    + rewrite IH. unfold spec_normalize. now rewrite <- app_assoc.
    + apply IH.
Qed.

(** C6. On a raw history whose entries are dictionaries,
    [_normalize_chat_history] raises nothing, leaves the prompt table
    alone and returns the entries whose [role] is exactly "client" or
    "consultant", in their original order, each reshaped to its role and
    its message (the empty string when absent); in particular the
    client / bot / consultant history keeps its first and third entry.
    An entry that is not a dictionary is not dropped: on the history that
    holds the number 5 the call [msg.get] raises [AttributeError], and
    [/generate-reply] and [/improve-ai], which check that the history is a
    list and catch [AIClientError] only, let the exception escape instead
    of answering. *)
Theorem normalize_chat_history_filters_known_roles
    (entries : list (gmap string json)) (w : world) :
  (exists w',
     _normalize_chat_history (JObj <$> entries) w
       = (Ok (reshape <$> List.filter known_roleb entries), w') /\
     prompts w' = prompts w /\ llm_calls w' = llm_calls w) /\
  (forall m, known_roleb m = true <-> known_role m) /\
  (forall m, exists role message,
     reshape m = JObj (<["message" := message]> (<["role" := role]> ∅)) /\
     (m !! "message" = None -> message = JStr "") /\
     (forall v, m !! "message" = Some v -> message = v) /\
     (forall v, m !! "role" = Some v -> role = v)) /\
  fst (_normalize_chat_history
         [ JObj (<["message" := JStr "a"]> (<["role" := JStr "client"]> ∅));
           JObj (<["message" := JStr "b"]> (<["role" := JStr "bot"]> ∅));
           JObj (<["message" := JStr "c"]> (<["role" := JStr "consultant"]> ∅)) ]
         w)
    = Ok [ JObj (<["message" := JStr "a"]> (<["role" := JStr "client"]> ∅));
           JObj (<["message" := JStr "c"]> (<["role" := JStr "consultant"]> ∅)) ] /\
  (let e := AttributeError "'int' object has no attribute 'get'" in
   _normalize_chat_history Demo2.number_in_history w = (Raise e, w) /\
   forall E : environment,
     generate_reply_endpoint E Demo2.reply_request_number_in_history w
       = (Raise e, w) /\
     improve_ai_endpoint E Demo2.improve_request_number_in_history w
       = (Raise e, w)).
Proof.
  split; [| split; [| split; [| split]]].
  - unfold _normalize_chat_history.
    eexists. split.
    + rewrite (PyFacts.bind_ok _ _ w w (spec_normalize entries)).
      * reflexivity.
      * unfold Py.lift. now rewrite normalize_loop_spec.
    + split; reflexivity.
  - apply known_roleb_spec.
  - intros m. exists (default JNull (m !! "role")), (default (JStr "") (m !! "message")).
    split; [reflexivity |]. repeat split.
    + now intros ->.
    + now intros v ->.
    + now intros v ->.
  - vm_compute. reflexivity.
  - cbv zeta. split; [reflexivity |]. intros E. split; vm_compute; reflexivity.
Qed.

End NormalizeClaims.

(** ** Transcript segmentation *)

Section DatasetBuilderClaims.

Import DatasetBuilder.

Lemma take_drop_while {A} (p : A -> bool) (l : list A) :
  take_while p l ++ drop_while p l = l.
Proof.
  induction l as [|x rest IH]; simpl; [reflexivity |].
  destruct (p x); simpl; [now rewrite IH | reflexivity].
Qed.

Lemma take_while_all {A} (p : A -> bool) (l : list A) :
  Forall (fun x => p x = true) (take_while p l).
Proof.
  induction l as [|x rest IH]; simpl; [constructor |].
  destruct (p x) eqn:Hp; [constructor; assumption | constructor].
Qed.

(** The run stops at a message that fails the test: it is maximal. *)
Lemma drop_while_head {A} (p : A -> bool) (l : list A) (x : A) (rest : list A) :
  drop_while p l = x :: rest -> p x = false.
Proof.
  induction l as [|y l' IH]; simpl; [discriminate |].
  destruct (p y) eqn:Hp; [exact IH |].
  intros H. injection H as <- _. exact Hp.
Qed.

Lemma out_not_in (m : gmap string json) :
  direction_is "out" m = true -> direction_is "in" m = false.
Proof.
  unfold direction_is, Py.eq_str.
  destruct (m !! "direction") as [[| | |d| |]|]; try discriminate.
  intros H. apply String.eqb_eq in H. subst d. reflexivity.
Qed.

(** The inner [while] loops collect exactly the longest matching stretch,
    whatever fuel is left as long as it covers the rest of the list. *)
Lemma collect_run_spec (d : string) (suf pre acc : list (gmap string json))
    (fuel : nat) :
  (length suf <= fuel)%nat ->
  collect_run d (pre ++ suf) fuel (length pre) acc
    = ((length pre + length (take_while (direction_is d) suf))%nat,
       acc ++ take_while (direction_is d) suf).
Proof.
  revert pre acc fuel.
  induction suf as [|m suf' IH]; intros pre acc fuel Hfuel.
  - rewrite !app_nil_r. simpl. rewrite Nat.add_0_r.
    destruct fuel; simpl; [reflexivity |].
    rewrite lookup_ge_None_2 by lia. reflexivity.
  - destruct fuel as [|fuel]; [simpl in Hfuel; lia |].
    cbn [collect_run take_while].
    assert (Hl : (pre ++ m :: suf') !! length pre = Some m).
    { rewrite lookup_app_r by lia. now rewrite Nat.sub_diag. }
    rewrite Hl. destruct (direction_is d m).
    + replace (pre ++ m :: suf') with ((pre ++ [m]) ++ suf')
        by now rewrite <- app_assoc.
      replace (S (length pre)) with (length (pre ++ [m]))
        by (rewrite length_app; simpl; lia).
      rewrite IH by (simpl in Hfuel; lia).
      rewrite length_app. simpl. f_equal; [lia |].
      now rewrite <- app_assoc.
    + simpl. now rewrite Nat.add_0_r, app_nil_r.
Qed.

Section OneConversation.

Context (cid scen : json).

Lemma samples_from_in_run (ins h r : list (gmap string json)) :
  Forall (fun m => direction_is "in" m = true) ins ->
  samples_from cid scen true h (ins ++ r)
    = samples_from cid scen true (h ++ ins) r.
Proof.
  revert h. induction ins as [|m ins' IH]; intros h Hall.
  - now rewrite app_nil_r.
  - inversion Hall as [|? ? Hm Hrest]; subst.
    cbn [app samples_from]. rewrite Hm. cbn [negb andb app].
    rewrite IH by assumption. now rewrite <- app_assoc.
Qed.

Lemma samples_from_out_run (outs h r : list (gmap string json)) (b : bool) :
  Forall (fun m => direction_is "out" m = true) outs ->
  samples_from cid scen b h (outs ++ r)
    = samples_from cid scen (match outs with [] => b | _ => false end)
                   (h ++ outs) r.
Proof.
  revert h b. induction outs as [|m outs' IH]; intros h b Hall.
  - now rewrite app_nil_r.
  - inversion Hall as [|? ? Hm Hrest]; subst.
    cbn [app samples_from]. rewrite (out_not_in m Hm). cbn [andb app].
    rewrite IH by assumption. rewrite <- app_assoc.
    destruct outs'; reflexivity.
Qed.

(** Before a message that is not "in" the flag does not matter. *)
Lemma samples_from_flag (b b' : bool) (h r : list (gmap string json)) :
  match r with
  | [] => True
  | m :: _ => direction_is "in" m = false
  end ->
  samples_from cid scen b h r = samples_from cid scen b' h r.
Proof.
  destruct r as [|m r']; [reflexivity |].
  intros Hm. cbn [samples_from]. now rewrite Hm.
Qed.

Lemma scan_samples_from (fuel : nat) :
  forall (pre suf : list (gmap string json)) (samples : list Sample),
    (length suf <= fuel)%nat ->
    scan cid scen (pre ++ suf) fuel (length pre) pre samples
      = samples ++ samples_from cid scen false pre suf.
Proof.
  induction fuel as [|fuel IH]; intros pre suf samples Hfuel.
  - destruct suf; [| simpl in Hfuel; lia]. simpl. now rewrite app_nil_r.
  - destruct suf as [|m suf'].
    + cbn [scan]. rewrite app_nil_r.
      rewrite lookup_ge_None_2 by lia. simpl. now rewrite app_nil_r.
    + cbn [scan].
      assert (Hl : (pre ++ m :: suf') !! length pre = Some m).
      { rewrite lookup_app_r by lia. now rewrite Nat.sub_diag. }
      rewrite Hl. fold (direction_is "in" m).
      destruct (direction_is "in" m) eqn:Hin.
      * set (suf := m :: suf') in *.
        set (ins := take_while (direction_is "in") suf).
        set (rest1 := drop_while (direction_is "in") suf).
        set (outs := take_while (direction_is "out") rest1).
        set (rest2 := drop_while (direction_is "out") rest1).
        assert (Hsuf : suf = ins ++ rest1)
          by (symmetry; apply take_drop_while).
        assert (Hrest1 : rest1 = outs ++ rest2)
          by (symmetry; apply take_drop_while).
        assert (Hins : ins = m :: take_while (direction_is "in") suf').
        { subst ins suf. simpl. now rewrite Hin. }
        pose proof (f_equal length Hsuf) as Hlen1.
        pose proof (f_equal length Hrest1) as Hlen2.
        rewrite length_app in Hlen1, Hlen2.
        pose proof (f_equal length Hins) as Hlen3. cbn [length] in Hlen3.
        rewrite (collect_run_spec "in" suf pre [] (length (pre ++ suf)))
          by (rewrite length_app; lia).
        fold ins. cbn [app].
        assert (Hpos : pre ++ suf = (pre ++ ins) ++ rest1).
        { rewrite <- app_assoc. now rewrite <- Hsuf. }
        replace (length pre + length ins)%nat with (length (pre ++ ins))
          by now rewrite length_app.
        rewrite Hpos at 1.
        rewrite (collect_run_spec "out" rest1 (pre ++ ins) []
                   (length (pre ++ suf))).
        2:{ rewrite length_app. lia. }
        fold outs. cbn [app].
        assert (Hpos2 : pre ++ suf = ((pre ++ ins) ++ outs) ++ rest2).
        { rewrite Hpos, Hrest1. now rewrite <- (app_assoc (pre ++ ins)). }
        replace (length (pre ++ ins) + length outs)%nat
          with (length ((pre ++ ins) ++ outs)) by now rewrite length_app.
        rewrite Hpos2 at 1.
        rewrite IH.
        2:{ change (length (m :: suf')) with (length suf) in Hfuel. lia. }
        rewrite <- app_assoc. f_equal.
        subst suf. cbn [samples_from]. rewrite Hin. cbn [negb andb app].
        f_equal.
        fold (drop_while (direction_is "in") (m :: suf')).
        (* the tail of the run and the reply produce no further Sample *)
        assert (Htail : suf' = take_while (direction_is "in") suf' ++ rest1).
        { subst rest1. simpl. rewrite Hin. symmetry. apply take_drop_while. }
        rewrite Htail at 1.
        rewrite samples_from_in_run by apply take_while_all.
        replace ((pre ++ [m]) ++ take_while (direction_is "in") suf')
          with (pre ++ ins) by (rewrite Hins, <- app_assoc; reflexivity).
        assert (Houts : Forall (fun x => direction_is "out" x = true) outs)
          by apply take_while_all.
        clearbody outs rest2.
        rewrite Hrest1.
        rewrite samples_from_out_run by assumption.
        destruct outs as [|o outs']; [| reflexivity].
        apply samples_from_flag.
        destruct rest2 as [|x rest2']; [exact I |].
        rewrite app_nil_l in Hrest1.
        apply (drop_while_head (direction_is "in") (m :: suf') x rest2').
        exact Hrest1.
      * replace (pre ++ m :: suf') with ((pre ++ [m]) ++ suf')
          by now rewrite <- app_assoc.
        replace (S (length pre)) with (length (pre ++ [m]))
          by (rewrite length_app; simpl; lia).
        rewrite IH by (simpl in Hfuel; lia).
        cbn [samples_from]. rewrite Hin. reflexivity.
Qed.

(** Whether the last message of [pre] is an "in" message. *)
Lemma starts_run_at_boundary (pre suf' : list (gmap string json))
    (m : gmap string json) :
  starts_run (pre ++ m :: suf') (length pre)
    = direction_is "in" m
      && negb (match last pre with
               | Some x => direction_is "in" x
               | None => false
               end).
Proof.
  unfold starts_run.
  rewrite lookup_app_r by lia. rewrite Nat.sub_diag. cbn [lookup list_lookup].
  f_equal.
  destruct pre as [|x pre'] using rev_ind; [reflexivity |].
  rewrite last_snoc, length_app. cbn [length].
  replace (length pre' + 1)%nat with (S (length pre')) by lia.
  rewrite <- app_assoc. rewrite lookup_app_r by lia.
  rewrite Nat.sub_diag. reflexivity.
Qed.

Lemma samples_from_spec (suf : list (gmap string json)) :
  forall pre : list (gmap string json),
    samples_from cid scen
      (match last pre with
       | Some x => direction_is "in" x
       | None => false
       end) pre suf
    = map (sample_at cid scen (pre ++ suf))
          (List.filter (starts_run (pre ++ suf))
                       (seq (length pre) (length suf))).
Proof.
  induction suf as [|m suf' IH]; intros pre; [reflexivity |].
  cbn [samples_from length seq List.filter].
  rewrite starts_run_at_boundary.
  specialize (IH (pre ++ [m])).
  rewrite last_snoc, length_app in IH. cbn [length] in IH.
  replace (length pre + 1)%nat with (S (length pre)) in IH by lia.
  rewrite <- app_assoc in IH. cbn [app] in IH.
  rewrite IH.
  destruct (direction_is "in" m && negb _); [| reflexivity].
  cbn [map app]. f_equal.
  unfold sample_at. rewrite drop_app_length, take_app_length. reflexivity.
Qed.

Lemma scan_spec_samples (messages : list (gmap string json))
    (samples : list Sample) :
  scan cid scen messages (length messages) 0 [] samples
    = samples ++ spec_samples cid scen messages.
Proof.
  pose proof (scan_samples_from (length messages) [] messages samples
                (le_n _)) as H.
  cbn [app length] in H. rewrite H.
  f_equal. apply (samples_from_spec messages []).
Qed.

End OneConversation.

Lemma scan_conversation_spec (convo : conversation_record) (samples : list Sample) :
  scan_conversation convo samples = samples ++ spec_conversation convo.
Proof. apply scan_spec_samples. Qed.

Lemma build_samples_from (convs : list conversation_record) (acc : list Sample) :
  fold_left (fun samples convo => scan_conversation convo samples) convs acc
    = acc ++ concat (map spec_conversation convs).
Proof.
  revert acc. induction convs as [|c rest IH]; intros acc.
  - simpl. now rewrite app_nil_r.
  - cbn [fold_left map concat]. rewrite IH, scan_conversation_spec.
    now rewrite <- app_assoc.
Qed.

(** C1. [build_samples] emits, conversation after conversation, exactly
    one Sample for each position at which a maximal run of "in" messages
    starts, in order: its client sequence holds the texts of that run, its
    consultant reply the texts of the run of "out" messages right after it
    (none if there is none), its chat history all messages before the run.
    Positions holding any other message yield no Sample.  The
    in,in,out,in,out,out conversation gives the two Samples of the
    specification, and out,in,out gives one Sample with the leading "out"
    message as history. *)
Theorem build_samples_one_per_in_run :
  (forall convs : list conversation_record,
     build_samples convs = concat (map spec_conversation convs)) /\
  (forall (cid scen : json) (t1 t2 t3 t4 t5 t6 : string),
     build_samples
       [mk_conversation (Some cid) (Some scen)
          (Some [Demo.message "in" t1; Demo.message "in" t2;
                 Demo.message "out" t3; Demo.message "in" t4;
                 Demo.message "out" t5; Demo.message "out" t6])]
     = [ mk_Sample cid scen [JStr t1; JStr t2] [JStr t3] [];
         mk_Sample cid scen [JStr t4] [JStr t5; JStr t6]
           [Demo.message "in" t1; Demo.message "in" t2;
            Demo.message "out" t3] ]) /\
  (forall (cid scen : json) (t1 t2 t3 : string),
     build_samples
       [mk_conversation (Some cid) (Some scen)
          (Some [Demo.message "out" t1; Demo.message "in" t2;
                 Demo.message "out" t3])]
     = [ mk_Sample cid scen [JStr t2] [JStr t3] [Demo.message "out" t1] ]).
Proof.
  split; [| split].
  - intros convs. unfold build_samples. now rewrite build_samples_from.
  - intros. vm_compute. reflexivity.
  - intros. vm_compute. reflexivity.
Qed.

End DatasetBuilderClaims.

(** ** The AI client *)

Module AIClientFacts.

Import PyStr PyStrFacts PromptStore PromptStoreFacts AIClient.

Section WithEnvironment.

Context (E : environment).

Lemma get_openai_client_ok (w : world) :
  key_set E -> _get_openai_client E w = (Ok tt, w).
Proof.
  intros [k [Hk Hne]]. unfold _get_openai_client. rewrite Hk.
  apply truthy_true_iff in Hne. now rewrite Hne.
Qed.

Lemma get_latest_prompt_llm_calls (w : world) :
  llm_calls (snd (get_latest_prompt E w)) = llm_calls w.
Proof.
  destruct (prompts w) as [|r rest] eqn:Hp.
  - now rewrite (get_latest_prompt_empty E w Hp).
  - destruct (get_latest_prompt_nonempty E w) as [t [Ht _]]; [congruence |].
    now rewrite Ht.
Qed.

(** [generate_chat_reply] reads the prompt (seeding the table if need
    be), makes one call and interprets its outcome. *)
Lemma generate_chat_reply_run (payload : json) (w : world)
    (outcome : llm_outcome) :
  key_set E ->
  answers E (llm_calls w) outcome ->
  generate_chat_reply E payload w
    = (read_field E "Error calling OpenAI: " "Model" "Model" "reply" outcome,
       after_call (snd (get_latest_prompt E w))).
Proof.
  intros Hkey Hans. unfold generate_chat_reply.
  destruct (get_latest_prompt_total E w) as [t [w1 [Ht _]]].
  pose proof (get_latest_prompt_llm_calls w) as Hcalls.
  rewrite Ht in *. cbn [snd] in *.
  rewrite (PyFacts.bind_ok _ _ _ _ _ Ht).
  rewrite (PyFacts.bind_ok _ _ _ _ _ (get_openai_client_ok w1 Hkey)).
  unfold Py.bind at 1. unfold create_completion at 1.
  rewrite <- Hcalls in Hans. rewrite Hans. fold (after_call w1).
  unfold read_field.
  destruct outcome as [exc|content]; [reflexivity |].
  cbv zeta. destruct (json_loads E (content_or_empty_object content))
    as [parsed|]; [| reflexivity].
  unfold Py.bind, Py.lift.
  destruct (Py.get parsed "reply") as [[[| | |s| |]|]|e]; reflexivity.
Qed.

Lemma improve_prompt_with_editor_run
    (existing_prompt client_sequence : string) (chat_history : list json)
    (consultant_reply predicted_reply : string) (w : world)
    (outcome : llm_outcome) :
  key_set E ->
  answers E (llm_calls w) outcome ->
  improve_prompt_with_editor E existing_prompt client_sequence chat_history
      consultant_reply predicted_reply w
    = (read_field E "Error calling OpenAI editor: " "Editor model" "Editor"
         "prompt" outcome,
       after_call w).
Proof.
  intros Hkey Hans. unfold improve_prompt_with_editor.
  rewrite (PyFacts.bind_ok _ _ _ _ _ (get_openai_client_ok w Hkey)).
  unfold Py.bind at 1. unfold create_completion at 1.
  rewrite Hans. fold (after_call w).
  unfold read_field.
  destruct outcome as [exc|content]; [reflexivity |].
  cbv zeta. destruct (json_loads E (content_or_empty_object content))
    as [parsed|]; [| reflexivity].
  unfold Py.bind, Py.lift.
  destruct (Py.get parsed "prompt") as [[[| | |s| |]|]|e]; reflexivity.
Qed.

(** *** What a completion outcome is turned into *)

Section ReadField.

Context (what label label' field : string).

Lemma read_field_missing_content :
  read_field E what label label' field (Completion None)
    = read_field E what label label' field (Completion (Some "{}")).
Proof. reflexivity. Qed.

Lemma read_field_invalid_json (content : option string) :
  json_loads E (content_or_empty_object content) = None ->
  exists msg,
    read_field E what label label' field (Completion content)
      = Raise (AIClientError msg) /\
    endswith msg (content_or_empty_object content).
Proof.
  intros H. unfold read_field. cbv zeta. rewrite H.
  eexists. split; [reflexivity |].
  apply endswith_app, endswith_app, endswith_refl.
Qed.

Lemma read_field_object (content : option string) (m : gmap string json) :
  json_loads E (content_or_empty_object content) = Some (JObj m) ->
  (forall s, m !! field = Some (JStr s) ->
     read_field E what label label' field (Completion content) = Ok s) /\
  ((forall s, m !! field <> Some (JStr s)) ->
     exists msg,
       read_field E what label label' field (Completion content)
         = Raise (AIClientError msg)).
Proof.
  intros H. unfold read_field. cbv zeta. rewrite H. cbn [Py.get]. split.
  - now intros s ->.
  - intros Hno. destruct (m !! field) as [[| | |s| |]|]; eauto.
    now contradiction (Hno s).
Qed.

(** A document that is valid JSON but not an object makes the
    [.get] call itself fail. *)
Lemma read_field_not_object (content : option string) (parsed : json) :
  json_loads E (content_or_empty_object content) = Some parsed ->
  (forall m, parsed <> JObj m) ->
  exists msg,
    read_field E what label label' field (Completion content)
      = Raise (AttributeError msg).
Proof.
  intros H Hno. unfold read_field. cbv zeta. rewrite H.
  destruct parsed; cbn [Py.get]; eauto.
  now contradiction (Hno m).
Qed.

End ReadField.

End WithEnvironment.

End AIClientFacts.

(** ** The HTTP endpoints *)

Module AppFacts.

Import PyStr PyStrFacts PromptStore PromptStoreFacts AIClient AIClientFacts App.

Lemma bind_lift_ok {A B} (a : A) (k : A -> Py.M B) (w : world) :
  Py.bind (Py.lift (Ok a)) k w = k a w.
Proof. reflexivity. Qed.

Lemma not_nonblank_str_false (s : string) :
  strip s <> "" -> not_nonblank_str (Some (JStr s)) = false.
Proof.
  intros H. unfold not_nonblank_str.
  apply truthy_true_iff in H. now rewrite H.
Qed.

(** The world after [print('kuay')]. *)
Lemma normalize_chat_history_run (entries : list (gmap string json)) (w : world) :
  _normalize_chat_history (JObj <$> entries) w
    = (Ok (spec_normalize entries),
       mk_world (prompts w) (last_rowid w) (clock_reads w) (llm_calls w)
                (stdout w ++ [LogKuay])).
Proof.
  unfold _normalize_chat_history.
  rewrite (PyFacts.bind_ok _ _ w w (spec_normalize entries)).
  - reflexivity.
  - unfold Py.lift. now rewrite normalize_loop_spec.
Qed.

Section WithEnvironment.

Context (E : environment).

Lemma improve_ai_endpoint_run (body : option json) (data : gmap string json)
    (cs cr : string) (entries : list (gmap string json)) (w : world)
    (p e : string) :
  request_data body = JObj data ->
  improve_request data cs cr entries ->
  both_calls_succeed E w p e ->
  improve_ai_endpoint E body w
    = Py.bind (save_new_prompt E e)
        (fun _ => Py.ret (mk_response 200
           (JObj (<["updatedPrompt" := JStr e]>
                 (<["predictedReply" := JStr p]> ∅)))))
        (before_save E w).
Proof.
  intros Hbody (Hcs & Hcsne & Hcr & Hcrne & Hhist) (Hkey & o1 & o2 & Ha1 & Hr1 & Ha2 & Hr2).
  unfold improve_ai_endpoint. rewrite Hbody.
  cbn [Py.get Py.get_default]. rewrite !bind_lift_ok.
  rewrite Hcs, (not_nonblank_str_false cs Hcsne).
  rewrite Hcr, (not_nonblank_str_false cr Hcrne).
  rewrite Hhist.
  rewrite (PyFacts.bind_ok _ _ _ _ _ (normalize_chat_history_run entries w)).
  set (wa := mk_world (prompts w) (last_rowid w) (clock_reads w) (llm_calls w)
                      (stdout w ++ [LogKuay])).
  set (payload := JObj _).
  assert (Hgen : generate_chat_reply E payload wa
                 = (Ok p, after_call (snd (get_latest_prompt E wa)))).
  { rewrite (generate_chat_reply_run E payload wa o1 Hkey Ha1). now rewrite Hr1. }
  set (wc := after_call (snd (get_latest_prompt E wa))) in *.
  rewrite (PyFacts.bind_ok _ _ wa wc (inl p)).
  2:{ apply PyFacts.try_ok. now rewrite (PyFacts.bind_ok _ _ _ _ _ Hgen). }
  cbv iota beta.
  assert (Hne : prompts wc <> []).
  { subst wc. cbn [after_call prompts].
    destruct (get_latest_prompt_total E wa) as [t [w' [Ht [_ Hn]]]].
    now rewrite Ht. }
  destruct (get_latest_prompt_nonempty E wc Hne) as [existing [Hex _]].
  rewrite (PyFacts.bind_ok _ _ _ _ _ Hex).
  assert (Hcalls : llm_calls wc = S (llm_calls w)).
  { subst wc. cbn [after_call llm_calls].
    now rewrite get_latest_prompt_llm_calls. }
  rewrite <- Hcalls in Ha2.
  rewrite (PyFacts.bind_ok _ _ wc (after_call wc) (inl e)).
  2:{ apply PyFacts.try_ok.
      rewrite (PyFacts.bind_ok _ _ wc (after_call wc) e); [reflexivity |].
      rewrite (improve_prompt_with_editor_run E existing cs
                 (spec_normalize entries) cr p wc o2 Hkey Ha2).
      now rewrite Hr2. }
  reflexivity.
Qed.

(** A request to [/improve-ai-manually] with usable instructions: what
    is saved, and where. *)
Lemma improve_ai_manually_endpoint_run (body : option json)
    (data : gmap string json) (instructions current : string) (w w1 : world) :
  request_data body = JObj data ->
  data !! "instructions" = Some (JStr instructions) ->
  strip instructions <> "" ->
  get_latest_prompt E w = (Ok current, w1) ->
  improve_ai_manually_endpoint E body w
    = Py.bind
        (save_new_prompt E
           (strip current +:+ manual_heading +:+ strip instructions))
        (fun updated_prompt =>
           Py.ret (mk_response 200 (jsonify1 "updatedPrompt" (JStr updated_prompt))))
        w1.
Proof.
  intros Hbody Hi Hne Ht.
  unfold improve_ai_manually_endpoint. rewrite Hbody.
  cbn [Py.get]. rewrite bind_lift_ok.
  rewrite Hi, (not_nonblank_str_false instructions Hne).
  now rewrite (PyFacts.bind_ok _ _ _ _ _ Ht).
Qed.

End WithEnvironment.

End AppFacts.

Section ReplyClaims.

Import PyStr AIClient App.

(** C5. Evaluation of [generate_chat_reply] and of [/generate-reply] on
    four completions.  Content [{"reply": "X"}] gives the reply "X" and
    status 200; contents [{}] and [{"reply": 5}] give [AIClientError] and
    status 500; no content is read as [{}].  Content [[]], which is valid
    JSON without a [reply] field, does not give [AIClientError]: the
    [.get] call raises [AttributeError], which the endpoint does not
    catch. *)
Theorem generate_chat_reply_on_sample_completions :
  let payload :=
    JObj (<["chatHistory" := JArr []]> (<["clientSequence" := JStr "hello"]> ∅)) in
  let run outcome := Demo.env [outcome] [] in
  (fst (generate_chat_reply (run Demo.reply_X) payload Demo.empty_world) = Ok "X" /\
   fst (generate_reply_endpoint (run Demo.reply_X) Demo.reply_request Demo.empty_world)
     = Ok (mk_response 200 (jsonify1 "aiReply" (JStr "X")))) /\
  (forall outcome,
     outcome = Demo.empty_object \/ outcome = Demo.reply_5
       \/ outcome = Completion None ->
     exists msg,
       fst (generate_chat_reply (run outcome) payload Demo.empty_world)
         = Raise (AIClientError msg) /\
       fst (generate_reply_endpoint (run outcome) Demo.reply_request Demo.empty_world)
         = Ok (error_response 500 msg)) /\
  json_loads (run Demo.empty_array) "[]" = Some (JArr []) /\
  fst (generate_chat_reply (run Demo.empty_array) payload Demo.empty_world)
    = Raise (AttributeError "'list' object has no attribute 'get'") /\
  fst (generate_reply_endpoint (run Demo.empty_array) Demo.reply_request
         Demo.empty_world)
    = Raise (AttributeError "'list' object has no attribute 'get'").
Proof.
  intros payload run. split; [| split; [| split; [| split]]].
  - split; vm_compute; reflexivity.
  - intros outcome [-> | [-> | ->]]; eexists; split; vm_compute; reflexivity.
  - vm_compute. reflexivity.
  - vm_compute. reflexivity.
  - vm_compute. reflexivity.
Qed.

(** C8. [/improve-ai] when the model answers [{"reply": "X"}] and the
    editor answers with the all-whitespace prompt [{"prompt": "  "}]: both
    AI calls succeed, [save_new_prompt] raises [ValueError], and the
    endpoint lets it escape: the outcome is neither the success object
    nor a JSON error object. *)
Theorem improve_ai_blank_editor_output_escapes :
  let E := Demo.env [Demo.reply_X; Demo.prompt_blank] [] in
  let r := improve_ai_endpoint E Demo.improve_request_body Demo.empty_world in
  fst r = Raise (ValueError "new_prompt must be a non-empty string") /\
  (forall resp, fst r <> Ok resp) /\
  llm_calls (snd r) = 2%nat /\
  length (prompts (snd r)) = 1%nat.
Proof.
  intros E r. split; [| split; [| split]].
  - vm_compute. reflexivity.
  - intros resp H. vm_compute in H. discriminate.
  - vm_compute. reflexivity.
  - vm_compute. reflexivity.
Qed.

(** Every completion, whatever its content: what [generate_chat_reply]
    returns or raises. *)
Lemma generate_chat_reply_outcomes (E : environment) (payload : json)
    (w : world) (content : option string) :
  key_set E ->
  answers E (llm_calls w) (Completion content) ->
  let r := fst (generate_chat_reply E payload w) in
  let message_content := content_or_empty_object content in
  (json_loads E message_content = None ->
     exists msg, r = Raise (AIClientError msg) /\ endswith msg message_content) /\
  (forall m, json_loads E message_content = Some (JObj m) ->
     (forall s, m !! "reply" = Some (JStr s) -> r = Ok s) /\
     ((forall s, m !! "reply" <> Some (JStr s)) ->
        exists msg, r = Raise (AIClientError msg))) /\
  (forall parsed, json_loads E message_content = Some parsed ->
     (forall m, parsed <> JObj m) ->
     exists msg, r = Raise (AttributeError msg)).
Proof.
  intros Hkey Hans r mc. subst r.
  rewrite (AIClientFacts.generate_chat_reply_run E payload w _ Hkey Hans).
  cbn [fst]. split; [| split].
  - apply AIClientFacts.read_field_invalid_json.
  - intros m Hm. now apply AIClientFacts.read_field_object.
  - intros parsed Hp Hno. now apply (AIClientFacts.read_field_not_object E _ _ _ _ content parsed).
Qed.

End ReplyClaims.

Section ManualClaims.

Import PyStr PyStrFacts PromptStore PromptStoreFacts AIClient App AppFacts.

Lemma manual_heading_block (instructions : string) :
  manual_heading +:+ strip instructions = nl +:+ nl +:+ manual_block instructions.
Proof. reflexivity. Qed.

Lemma rstrip_manual_block (prefix instructions : string) :
  strip instructions <> "" ->
  rstrip (prefix +:+ manual_block instructions)
    = prefix +:+ manual_block instructions.
Proof.
  intros Hne. unfold manual_block.
  assert (Hfix : rstrip (strip instructions) = strip instructions)
    by apply rstrip_idempotent.
  revert Hne Hfix. generalize (strip instructions) as si. intros si Hne Hfix.
  rewrite <- !append_assoc.
  rewrite rstrip_app by (rewrite Hfix; exact Hne).
  now rewrite Hfix.
Qed.

(** Trimming the manual update only ever removes the blank line that
    follows an empty current prompt. *)
Lemma strip_manual_update (current instructions : string) :
  strip instructions <> "" ->
  strip (strip current +:+ manual_heading +:+ strip instructions)
    = strip current
        +:+ (if truthy (strip current) then nl +:+ nl else "")
        +:+ manual_block instructions.
Proof.
  intros Hne. rewrite manual_heading_block.
  destruct (strip current) as [|c r] eqn:Hc.
  - cbn [truthy]. unfold strip at 1.
    change (lstrip ("" +:+ nl +:+ nl +:+ manual_block instructions))
      with (manual_block instructions).
    apply (rstrip_manual_block "" instructions Hne).
  - cbn [truthy]. unfold strip at 1.
    pose proof (strip_head current) as Hh. rewrite Hc in Hh. cbn in Hh.
    rewrite lstrip_fixed by (cbn; exact Hh).
    rewrite <- !append_assoc.
    apply (rstrip_manual_block _ instructions Hne).
Qed.

Lemma manual_update_not_blank (current instructions : string) :
  strip instructions <> "" ->
  strip (strip current +:+ manual_heading +:+ strip instructions) <> "".
Proof.
  intros Hne. rewrite (strip_manual_update current instructions Hne).
  destruct (strip current); [destruct (truthy ""); discriminate | discriminate].
Qed.

Context (E : environment).

(** C7, as amended.  For a request whose body is a JSON object (an absent
    or malformed body is read as the empty object): when [instructions]
    is not a string that is non-empty after trimming, the endpoint answers
    400 with an error field and nothing changes; otherwise it makes no LLM
    call, appends to the table, as the endpoint's read of the current
    prompt leaves it, exactly one row whose version is that table's
    greatest version plus 1 and whose text is the returned prompt, and the
    returned prompt is the trimmed current prompt, a blank line (unless
    that prompt is empty), and the instructions block, with which it
    therefore ends.  On a table with rows the read changes nothing, so
    the stored greatest version grows by exactly 1. *)
Theorem improve_ai_manually_appends_block
    (body : option json) (data : gmap string json) (w : world) :
  request_data body = JObj data ->
  ((forall s, data !! "instructions" = Some (JStr s) -> strip s = "") ->
     exists msg, improve_ai_manually_endpoint E body w
                   = (Ok (error_response 400 msg), w)) /\
  (forall instructions,
     data !! "instructions" = Some (JStr instructions) ->
     strip instructions <> "" ->
     exists current w1 u w',
       get_latest_prompt E w = (Ok current, w1) /\
       (prompts w <> [] -> w1 = w) /\
       improve_ai_manually_endpoint E body w
         = (Ok (mk_response 200 (jsonify1 "updatedPrompt" (JStr u))), w') /\
       llm_calls w' = llm_calls w /\
       u = strip current
             +:+ (if truthy (strip current) then nl +:+ nl else "")
             +:+ manual_block instructions /\
       endswith u (manual_block instructions) /\
       (exists id now,
          prompts w' = prompts w1 ++
            [mk_row id (default 0 (max_version (prompts w1)) + 1) u now]) /\
       max_version (prompts w')
         = Some (default 0 (max_version (prompts w1)) + 1) /\
       (prompts w <> [] ->
          default 0 (max_version (prompts w'))
            = default 0 (max_version (prompts w)) + 1)).
Proof.
  intros Hbody. split.
  - intros Hbad. unfold improve_ai_manually_endpoint. rewrite Hbody.
    cbn [Py.get]. rewrite bind_lift_ok.
    destruct (data !! "instructions") as [[| | |s| |]|] eqn:Hi;
      try (eexists; reflexivity).
    cbn [not_nonblank_str]. rewrite (Hbad s eq_refl). cbn [truthy negb].
    eexists; reflexivity.
  - intros instructions Hi Hne.
    destruct (get_latest_prompt_total E w) as [current [w1 [Ht [_ Hne1]]]].
    set (u := strip (strip current +:+ manual_heading +:+ strip instructions)).
    assert (Hu : u <> "") by now apply manual_update_not_blank.
    exists current, w1, u, (saved E u w1).
    assert (Hsame : prompts w <> [] -> w1 = w).
    { intros Hw. destruct (get_latest_prompt_nonempty E w Hw) as [t [Ht' _]].
      congruence. }
    assert (Hmax : max_version (prompts (saved E u w1))
                   = Some (default 0 (max_version (prompts w1)) + 1)).
    { unfold saved. cbn [prompts].
      apply (max_version_snoc (prompts w1)
               (mk_row _ (default 0 (max_version (prompts w1)) + 1) u _)).
      apply next_version_above. }
    split; [exact Ht |]. split; [exact Hsame |]. split.
    { rewrite (improve_ai_manually_endpoint_run E body data instructions
                 current w w1 Hbody Hi Hne Ht).
      rewrite (PyFacts.bind_ok _ _ _ _ _
                 (save_new_prompt_ok E _ w1 Hu)).
      reflexivity. }
    split.
    { unfold saved. cbn [llm_calls].
      pose proof (AIClientFacts.get_latest_prompt_llm_calls E w) as Hc.
      now rewrite Ht in Hc. }
    split; [apply strip_manual_update, Hne |]. split.
    { subst u. rewrite (strip_manual_update current instructions Hne).
      apply endswith_app, endswith_app, endswith_refl. }
    split; [unfold saved; cbn [prompts]; eauto |].
    split; [exact Hmax |].
    intros Hw. rewrite Hmax. cbn [default]. now rewrite (Hsame Hw).
Qed.

End ManualClaims.

(** C7 at the store holding versions 1 to 3: version 4 is "third", a blank
    line and the block. *)
Lemma improve_ai_manually_appends_block_witness :
  exists w',
    App.improve_ai_manually_endpoint (Demo.env [] []) (Demo.manual_request " do x ")
        Demo.world_v3
      = (Ok (App.mk_response 200
               (App.jsonify1 "updatedPrompt"
                  (JStr ("third" +:+ PyStr.nl +:+ PyStr.nl +:+ App.manual_block " do x ")))),
         w') /\
    PromptStore.max_version (prompts w') = Some 4.
Proof.
  destruct (improve_ai_manually_appends_block (Demo.env [] [])
              (Demo.manual_request " do x ")
              (<["instructions" := JStr " do x "]> ∅) Demo.world_v3 eq_refl)
    as [_ H].
  destruct (H " do x " eq_refl ltac:(discriminate))
    as (current & w1 & u & w' & Ht & _ & Hrun & _ & Hu & _ & _ & Hmax & _).
  exists w'. vm_compute in Ht. injection Ht as <- <-.
  split.
  - rewrite Hrun, Hu. reflexivity.
  - rewrite Hmax. reflexivity.
Defined.

(** C7 as stated fails on a fresh store: the call answers 200, yet it
    inserts two rows and takes the greatest version from none (0) to 2. *)
Lemma improve_ai_manually_fresh_store_counterexample :
  let r := App.improve_ai_manually_endpoint (Demo.env [] [])
             (Demo.manual_request "do x") Demo.empty_world in
  (exists u, fst r = Ok (App.mk_response 200 (App.jsonify1 "updatedPrompt" (JStr u)))) /\
  default 0 (PromptStore.max_version (prompts Demo.empty_world)) = 0 /\
  default 0 (PromptStore.max_version (prompts (snd r))) = 2 /\
  length (prompts (snd r)) = 2%nat /\
  default 0 (PromptStore.max_version (prompts (snd r)))
    <> default 0 (PromptStore.max_version (prompts Demo.empty_world)) + 1.
Proof.
  intros r. split; [| split; [| split; [| split]]].
  - eexists. vm_compute. reflexivity.
  - reflexivity.
  - vm_compute. reflexivity.
  - vm_compute. reflexivity.
  - vm_compute. discriminate.
Qed.

Section ImproveClaims.

Import PyStr PyStrFacts PromptStore PromptStoreFacts AIClient App AppFacts.

Context (E : environment).

(** C10. When [/improve-ai] succeeds (the request is well formed, the
    model returns reply [p], the editor returns a prompt [e] that is not
    blank), the response carries [e] itself while the latest stored prompt
    is [strip e]: the two differ exactly when [e] starts or ends with
    whitespace, and agree after trimming.  [/improve-ai-manually] returns
    what [save_new_prompt] returns, which is the latest stored prompt and
    is already trimmed. *)
Theorem improve_ai_returns_untrimmed_prompt
    (body : option json) (data : gmap string json) (cs cr : string)
    (entries : list (gmap string json)) (w : world) (p e : string) :
  request_data body = JObj data ->
  improve_request data cs cr entries ->
  both_calls_succeed E w p e ->
  strip e <> "" ->
  (exists w',
     improve_ai_endpoint E body w
       = (Ok (mk_response 200
                (JObj (<["updatedPrompt" := JStr e]>
                      (<["predictedReply" := JStr p]> ∅)))), w') /\
     get_latest_prompt E w' = (Ok (strip e), w') /\
     (outer_whitespace e = true <-> e <> strip e) /\
     strip e = strip (strip e)) /\
  (forall (body' : option json) (data' : gmap string json)
          (instructions : string) (w0 : world),
     request_data body' = JObj data' ->
     data' !! "instructions" = Some (JStr instructions) ->
     strip instructions <> "" ->
     exists u w',
       improve_ai_manually_endpoint E body' w0
         = (Ok (mk_response 200 (jsonify1 "updatedPrompt" (JStr u))), w') /\
       get_latest_prompt E w' = (Ok u, w') /\
       strip u = u).
Proof.
  intros Hbody Hreq Hcalls He. split.
  - exists (saved E (strip e) (before_save E w)).
    rewrite (improve_ai_endpoint_run E body data cs cr entries w p e
               Hbody Hreq Hcalls).
    rewrite (PyFacts.bind_ok _ _ _ _ _
               (save_new_prompt_ok E e (before_save E w) He)).
    split; [reflexivity |].
    split; [now apply get_latest_prompt_saved |].
    split; [| now rewrite strip_idempotent].
    rewrite <- strip_changes_iff. split; intros H Heq; apply H; congruence.
  - intros body' data' instructions w0 Hbody' Hi Hne.
    destruct (get_latest_prompt_total E w0) as [current [w1 [Ht _]]].
    set (u := strip (strip current +:+ manual_heading +:+ strip instructions)).
    assert (Hu : u <> "") by now apply manual_update_not_blank.
    exists u, (saved E u w1).
    rewrite (improve_ai_manually_endpoint_run E body' data' instructions
               current w0 w1 Hbody' Hi Hne Ht).
    rewrite (PyFacts.bind_ok _ _ _ _ _ (save_new_prompt_ok E _ w1 Hu)).
    split; [reflexivity |].
    split; [now apply get_latest_prompt_saved |].
    apply strip_idempotent.
Qed.

(** A blank edited prompt, whatever the request and the store: the
    [ValueError] of the store leaves the endpoint. *)
Lemma improve_ai_blank_prompt_raises
    (body : option json) (data : gmap string json) (cs cr : string)
    (entries : list (gmap string json)) (w : world) (p e : string) :
  request_data body = JObj data ->
  improve_request data cs cr entries ->
  both_calls_succeed E w p e ->
  strip e = "" ->
  improve_ai_endpoint E body w
    = (Raise (ValueError "new_prompt must be a non-empty string"), before_save E w).
Proof.
  intros Hbody Hreq Hcalls He.
  rewrite (improve_ai_endpoint_run E body data cs cr entries w p e
             Hbody Hreq Hcalls).
  now rewrite (PyFacts.bind_raise _ _ _ _ _
                 (save_new_prompt_blank E e (before_save E w) He)).
Qed.

End ImproveClaims.

(** C10 when the editor answers [" P "]: the response carries [" P "], the
    store holds ["P"]. *)
Lemma improve_ai_returns_untrimmed_prompt_witness :
  exists w',
    App.improve_ai_endpoint (Demo.env [Demo.reply_X; Demo.prompt_padded] [])
        Demo.improve_request_body Demo.empty_world
      = (Ok (App.mk_response 200
               (JObj (<["updatedPrompt" := JStr " P "]>
                     (<["predictedReply" := JStr "X"]> ∅)))), w') /\
    PromptStore.get_latest_prompt (Demo.env [Demo.reply_X; Demo.prompt_padded] []) w'
      = (Ok "P", w').
Proof.
  destruct (improve_ai_returns_untrimmed_prompt
              (Demo.env [Demo.reply_X; Demo.prompt_padded] [])
              Demo.improve_request_body
              (<["consultantReply" := JStr "hi there"]>
                 (<["clientSequence" := JStr "hello"]> ∅))
              "hello" "hi there" [] Demo.empty_world "X" " P ")
    as [[w' (Hrun & Hlatest & _)] _].
  - reflexivity.
  - repeat split; try reflexivity; discriminate.
  - split.
    + exists "sk-test". split; [reflexivity | discriminate].
    + exists Demo.reply_X, Demo.prompt_padded.
      repeat split; try (intros req; reflexivity); vm_compute; reflexivity.
  - discriminate.
  - exists w'. split; [exact Hrun | exact Hlatest].
Defined.

(** ** The offline pipeline *)

Module PipelineFacts.

Import PyStr PyStrFacts PromptStore PromptStoreFacts AIClient AIClientFacts App.

Lemma prints_ret {A} (a : A) : Py.prints_at_most 0 (Py.ret a).
Proof. intros w. exists []. simpl. now rewrite app_nil_r. Qed.

Lemma prints_raise {A} (e : exn) : Py.prints_at_most 0 (@Py.raise A e).
Proof. intros w. exists []. simpl. now rewrite app_nil_r. Qed.

Lemma prints_lift {A} (r : result A) : Py.prints_at_most 0 (Py.lift r).
Proof. intros w. exists []. simpl. now rewrite app_nil_r. Qed.

Lemma prints_bind {A B} (n k : nat) (c : Py.M A) (f : A -> Py.M B) :
  Py.prints_at_most n c ->
  (forall a, Py.prints_at_most k (f a)) ->
  Py.prints_at_most (n + k) (Py.bind c f).
Proof.
  intros Hc Hf w. unfold Py.bind.
  destruct (Hc w) as [ls [Hs Hl]].
  destruct (c w) as [[a|e] w1]; cbn [snd] in *.
  - destruct (Hf a w1) as [ls' [Hs' Hl']].
    exists (ls ++ ls'). rewrite Hs', Hs, length_app, <- app_assoc.
    split; [reflexivity | lia].
  - exists ls. split; [assumption | lia].
Qed.

(** A computation that leaves standard output alone. *)
Lemma prints_nothing {A} (c : Py.M A) :
  (forall w, stdout (snd (c w)) = stdout w) -> Py.prints_at_most 0 c.
Proof. intros H w. exists []. rewrite H, app_nil_r. auto. Qed.

Section WithEnvironment.

Context (E : environment).

Lemma get_latest_prompt_quiet : Py.prints_at_most 0 (get_latest_prompt E).
Proof.
  apply prints_nothing. intros w.
  destruct (prompts w) as [|r rest] eqn:Hp.
  - now rewrite (get_latest_prompt_empty E w Hp).
  - destruct (get_latest_prompt_nonempty E w) as [t [Ht _]]; [congruence |].
    now rewrite Ht.
Qed.

Lemma save_new_prompt_quiet (text : string) :
  Py.prints_at_most 0 (save_new_prompt E text).
Proof.
  apply prints_nothing. intros w.
  destruct (strip text) eqn:Hs.
  - now rewrite (save_new_prompt_blank E text w Hs).
  - rewrite (save_new_prompt_ok E text w) by (rewrite Hs; discriminate).
    reflexivity.
Qed.

Lemma get_openai_client_quiet : Py.prints_at_most 0 (_get_openai_client E).
Proof.
  unfold _get_openai_client.
  destruct (OPENAI_API_KEY E) as [k|]; [destruct (truthy k) |];
    first [apply prints_ret | apply prints_raise].
Qed.

Lemma create_completion_quiet (req : chat_request) :
  Py.prints_at_most 0 (create_completion E req).
Proof. apply prints_nothing. reflexivity. Qed.

Lemma generate_chat_reply_quiet (payload : json) :
  Py.prints_at_most 0 (generate_chat_reply E payload).
Proof.
  unfold generate_chat_reply.
  apply (prints_bind 0 0); [apply get_latest_prompt_quiet | intros base].
  apply (prints_bind 0 0); [apply get_openai_client_quiet | intros _].
  apply (prints_bind 0 0); [apply create_completion_quiet | intros outcome].
  destruct outcome as [exc|content]; [apply prints_raise |].
  cbv zeta. destruct (json_loads E _) as [parsed|]; [| apply prints_raise].
  apply (prints_bind 0 0); [apply prints_lift | intros reply].
  destruct reply as [[| | |s| |]|];
    first [apply prints_ret | apply prints_raise].
Qed.

Lemma improve_prompt_with_editor_quiet
    (existing cs : string) (hist : list json) (cr predicted : string) :
  Py.prints_at_most 0 (improve_prompt_with_editor E existing cs hist cr predicted).
Proof.
  unfold improve_prompt_with_editor.
  apply (prints_bind 0 0); [apply get_openai_client_quiet | intros _].
  apply (prints_bind 0 0); [apply create_completion_quiet | intros outcome].
  destruct outcome as [exc|content]; [apply prints_raise |].
  cbv zeta. destruct (json_loads E _) as [parsed|]; [| apply prints_raise].
  apply (prints_bind 0 0); [apply prints_lift | intros reply].
  destruct reply as [[| | |s| |]|];
    first [apply prints_ret | apply prints_raise].
Qed.

(** One sample writes at most one line. *)
Lemma pipeline_step_prints (idx : nat) (s : DatasetBuilder.Sample) (prompt : string) :
  Py.prints_at_most 1 (pipeline_step E idx s prompt).
Proof.
  unfold pipeline_step.
  apply (prints_bind 0 1); [apply prints_lift | intros cst].
  apply (prints_bind 0 1); [apply prints_lift | intros crt].
  unfold Py.prints_at_most. intros w. unfold Py.try_except_AIClientError.
  unfold learn_from_sample.
  set (hist := map history_entry _).
  set (payload := JObj _).
  destruct (generate_chat_reply_quiet payload w) as [l1 [H1 L1]].
  unfold Py.bind at 1.
  destruct (generate_chat_reply E payload w) as [[predicted|e1] w1];
    cbn [snd] in H1.
  - destruct (improve_prompt_with_editor_quiet prompt cst hist crt predicted w1)
      as [l2 [H2 L2]].
    unfold Py.bind at 1.
    destruct (improve_prompt_with_editor E prompt cst hist crt predicted w1)
      as [[p'|e2] w2]; cbn [snd] in H2.
    + destruct (save_new_prompt_quiet p' w2) as [l3 [H3 L3]].
      unfold Py.bind at 1.
      destruct (save_new_prompt E p' w2) as [[u|e3] w3]; cbn [snd] in H3.
      * exists [LogUpdated idx (DatasetBuilder.contact_id s)].
        cbn. rewrite H3, H2, H1.
        destruct l1, l2, l3; simpl in *; try lia.
        rewrite !app_nil_r. auto.
      * destruct l1, l2, l3; simpl in *; try lia.
        rewrite !app_nil_r in *.
        destruct e3 as [msg|msg|msg|msg]; cbn.
        -- exists [LogSkipped idx msg]. rewrite H3, H2, H1. auto.
        -- exists []. rewrite H3, H2, H1, app_nil_r. auto.
        -- exists []. rewrite H3, H2, H1, app_nil_r. auto.
        -- exists []. rewrite H3, H2, H1, app_nil_r. auto.
    + destruct l1, l2; simpl in *; try lia. rewrite !app_nil_r in *.
      destruct e2 as [msg|msg|msg|msg]; cbn.
      * exists [LogSkipped idx msg]. rewrite H2, H1. auto.
      * exists []. rewrite H2, H1, app_nil_r. auto.
      * exists []. rewrite H2, H1, app_nil_r. auto.
      * exists []. rewrite H2, H1, app_nil_r. auto.
  - destruct l1; simpl in *; try lia. rewrite !app_nil_r in *.
    destruct e1 as [msg|msg|msg|msg]; cbn.
    + exists [LogSkipped idx msg]. rewrite H1. auto.
    + exists []. rewrite H1, app_nil_r. auto.
    + exists []. rewrite H1, app_nil_r. auto.
    + exists []. rewrite H1, app_nil_r. auto.
Qed.

Lemma pipeline_loop_prints (samples : list DatasetBuilder.Sample) :
  forall (idx : nat) (prompt : string),
    Py.prints_at_most (length samples) (pipeline_loop E idx samples prompt).
Proof.
  induction samples as [|s rest IH]; intros idx prompt.
  - apply prints_ret.
  - cbn [pipeline_loop length].
    apply (prints_bind 1 (length rest)); [apply pipeline_step_prints |].
    intros prompt'. apply IH.
Qed.

End WithEnvironment.

End PipelineFacts.

Section PipelineClaims.

Import PyStr PyStrFacts PromptStore PromptStoreFacts AIClient AIClientFacts.
Import App AppFacts PipelineFacts.

Context (E : environment).

Lemma slice_to_nonneg {A} (l : list A) (n : Z) :
  0 <= n -> Py.slice_to l n = take (Z.to_nat n) l.
Proof.
  intros H. unfold Py.slice_to.
  destruct (0 <=? n) eqn:Hn; [reflexivity |].
  apply Z.leb_gt in Hn. lia.
Qed.

(** With a table that has rows, neither AI call touches the table. *)
Lemma generate_chat_reply_prompts (payload : json) (w : world) :
  prompts w <> [] ->
  prompts (snd (generate_chat_reply E payload w)) = prompts w.
Proof.
  intros Hne. unfold generate_chat_reply.
  destruct (get_latest_prompt_nonempty E w Hne) as [t [Ht _]].
  rewrite (PyFacts.bind_ok _ _ _ _ _ Ht).
  unfold Py.bind, _get_openai_client, create_completion, Py.ret, Py.raise, Py.lift.
  destruct (OPENAI_API_KEY E) as [k|]; [destruct (truthy k) |]; try reflexivity.
  destruct (chat_completions_create E _ _) as [exc|content]; [reflexivity |].
  cbv zeta. destruct (json_loads E _) as [parsed|]; [| reflexivity].
  destruct (Py.get parsed "reply") as [[[| | |s| |]|]|e]; reflexivity.
Qed.

Lemma improve_prompt_with_editor_prompts
    (existing cs : string) (hist : list json) (cr predicted : string) (w : world) :
  prompts (snd (improve_prompt_with_editor E existing cs hist cr predicted w))
    = prompts w.
Proof.
  unfold improve_prompt_with_editor.
  unfold Py.bind, _get_openai_client, create_completion, Py.ret, Py.raise, Py.lift.
  destruct (OPENAI_API_KEY E) as [k|]; [destruct (truthy k) |]; try reflexivity.
  destruct (chat_completions_create E _ _) as [exc|content]; [reflexivity |].
  cbv zeta. destruct (json_loads E _) as [parsed|]; [| reflexivity].
  destruct (Py.get parsed "prompt") as [[[| | |s| |]|]|e]; reflexivity.
Qed.

Lemma pipeline_step_start (idx : nat) (s : DatasetBuilder.Sample)
    (prompt cst crt : string) (w : world) :
  joined s cst crt ->
  pipeline_step E idx s prompt w
    = Py.try_except_AIClientError
        (learn_from_sample E idx s prompt cst crt (model_history s))
        (fun exc => Py.bind (Py.print (LogSkipped idx exc)) (fun _ => Py.ret prompt))
        w.
Proof.
  intros [Hc Hr]. unfold pipeline_step. rewrite Hc, Hr.
  now rewrite !bind_lift_ok.
Qed.

Lemma pipeline_step_persists (idx : nat) (s : DatasetBuilder.Sample)
    (prompt cst crt predicted p' : string) (w w1 w2 : world) :
  joined s cst crt ->
  generate_chat_reply E (model_payload cst s) w = (Ok predicted, w1) ->
  improve_prompt_with_editor E prompt cst (model_history s) crt predicted w1
    = (Ok p', w2) ->
  strip p' <> "" ->
  pipeline_step E idx s prompt w
    = (Ok p', Py.logged (LogUpdated idx (DatasetBuilder.contact_id s))
                        (saved E (strip p') w2)).
Proof.
  intros Hj Hg Hi Hne. rewrite (pipeline_step_start idx s prompt cst crt w Hj).
  apply PyFacts.try_ok. unfold learn_from_sample.
  fold (model_history s). fold (model_payload cst s).
  rewrite (PyFacts.bind_ok _ _ _ _ _ Hg).
  rewrite (PyFacts.bind_ok _ _ _ _ _ Hi).
  rewrite (PyFacts.bind_ok _ _ _ _ _ (save_new_prompt_ok E p' w2 Hne)).
  reflexivity.
Qed.

Lemma pipeline_step_skips (idx : nat) (s : DatasetBuilder.Sample)
    (prompt cst crt msg : string) (w w' : world) :
  joined s cst crt ->
  (generate_chat_reply E (model_payload cst s) w = (Raise (AIClientError msg), w')
   \/ exists predicted w1,
        generate_chat_reply E (model_payload cst s) w = (Ok predicted, w1) /\
        improve_prompt_with_editor E prompt cst (model_history s) crt predicted w1
          = (Raise (AIClientError msg), w')) ->
  pipeline_step E idx s prompt w
    = (Ok prompt, Py.logged (LogSkipped idx msg) w').
Proof.
  intros Hj H. rewrite (pipeline_step_start idx s prompt cst crt w Hj).
  rewrite (PyFacts.try_caught _ _ w w' msg); [reflexivity |].
  unfold learn_from_sample.
  fold (model_history s). fold (model_payload cst s).
  destruct H as [Hg | (predicted & w1 & Hg & Hi)].
  - now rewrite (PyFacts.bind_raise _ _ _ _ _ Hg).
  - rewrite (PyFacts.bind_ok _ _ _ _ _ Hg).
    now rewrite (PyFacts.bind_raise _ _ _ _ _ Hi).
Qed.

(** C9, as amended.  With limit [N >= 0] the loop runs over the first [N]
    samples (all of them if there are fewer), in order, and writes at most
    [N] lines.  For a sample, with string texts, on which both AI calls
    return and the edited prompt is not blank, the loop goes on to the
    next sample from a world in which the trimmed edited prompt has been
    appended to the table as its latest version, with the edited prompt as
    running prompt.  For a sample on which an AI call raises
    [AIClientError], the loop logs the skip and goes on to the next sample
    with the running prompt unchanged and, the table having rows, no row
    added. *)
Theorem self_learning_pipeline_persists_and_skips :
  (forall (N : Z) (w : world),
     0 <= N ->
     let all := DatasetBuilder.build_samples (conversations_json E) in
     let samples := take (Z.to_nat N) all in
     run_self_learning_pipeline E (Some N) w
       = Py.bind (get_latest_prompt E) (pipeline_loop E 1 samples) w /\
     (length samples <= Z.to_nat N)%nat /\
     all = samples ++ drop (Z.to_nat N) all /\
     exists lines,
       stdout (snd (run_self_learning_pipeline E (Some N) w))
         = stdout w ++ lines /\
       (length lines <= Z.to_nat N)%nat) /\
  (forall (idx : nat) (s : DatasetBuilder.Sample)
          (rest : list DatasetBuilder.Sample)
          (prompt cst crt predicted p' : string) (w w1 w2 : world),
     joined s cst crt ->
     generate_chat_reply E (model_payload cst s) w = (Ok predicted, w1) ->
     improve_prompt_with_editor E prompt cst (model_history s) crt predicted w1
       = (Ok p', w2) ->
     strip p' <> "" ->
     let w3 := Py.logged (LogUpdated idx (DatasetBuilder.contact_id s))
                         (saved E (strip p') w2) in
     pipeline_loop E idx (s :: rest) prompt w
       = pipeline_loop E (S idx) rest p' w3 /\
     (exists id now,
        prompts w3 = prompts w2 ++
          [mk_row id (default 0 (max_version (prompts w2)) + 1) (strip p') now]) /\
     get_latest_prompt E w3 = (Ok (strip p'), w3)) /\
  (forall (idx : nat) (s : DatasetBuilder.Sample)
          (rest : list DatasetBuilder.Sample)
          (prompt cst crt msg : string) (w w' : world),
     joined s cst crt ->
     (generate_chat_reply E (model_payload cst s) w
        = (Raise (AIClientError msg), w')
      \/ exists predicted w1,
           generate_chat_reply E (model_payload cst s) w = (Ok predicted, w1) /\
           improve_prompt_with_editor E prompt cst (model_history s) crt
             predicted w1 = (Raise (AIClientError msg), w')) ->
     pipeline_loop E idx (s :: rest) prompt w
       = pipeline_loop E (S idx) rest prompt (Py.logged (LogSkipped idx msg) w') /\
     (prompts w <> [] ->
        prompts (Py.logged (LogSkipped idx msg) w') = prompts w)).
Proof.
  split; [| split].
  - intros N w HN all samples.
    assert (Hrun : run_self_learning_pipeline E (Some N) w
                   = Py.bind (get_latest_prompt E) (pipeline_loop E 1 samples) w).
    { unfold run_self_learning_pipeline. fold all.
      now rewrite (slice_to_nonneg all N HN). }
    assert (Hlen : (length samples <= Z.to_nat N)%nat).
    { subst samples. rewrite length_take. lia. }
    split; [exact Hrun |]. split; [exact Hlen |].
    split; [subst samples; now rewrite take_drop |].
    rewrite Hrun.
    destruct (prints_bind 0 (length samples) (get_latest_prompt E)
                (pipeline_loop E 1 samples)
                (get_latest_prompt_quiet E)
                (fun prompt => pipeline_loop_prints E samples 1 prompt) w)
      as [lines [Hs Hl]].
    exists lines. split; [exact Hs | simpl in Hl; lia].
  - intros idx s rest prompt cst crt predicted p' w w1 w2 Hj Hg Hi Hne w3.
    split; [| split].
    + cbn [pipeline_loop].
      now rewrite (PyFacts.bind_ok _ _ _ _ _
                     (pipeline_step_persists idx s prompt cst crt predicted p'
                        w w1 w2 Hj Hg Hi Hne)).
    + subst w3. unfold Py.logged, saved. cbn. eauto.
    + subst w3. unfold get_latest_prompt, Py.bind, select_latest.
      unfold Py.logged, saved. cbn [Py.print snd prompts].
      rewrite latest_snoc by apply next_version_above.
      unfold row_and_text. cbn [prompt_text].
      apply truthy_true_iff in Hne. rewrite Hne. reflexivity.
  - intros idx s rest prompt cst crt msg w w' Hj H. split.
    + cbn [pipeline_loop].
      now rewrite (PyFacts.bind_ok _ _ _ _ _
                     (pipeline_step_skips idx s prompt cst crt msg w w' Hj H)).
    + intros Hw. unfold Py.logged. cbn [Py.print snd prompts].
      destruct H as [Hg | (predicted & w1 & Hg & Hi)].
      * pose proof (generate_chat_reply_prompts (model_payload cst s) w Hw) as Hp.
        now rewrite Hg in Hp.
      * pose proof (generate_chat_reply_prompts (model_payload cst s) w Hw) as Hp.
        rewrite Hg in Hp. cbn [snd] in Hp.
        pose proof (improve_prompt_with_editor_prompts prompt cst
                      (model_history s) crt predicted w1) as Hp'.
        rewrite Hi in Hp'. cbn [snd] in Hp'. congruence.
Qed.

End PipelineClaims.

(** C9 on the first turn of a transcript, the editor answering [" P "]:
    the loop moves on with running prompt [" P "] and stored prompt ["P"]. *)
Lemma self_learning_pipeline_persists_and_skips_witness :
  let E := Demo.env [Demo.reply_X; Demo.prompt_padded] Demo.two_turns in
  let w0 := snd (PromptStore.get_latest_prompt E Demo.empty_world) in
  exists w3,
    App.pipeline_loop E 1 [Demo.first_turn] PromptStore.DEFAULT_BASE_PROMPT w0
      = App.pipeline_loop E 2 [] " P " w3 /\
    PromptStore.get_latest_prompt E w3 = (Ok "P", w3).
Proof.
  intros E w0.
  destruct (self_learning_pipeline_persists_and_skips E) as (_ & Hpersist & _).
  set (g := AIClient.generate_chat_reply E (App.model_payload "hi" Demo.first_turn) w0).
  set (i := AIClient.improve_prompt_with_editor E PromptStore.DEFAULT_BASE_PROMPT
              "hi" (App.model_history Demo.first_turn) "yo" "X" (snd g)).
  destruct (Hpersist 1%nat Demo.first_turn [] PromptStore.DEFAULT_BASE_PROMPT
              "hi" "yo" "X" " P " w0 (snd g) (snd i))
    as (Hloop & _ & Hlatest).
  - split; reflexivity.
  - vm_compute. reflexivity.
  - vm_compute. reflexivity.
  - discriminate.
  - eexists. split; [exact Hloop | exact Hlatest].
Defined.

(** C9 as stated fails when the editor answers with an all-whitespace
    prompt: both AI calls return, yet nothing is persisted for the sample
    (the table keeps its single seed row), no line is logged and the run
    ends with the [ValueError] of [save_new_prompt]. *)
Lemma self_learning_pipeline_blank_prompt_counterexample :
  let E := Demo.env [Demo.reply_X; Demo.prompt_blank] Demo.one_turn in
  let w0 := snd (PromptStore.get_latest_prompt E Demo.empty_world) in
  let s := DatasetBuilder.mk_Sample (JStr "c-1") (JStr "dtv") [JStr "hi"] [JStr "yo"] [] in
  let g := AIClient.generate_chat_reply E (App.model_payload "hi" s) w0 in
  let i := AIClient.improve_prompt_with_editor E PromptStore.DEFAULT_BASE_PROMPT
             "hi" (App.model_history s) "yo" "X" (snd g) in
  let r := App.run_self_learning_pipeline E (Some 20) Demo.empty_world in
  DatasetBuilder.build_samples (conversations_json E) = [s] /\
  fst g = Ok "X" /\
  fst i = Ok "  " /\
  fst r = Raise (ValueError "new_prompt must be a non-empty string") /\
  prompts (snd r) = prompts w0 /\
  length (prompts (snd r)) = 1%nat /\
  stdout (snd r) = [] /\
  ~ (exists row, In row (prompts (snd r)) /\
       (prompt_text row = "  " \/ prompt_text row = PyStr.strip "  ")).
Proof.
  intros E w0 s g i r.
  repeat split; try (vm_compute; reflexivity).
  intros [row [Hin Htext]]. vm_compute in Hin.
  destruct Hin as [<- | []]. vm_compute in Htext.
  destruct Htext; discriminate.
Qed.

(* ================================================================== *)
(** * Further properties *)
(* ================================================================== *)

(** ** The prompt store over time *)

Section PromptStoreHistory.

Import PyStr PyStrFacts PromptStore PromptStoreFacts PromptListing.

Lemma numbered_snoc (rows : list prompt_row) (r : prompt_row) :
  forall k,
    numbered k rows ->
    version r = k + Z.of_nat (length rows) ->
    numbered k (rows ++ [r]).
Proof.
  induction rows as [|r0 rest IH]; intros k Hn Hv.
  - simpl in *. split; [lia | exact I].
  - destruct Hn as [H0 Hrest]. split; [exact H0 |].
    apply IH; [exact Hrest |]. simpl length in Hv. lia.
Qed.

Lemma numbered_lookup (rows : list prompt_row) :
  forall k i r,
    numbered k rows -> rows !! i = Some r -> version r = k + Z.of_nat i.
Proof.
  induction rows as [|r0 rest IH]; intros k i r Hn Hl; [discriminate |].
  destruct Hn as [H0 Hrest]. destruct i as [|i].
  - injection Hl as <-. lia.
  - rewrite (IH (k + 1) i r Hrest Hl). lia.
Qed.

Lemma numbered_max (rows : list prompt_row) :
  forall k, numbered k rows ->
    default (k - 1) (max_version rows) = k - 1 + Z.of_nat (length rows).
Proof.
  induction rows as [|r0 rest IH]; intros k Hn; [simpl; lia |].
  destruct Hn as [H0 Hrest]. specialize (IH (k + 1) Hrest).
  cbn [max_version length]. destruct (max_version rest) as [m|] eqn:Hm.
  - cbn [from_option id] in *. lia.
  - apply max_version_none in Hm. subst rest. cbn [from_option id length]. lia.
Qed.

Lemma DEFAULT_BASE_PROMPT_clean :
  strip DEFAULT_BASE_PROMPT = DEFAULT_BASE_PROMPT.
Proof. unfold DEFAULT_BASE_PROMPT. apply strip_idempotent. Qed.

Context (E : environment).

(** What every store call keeps: versions 1, 2, 3, ... in table order and
    trimmed, non-empty texts. *)
Lemma run_call_keeps_numbering (c : store_call) (w : world) :
  numbered 1 (prompts w) -> Forall clean_text (prompts w) ->
  numbered 1 (prompts (run_call E c w)) /\
  Forall clean_text (prompts (run_call E c w)).
Proof.
  intros Hn Hc.
  assert (Hseed : prompts w = [] ->
            numbered 1 (prompts (seeded E w)) /\
            Forall clean_text (prompts (seeded E w))).
  { intros Hp. unfold seeded. cbn [prompts]. rewrite Hp. split.
    - simpl. auto.
    - constructor; [| constructor]. split; cbn [prompt_text].
      + apply DEFAULT_BASE_PROMPT_clean.
      + apply DEFAULT_BASE_PROMPT_nonempty. }
  destruct c as [| |text]; cbn [run_call].
  - destruct (prompts w) as [|r rest] eqn:Hp.
    + rewrite (get_latest_prompt_empty E w Hp). now apply Hseed.
    + destruct (get_latest_prompt_nonempty E w) as [t [Ht _]]; [congruence |].
      rewrite Ht. cbn [snd]. rewrite Hp. auto.
  - destruct (prompts w) as [|r rest] eqn:Hp.
    + rewrite (initialize_empty E w Hp). now apply Hseed.
    + rewrite (initialize_nonempty E w) by congruence.
      cbn [snd]. rewrite Hp. auto.
  - destruct (strip text) eqn:Hs.
    + rewrite (save_new_prompt_blank E text w Hs). auto.
    + assert (Hne : strip text <> "") by (rewrite Hs; discriminate).
      rewrite (save_new_prompt_ok E text w Hne).
      unfold saved. cbn [snd prompts]. split.
      * apply numbered_snoc; [exact Hn |]. cbn [version].
        pose proof (numbered_max (prompts w) 1 Hn) as Hmax.
        replace (1 - 1) with 0 in Hmax by lia. lia.
      * apply Forall_app. split; [exact Hc |].
        constructor; [| constructor]. split; cbn [prompt_text];
          [apply strip_idempotent | exact Hne].
Qed.

Lemma run_calls_keep_numbering (cs : list store_call) :
  forall w,
    numbered 1 (prompts w) -> Forall clean_text (prompts w) ->
    numbered 1 (prompts (run_calls E cs w)) /\
    Forall clean_text (prompts (run_calls E cs w)).
Proof.
  induction cs as [|c cs IH]; intros w Hn Hc; [auto |].
  change (run_calls E (c :: cs) w) with (run_calls E cs (run_call E c w)).
  destruct (run_call_keeps_numbering c w Hn Hc) as [Hn' Hc'].
  now apply IH.
Qed.

(** X1. Starting from an empty table, after any sequence of store calls the
    row at table position [i] (counted from 0) has version [i + 1], and its
    text is trimmed and not empty: versions are consecutive from 1, never
    repeated and never skipped. *)
Theorem store_versions_consecutive
    (rid : Z) (reads calls : nat) (out : list log_line)
    (cs : list store_call) (i : nat) (r : prompt_row) :
  prompts (run_calls E cs (mk_world [] rid reads calls out)) !! i = Some r ->
  version r = Z.of_nat i + 1 /\
  strip (prompt_text r) = prompt_text r /\
  prompt_text r <> "".
Proof.
  intros Hl.
  destruct (run_calls_keep_numbering cs (mk_world [] rid reads calls out))
    as [Hn Hc]; [exact I | constructor |].
  split.
  - rewrite (numbered_lookup _ 1 i r Hn Hl). lia.
  - exact (Forall_lookup_1 _ _ _ _ Hc Hl).
Qed.

(** X2. Saving a text that is not blank and then reading the latest prompt
    gives back the trimmed text, on any table; the read writes nothing. *)
Theorem save_then_get_latest (text : string) (w : world) :
  all_whitespace text = false ->
  let w' := snd (save_new_prompt E text w) in
  get_latest_prompt E w' = (Ok (strip text), w').
Proof.
  intros Hws w'.
  assert (Hne : strip text <> "").
  { intros Hs. apply strip_empty_iff in Hs. congruence. }
  subst w'. rewrite (save_new_prompt_ok E text w Hne). cbn [snd].
  now apply get_latest_prompt_saved.
Qed.

(** X3. Reading the latest prompt twice gives the same text, and the
    second read changes nothing; on a table that has rows the first read
    changes nothing either. *)
Theorem get_latest_prompt_idempotent (w : world) :
  exists text w1,
    get_latest_prompt E w = (Ok text, w1) /\
    get_latest_prompt E w1 = (Ok text, w1) /\
    (prompts w <> [] -> w1 = w).
Proof.
  destruct (prompts w) as [|r0 rest] eqn:Hp.
  - exists DEFAULT_BASE_PROMPT, (seeded E w).
    split; [now apply get_latest_prompt_empty |].
    split; [| intros H; contradiction].
    destruct (get_latest_prompt_nonempty E (seeded E w)) as [t [Ht [_ Hd]]].
    { unfold seeded. cbn [prompts]. rewrite Hp. discriminate. }
    rewrite Ht. f_equal. f_equal. rewrite Hd.
    unfold seeded. cbn [prompts]. rewrite Hp.
    cbn [app order_by_version_desc_limit_1 row_and_text prompt_text].
    now rewrite DEFAULT_BASE_PROMPT_truthy.
  - destruct (get_latest_prompt_nonempty E w) as [t [Ht _]]; [congruence |].
    exists t, w. auto.
Qed.

(** X4. When the row of greatest version has an empty text, the default
    prompt is returned but nothing is inserted: the table still has that
    row as its latest. *)
Theorem get_latest_prompt_empty_text_falls_back (w : world) (r : prompt_row) :
  order_by_version_desc_limit_1 (prompts w) = Some r ->
  prompt_text r = "" ->
  get_latest_prompt E w = (Ok DEFAULT_BASE_PROMPT, w).
Proof.
  intros Hr Ht.
  destruct (get_latest_prompt_nonempty E w) as [t [Hrun [_ Hd]]].
  { intros Hp. rewrite Hp in Hr. discriminate. }
  rewrite Hrun. f_equal. f_equal. rewrite Hd, Hr.
  unfold row_and_text. rewrite Ht. reflexivity.
Qed.

End PromptStoreHistory.

(** X2 on the store holding versions 1 to 3. *)
Lemma save_then_get_latest_witness :
  PromptStore.get_latest_prompt (Demo.env [] [])
      (snd (PromptStore.save_new_prompt (Demo.env [] []) "  New prompt " Demo.world_v3))
    = (Ok "New prompt",
       snd (PromptStore.save_new_prompt (Demo.env [] []) "  New prompt " Demo.world_v3)).
Proof.
  apply (save_then_get_latest (Demo.env [] []) "  New prompt " Demo.world_v3).
  reflexivity.
Defined.

(** X1 after a read, a save, a rejected save and another save: the third
    row has version 3. *)
Lemma store_versions_consecutive_witness :
  version (mk_row 3 3 "b" "2025-01-01T00:00:00") = Z.of_nat 2 + 1 /\
  PyStr.strip "b" = "b" /\
  "b" <> "".
Proof.
  apply (store_versions_consecutive (Demo.env [] []) 0 0 0 []
           [PromptStore.CallGetLatest; PromptStore.CallSave " a ";
            PromptStore.CallSave "  "; PromptStore.CallSave "b"] 2
           (mk_row 3 3 "b" "2025-01-01T00:00:00")).
  vm_compute. reflexivity.
Defined.

(** X4 on a table whose latest row has an empty text. *)
Lemma get_latest_prompt_empty_text_falls_back_witness :
  PromptStore.get_latest_prompt (Demo.env [] []) Demo2.world_empty_text
    = (Ok PromptStore.DEFAULT_BASE_PROMPT, Demo2.world_empty_text).
Proof.
  apply (get_latest_prompt_empty_text_falls_back (Demo.env [] [])
           Demo2.world_empty_text (mk_row 2 2 "" "2025-01-02T00:00:00")).
  - reflexivity.
  - reflexivity.
Defined.

From Stdlib Require Import Sorted.

(** ** Listing the versions *)

Section PromptListingFacts.

Import PyStrFacts PromptStore PromptStoreFacts PromptListing.

Lemma insert_desc_perm (r : prompt_row) (l : list prompt_row) :
  Permutation (insert_desc r l) (r :: l).
Proof.
  induction l as [|r' rest IH]; simpl; [reflexivity |].
  destruct (version r' <=? version r); [reflexivity |].
  rewrite IH. apply perm_swap.
Qed.

Lemma order_by_version_desc_perm (rows : list prompt_row) :
  Permutation (order_by_version_desc rows) rows.
Proof.
  induction rows as [|r rest IH]; simpl; [reflexivity |].
  rewrite insert_desc_perm. now rewrite IH.
Qed.

Lemma insert_desc_sorted (r : prompt_row) (l : list prompt_row) :
  StronglySorted newer_first l -> StronglySorted newer_first (insert_desc r l).
Proof.
  induction l as [|r' rest IH]; intros Hs; simpl.
  - repeat constructor.
  - inversion Hs as [|? ? Hrest Hall]; subst.
    destruct (version r' <=? version r) eqn:Hle.
    + apply Z.leb_le in Hle. constructor; [exact Hs |].
      constructor; [exact Hle |].
      eapply Forall_impl; [exact Hall |]. unfold newer_first. simpl. intros; lia.
    + apply Z.leb_gt in Hle. constructor; [now apply IH |].
      rewrite (insert_desc_perm r rest). constructor; [| exact Hall].
      unfold newer_first. lia.
Qed.

Lemma order_by_version_desc_sorted (rows : list prompt_row) :
  StronglySorted newer_first (order_by_version_desc rows).
Proof.
  induction rows as [|r rest IH]; simpl; [constructor |].
  now apply insert_desc_sorted.
Qed.

Lemma StronglySorted_take {A} (R : A -> A -> Prop) (l : list A) :
  StronglySorted R l -> forall n, StronglySorted R (take n l).
Proof.
  induction 1 as [|x l Hs IH Hall]; intros n; destruct n; simpl;
    try constructor; auto.
  apply Forall_take. exact Hall.
Qed.

Lemma head_insert_desc (r : prompt_row) (l : list prompt_row) :
  head (insert_desc r l)
    = match head l with
      | Some r' => if version r <? version r' then Some r' else Some r
      | None => Some r
      end.
Proof.
  destruct l as [|r' rest]; simpl; [reflexivity |].
  destruct (version r' <=? version r) eqn:Hle, (version r <? version r') eqn:Hlt;
    try reflexivity.
  - apply Z.leb_le in Hle. apply Z.ltb_lt in Hlt. lia.
  - apply Z.leb_gt in Hle. apply Z.ltb_ge in Hlt. lia.
Qed.

(** The first row of the ordering is the row [get_latest_prompt] reads. *)
Lemma head_order_by_version_desc (rows : list prompt_row) :
  head (order_by_version_desc rows) = order_by_version_desc_limit_1 rows.
Proof.
  induction rows as [|r rest IH]; simpl; [reflexivity |].
  now rewrite head_insert_desc, IH.
Qed.

Lemma head_sql_limit {A} (limit : Z) (l : list A) :
  limit <> 0 -> head (sql_limit limit l) = head l.
Proof.
  intros Hne. unfold sql_limit. destruct (limit <? 0) eqn:Hlt; [reflexivity |].
  apply Z.ltb_ge in Hlt. destruct (Z.to_nat limit) eqn:Hn; [lia |].
  destruct l; reflexivity.
Qed.

(** X5. [list_prompt_versions] only reads: it returns the dictionaries of
    stored rows, greatest version first, every stored row at most once;
    with a limit [n >= 0] it returns [min n count] rows, with a negative
    limit all of them. *)
Theorem list_prompt_versions_sorted (limit : Z) (w : world) :
  exists rows rest,
    list_prompt_versions limit w = (Ok (map row_dict rows), w) /\
    StronglySorted newer_first rows /\
    Permutation (rows ++ rest) (prompts w) /\
    (0 <= limit ->
       length rows = Nat.min (Z.to_nat limit) (length (prompts w))) /\
    (limit < 0 -> rest = []).
Proof.
  unfold list_prompt_versions, sql_limit.
  set (sorted := order_by_version_desc (prompts w)).
  assert (Hlen : length sorted = length (prompts w)).
  { apply Permutation_length, order_by_version_desc_perm. }
  destruct (limit <? 0) eqn:Hlt.
  - apply Z.ltb_lt in Hlt. exists sorted, [].
    split; [reflexivity |]. split; [apply order_by_version_desc_sorted |].
    split; [rewrite app_nil_r; apply order_by_version_desc_perm |].
    split; [lia | reflexivity].
  - apply Z.ltb_ge in Hlt.
    exists (take (Z.to_nat limit) sorted), (drop (Z.to_nat limit) sorted).
    split; [reflexivity |].
    split; [apply StronglySorted_take, order_by_version_desc_sorted |].
    split; [rewrite take_drop; apply order_by_version_desc_perm |].
    split; [intros _; rewrite length_take, Hlen; reflexivity | lia].
Qed.

Context (E : environment).

(** X6. Right after a successful [save_new_prompt], the first entry that
    [list_prompt_versions] returns (for any limit other than 0) is the row
    just saved: the next version number with the trimmed text. *)
Theorem list_prompt_versions_after_save (text : string) (limit : Z) (w : world) :
  PyStr.all_whitespace text = false ->
  limit <> 0 ->
  exists id now others,
    fst (list_prompt_versions limit (snd (save_new_prompt E text w)))
      = Ok (row_dict (mk_row id (default 0 (max_version (prompts w)) + 1)
                             (PyStr.strip text) now) :: others).
Proof.
  intros Hws Hlim.
  assert (Hne : PyStr.strip text <> "").
  { intros Hs. apply strip_empty_iff in Hs. congruence. }
  rewrite (save_new_prompt_ok E text w Hne). cbn [snd].
  unfold list_prompt_versions. cbn [fst].
  set (rows := sql_limit limit _).
  assert (Hhead : head rows
            = Some (mk_row (last_rowid w + 1)
                      (default 0 (max_version (prompts w)) + 1) (PyStr.strip text)
                      (utcnow_isoformat E (clock_reads w)))).
  { subst rows. rewrite (head_sql_limit limit _ Hlim).
    rewrite head_order_by_version_desc. unfold saved. cbn [prompts].
    apply latest_snoc, next_version_above. }
  destruct rows as [|r others]; [discriminate |].
  injection Hhead as ->. cbn [map]. eauto.
Qed.

End PromptListingFacts.

(** X6 on the store holding versions 1 to 3, listing two entries. *)
Lemma list_prompt_versions_after_save_witness :
  exists id now others,
    fst (PromptListing.list_prompt_versions 2
           (snd (PromptStore.save_new_prompt (Demo.env [] []) " New " Demo.world_v3)))
      = Ok (PromptListing.row_dict (mk_row id 4 "New" now) :: others).
Proof.
  apply (list_prompt_versions_after_save (Demo.env [] []) " New " 2 Demo.world_v3).
  - reflexivity.
  - discriminate.
Defined.

(** ** The AI client and the world *)

Section AIClientEffects.

Import PyStrFacts PromptStore PromptStoreFacts AIClient AIClientFacts.

Context (E : environment).

Lemma get_openai_client_no_key (w : world) :
  OPENAI_API_KEY E = None \/ OPENAI_API_KEY E = Some "" ->
  _get_openai_client E w
    = (Raise (AIClientError
         "OPENAI_API_KEY is not set. Please configure it in your .env file."), w).
Proof. intros [H | H]; unfold _get_openai_client; rewrite H; reflexivity. Qed.

(** X7. Without an API key (unset or empty) both client functions raise
    the configuration error and make no call to the completion service;
    the editor function changes nothing at all, while [generate_chat_reply]
    has already read the prompt, so an empty table gets its seed row. *)
Theorem no_api_key_no_call
    (payload : json) (existing cs : string) (hist : list json)
    (cr predicted : string) (w : world) :
  OPENAI_API_KEY E = None \/ OPENAI_API_KEY E = Some "" ->
  let msg := "OPENAI_API_KEY is not set. Please configure it in your .env file." in
  generate_chat_reply E payload w
    = (Raise (AIClientError msg), snd (get_latest_prompt E w)) /\
  llm_calls (snd (generate_chat_reply E payload w)) = llm_calls w /\
  improve_prompt_with_editor E existing cs hist cr predicted w
    = (Raise (AIClientError msg), w).
Proof.
  intros Hkey msg.
  assert (Hg : generate_chat_reply E payload w
               = (Raise (AIClientError msg), snd (get_latest_prompt E w))).
  { unfold generate_chat_reply.
    destruct (get_latest_prompt_total E w) as [t [w1 [Ht _]]].
    rewrite (PyFacts.bind_ok _ _ _ _ _ Ht). rewrite Ht. cbn [snd].
    now rewrite (PyFacts.bind_raise _ _ _ _ _ (get_openai_client_no_key w1 Hkey)). }
  split; [exact Hg |]. split.
  - rewrite Hg. cbn [snd]. apply get_latest_prompt_llm_calls.
  - unfold improve_prompt_with_editor.
    now rewrite (PyFacts.bind_raise _ _ _ _ _ (get_openai_client_no_key w Hkey)).
Qed.

(** The request [generate_chat_reply] sends. *)
Lemma generate_chat_reply_request (payload : json) (w w1 : world) (prompt : string) :
  key_set E ->
  get_latest_prompt E w = (Ok prompt, w1) ->
  generate_chat_reply E payload w
    = (read_field E "Error calling OpenAI: " "Model" "Model" "reply"
         (chat_completions_create E (llm_calls w1)
            (mk_chat_request (_get_model_name E) prompt payload 4)),
       after_call w1).
Proof.
  intros Hkey Ht. unfold generate_chat_reply.
  rewrite (PyFacts.bind_ok _ _ _ _ _ Ht).
  rewrite (PyFacts.bind_ok _ _ _ _ _ (get_openai_client_ok E w1 Hkey)).
  unfold Py.bind at 1. unfold create_completion at 1. fold (after_call w1).
  unfold read_field.
  destruct (chat_completions_create E _ _) as [exc|content]; [reflexivity |].
  cbv zeta. destruct (json_loads E (content_or_empty_object content))
    as [parsed|]; [| reflexivity].
  unfold Py.bind, Py.lift.
  destruct (Py.get parsed "reply") as [[[| | |s| |]|]|e]; reflexivity.
Qed.

(** X8. A prompt that has just been saved is what the model is steered
    with next: the following [generate_chat_reply] makes exactly one call,
    whose system message is the trimmed saved text, whose user message is
    the payload, with temperature 0.4 and, when [OPENAI_MODEL] is unset,
    model [gpt-4.1-mini]; its result is read off that call's outcome. *)
Theorem saved_prompt_steers_next_reply (text : string) (payload : json) (w : world) :
  key_set E ->
  PyStr.all_whitespace text = false ->
  let w' := snd (save_new_prompt E text w) in
  let request :=
    mk_chat_request (default "gpt-4.1-mini" (OPENAI_MODEL E))
                    (PyStr.strip text) payload 4 in
  generate_chat_reply E payload w'
    = (read_field E "Error calling OpenAI: " "Model" "Model" "reply"
         (chat_completions_create E (llm_calls w) request),
       after_call w') /\
  llm_calls (after_call w') = S (llm_calls w).
Proof.
  intros Hkey Hws w' request.
  assert (Hne : PyStr.strip text <> "").
  { intros Hs. apply strip_empty_iff in Hs. congruence. }
  assert (Hw' : w' = saved E (PyStr.strip text) w).
  { subst w'. now rewrite (save_new_prompt_ok E text w Hne). }
  rewrite Hw'. split; [| reflexivity].
  rewrite (generate_chat_reply_request payload _ _ (PyStr.strip text) Hkey
             (get_latest_prompt_saved E (PyStr.strip text) w Hne)).
  reflexivity.
Qed.

(** X9. The client never writes a prompt version: whatever happens,
    [improve_prompt_with_editor] leaves the table, the row counter and
    standard output as they are and makes at most one call, and
    [generate_chat_reply] leaves the table as its read of the latest
    prompt leaves it (untouched when the table has rows) and makes at most
    one call. *)
Theorem ai_client_never_writes
    (payload : json) (existing cs : string) (hist : list json)
    (cr predicted : string) (w : world) :
  (let w' := snd (improve_prompt_with_editor E existing cs hist cr predicted w) in
   prompts w' = prompts w /\ last_rowid w' = last_rowid w /\
   stdout w' = stdout w /\
   (llm_calls w' = llm_calls w \/ llm_calls w' = S (llm_calls w))) /\
  (let w' := snd (generate_chat_reply E payload w) in
   prompts w' = prompts (snd (get_latest_prompt E w)) /\
   (prompts w <> [] -> prompts w' = prompts w) /\
   (llm_calls w' = llm_calls w \/ llm_calls w' = S (llm_calls w))).
Proof.
  split.
  - unfold improve_prompt_with_editor.
    unfold Py.bind, _get_openai_client, create_completion, Py.ret, Py.raise, Py.lift.
    destruct (OPENAI_API_KEY E) as [k|]; [destruct (PyStr.truthy k) |];
      try (cbn; tauto).
    destruct (chat_completions_create E _ _) as [exc|content]; [cbn; tauto |].
    cbv zeta. destruct (json_loads E _) as [parsed|]; [| cbn; tauto].
    destruct (Py.get parsed "prompt") as [[[| | |s| |]|]|e]; cbn; tauto.
  - destruct (get_latest_prompt_total E w) as [t [w1 [Ht _]]].
    pose proof (get_latest_prompt_llm_calls E w) as Hcalls.
    rewrite Ht in *. cbn [snd] in *.
    assert (Hmain : let w' := snd (generate_chat_reply E payload w) in
              prompts w' = prompts w1 /\
              (llm_calls w' = llm_calls w \/ llm_calls w' = S (llm_calls w))).
    { unfold generate_chat_reply. rewrite (PyFacts.bind_ok _ _ _ _ _ Ht).
      unfold Py.bind, _get_openai_client, create_completion, Py.ret, Py.raise, Py.lift.
      rewrite <- Hcalls.
      destruct (OPENAI_API_KEY E) as [k|]; [destruct (PyStr.truthy k) |];
        try (cbn; tauto).
      destruct (chat_completions_create E _ _) as [exc|content]; [cbn; tauto |].
      cbv zeta. destruct (json_loads E _) as [parsed|]; [| cbn; tauto].
      destruct (Py.get parsed "reply") as [[[| | |s| |]|]|e]; cbn; tauto. }
    destruct Hmain as [Hp Hc]. split; [exact Hp |]. split; [| exact Hc].
    intros Hne. rewrite Hp.
    destruct (get_latest_prompt_nonempty E w Hne) as [t' [Ht' _]]. congruence.
Qed.

End AIClientEffects.

(** X7 in surroundings without a key, on an empty table. *)
Lemma no_api_key_no_call_witness :
  llm_calls (snd (AIClient.generate_chat_reply Demo2.env_no_key JNull Demo.empty_world))
    = 0%nat /\
  fst (AIClient.generate_chat_reply Demo2.env_no_key JNull Demo.empty_world)
    = Raise (AIClientError
        "OPENAI_API_KEY is not set. Please configure it in your .env file.").
Proof.
  destruct (no_api_key_no_call Demo2.env_no_key JNull "" "" [] "" ""
              Demo.empty_world (or_introl eq_refl)) as (Hg & Hc & _).
  split; [exact Hc | now rewrite Hg].
Defined.

(** X8 on the store holding versions 1 to 3. *)
Lemma saved_prompt_steers_next_reply_witness :
  fst (AIClient.generate_chat_reply (Demo.env [Demo.reply_X] []) JNull
         (snd (PromptStore.save_new_prompt (Demo.env [Demo.reply_X] []) " P "
                 Demo.world_v3)))
    = Ok "X".
Proof.
  destruct (saved_prompt_steers_next_reply (Demo.env [Demo.reply_X] []) " P "
              JNull Demo.world_v3) as [H _].
  - exists "sk-test". split; [reflexivity | discriminate].
  - reflexivity.
  - rewrite H. vm_compute. reflexivity.
Defined.

(** ** What the Samples cover *)

Section DatasetCoverage.

Import DatasetBuilder.

Lemma in_not_out (m : gmap string json) :
  direction_is "in" m = true -> direction_is "out" m = false.
Proof.
  unfold direction_is, Py.eq_str.
  destruct (m !! "direction") as [[| | |d| |]|]; try discriminate.
  intros H. apply String.eqb_eq in H. subst d. reflexivity.
Qed.

Lemma filter_take_drop_while {A} (p : A -> bool) (l : list A) :
  List.filter p l = take_while p l ++ List.filter p (drop_while p l).
Proof.
  induction l as [|x rest IH]; simpl; [reflexivity |].
  destruct (p x) eqn:Hp; simpl; [now rewrite IH | now rewrite Hp].
Qed.

(** Dropping a run of messages that fail [q] does not change what [q]
    selects. *)
Lemma filter_drop_while_other {A} (p q : A -> bool) (l : list A) :
  (forall x, p x = true -> q x = false) ->
  List.filter q (drop_while p l) = List.filter q l.
Proof.
  intros Hpq. induction l as [|x rest IH]; simpl; [reflexivity |].
  destruct (p x) eqn:Hp; [| reflexivity].
  now rewrite (Hpq x Hp).
Qed.

Section OneConversation.

Context (cid scen : json).

Lemma samples_from_client_nonempty (rest : list (gmap string json)) :
  forall b h s,
    In s (samples_from cid scen b h rest) -> client_sequence s <> [].
Proof.
  induction rest as [|m rest' IH]; intros b h s Hin; [contradiction |].
  cbn [samples_from] in Hin. apply in_app_or in Hin as [Hin | Hin].
  - destruct (direction_is "in" m) eqn:Hm; [| contradiction].
    destruct (negb b); [| contradiction].
    destruct Hin as [<- | []]. cbn [client_sequence take_while].
    rewrite Hm. discriminate.
  - exact (IH _ _ _ Hin).
Qed.

Lemma samples_from_client_cover (rest : list (gmap string json)) :
  forall b h,
    concat (map client_sequence (samples_from cid scen b h rest))
      = map text_of
          (List.filter (direction_is "in")
             (if b then drop_while (direction_is "in") rest else rest)).
Proof.
  induction rest as [|m rest' IH]; intros b h; [now destruct b |].
  cbn [samples_from]. rewrite map_app, concat_app, IH.
  destruct (direction_is "in" m) eqn:Hm; destruct b;
    cbn [andb negb map concat app client_sequence drop_while List.filter take_while];
    rewrite ?Hm; cbn [map concat app List.filter]; rewrite ?Hm, ?app_nil_r;
    try reflexivity.
  cbn [map app]. f_equal. rewrite <- map_app. f_equal.
  symmetry. apply filter_take_drop_while.
Qed.

Lemma samples_from_reply_cover (rest : list (gmap string json)) :
  Forall (fun m => direction_is "in" m = true \/ direction_is "out" m = true) rest ->
  forall b h,
    concat (map consultant_reply (samples_from cid scen b h rest))
      = map text_of
          (List.filter (direction_is "out")
             (drop_while (direction_is "out")
                (if b then drop_while (direction_is "in") rest else rest))).
Proof.
  induction 1 as [|m rest' Hm Hall IH]; intros b h; [now destruct b |].
  cbn [samples_from]. rewrite map_app, concat_app, IH.
  destruct (direction_is "in" m) eqn:Hin.
  - pose proof (in_not_out m Hin) as Hout.
    destruct b; cbn [andb negb map concat app consultant_reply drop_while];
      rewrite ?Hin, ?Hout; cbn [drop_while].
    + reflexivity.
    + rewrite app_nil_r. cbn [List.filter]. rewrite Hout.
      rewrite <- map_app. f_equal.
      rewrite <- filter_take_drop_while.
      apply filter_drop_while_other. exact in_not_out.
  - destruct Hm as [Hm | Hout]; [congruence |].
    destruct b; cbn [andb negb map concat app drop_while];
      rewrite ?Hin, ?Hout; cbn [drop_while]; rewrite ?Hout; reflexivity.
Qed.

Lemma samples_from_no_in (rest : list (gmap string json)) :
  Forall (fun m => direction_is "in" m = false) rest ->
  forall b h, samples_from cid scen b h rest = [].
Proof.
  induction 1 as [|m rest' Hm Hall IH]; intros b h; [reflexivity |].
  cbn [samples_from]. rewrite Hm, IH. reflexivity.
Qed.

Lemma spec_samples_from (messages : list (gmap string json)) :
  spec_samples cid scen messages = samples_from cid scen false [] messages.
Proof. symmetry. apply (samples_from_spec cid scen messages []). Qed.

End OneConversation.

(** The messages of a conversation. *)
Lemma spec_conversation_from (c : conversation_record) :
  spec_conversation c
    = samples_from (default (JStr "") (convo_contact_id c))
                   (default (JStr "") (convo_scenario c)) false []
                   (default [] (convo_conversation c)).
Proof. apply spec_samples_from. Qed.

Lemma build_samples_concat (convs : list conversation_record) :
  build_samples convs = concat (map spec_conversation convs).
Proof. unfold build_samples. now rewrite build_samples_from. Qed.

(** X10. No Sample has an empty client sequence, and the client sequences
    of all Samples, put end to end, are exactly the texts of the "in"
    messages of all conversations, in order: every client message lands in
    one Sample, once. *)
Theorem client_sequences_cover_in_messages (convs : list conversation_record) :
  (forall s, In s (build_samples convs) -> client_sequence s <> []) /\
  concat (map client_sequence (build_samples convs))
    = concat (map (fun c =>
                     map text_of
                       (List.filter (direction_is "in")
                          (default [] (convo_conversation c))))
                  convs).
Proof.
  rewrite build_samples_concat. split.
  - intros s Hin. apply in_concat in Hin as [l [Hl Hs]].
    apply in_map_iff in Hl as [c [<- _]].
    rewrite spec_conversation_from in Hs.
    exact (samples_from_client_nonempty _ _ _ _ _ _ Hs).
  - induction convs as [|c rest IH]; [reflexivity |].
    cbn [map concat]. rewrite map_app, concat_app, IH. f_equal.
    rewrite spec_conversation_from.
    apply (samples_from_client_cover _ _ _ false []).
Qed.

(** X11. When every message of every conversation is an "in" or an "out"
    message, the consultant replies of all Samples, put end to end, are the
    texts of the "out" messages that come after the first "in" message of
    their conversation: only consultant messages that open a conversation
    are in no reply. *)
Theorem consultant_replies_cover_out_messages (convs : list conversation_record) :
  Forall (fun c =>
            Forall (fun m => direction_is "in" m = true
                             \/ direction_is "out" m = true)
                   (default [] (convo_conversation c))) convs ->
  concat (map consultant_reply (build_samples convs))
    = concat (map (fun c =>
                     map text_of
                       (List.filter (direction_is "out")
                          (drop_while (direction_is "out")
                             (default [] (convo_conversation c)))))
                  convs).
Proof.
  intros Hall. rewrite build_samples_concat.
  induction Hall as [|c rest Hc Hrest IH]; [reflexivity |].
  cbn [map concat]. rewrite map_app, concat_app, IH. f_equal.
  rewrite spec_conversation_from.
  apply (samples_from_reply_cover _ _ _ Hc false []).
Qed.

(** X12. Conversations are segmented independently of each other: the
    Samples of a batch are the Samples of its first part followed by those
    of the rest; and a conversation without any "in" message (in
    particular one without messages) yields no Sample. *)
Theorem build_samples_app (a b : list conversation_record) :
  build_samples (a ++ b) = build_samples a ++ build_samples b /\
  (forall c,
     Forall (fun m => direction_is "in" m = false)
            (default [] (convo_conversation c)) ->
     build_samples (a ++ [c] ++ b) = build_samples (a ++ b)).
Proof.
  assert (Happ : forall x y, build_samples (x ++ y)
                             = build_samples x ++ build_samples y).
  { intros x y. rewrite !build_samples_concat. now rewrite map_app, concat_app. }
  split; [apply Happ |].
  intros c Hc. rewrite !Happ. f_equal.
  replace (build_samples [c]) with (@nil Sample); [reflexivity |].
  rewrite build_samples_concat. cbn [map concat]. rewrite app_nil_r.
  rewrite spec_conversation_from. symmetry. now apply samples_from_no_in.
Qed.

End DatasetCoverage.

(** X11 on the transcript in, out, in. *)
Lemma consultant_replies_cover_out_messages_witness :
  concat (map DatasetBuilder.consultant_reply
            (DatasetBuilder.build_samples Demo.two_turns))
    = [JStr "yo"].
Proof.
  rewrite (consultant_replies_cover_out_messages Demo.two_turns).
  - vm_compute. reflexivity.
  - constructor; [| constructor].
    change (Forall (fun m => DatasetBuilder.direction_is "in" m = true
                             \/ DatasetBuilder.direction_is "out" m = true)
              [Demo.message "in" "hi"; Demo.message "out" "yo";
               Demo.message "in" "more"]).
    constructor; [left; reflexivity |].
    constructor; [right; reflexivity |].
    constructor; [left; reflexivity | constructor].
Defined.

(** ** The endpoints at their edges *)

Section NormalizeEdges.

Import App AppFacts.

(** The dictionary [reshape] builds. *)
Lemma reshape_lookup (m : gmap string json) :
  exists m',
    reshape m = JObj m' /\
    m' !! "role" = Some (default JNull (m !! "role")) /\
    m' !! "message" = Some (default (JStr "") (m !! "message")).
Proof.
  eexists. split; [reflexivity |]. split.
  - rewrite lookup_insert_ne by discriminate. apply lookup_insert_eq.
  - apply lookup_insert_eq.
Qed.

Lemma spec_normalize_fixed (entries : list (gmap string json)) :
  exists entries',
    spec_normalize entries = JObj <$> entries' /\
    spec_normalize entries' = spec_normalize entries.
Proof.
  unfold spec_normalize.
  induction entries as [|m rest (entries' & H1 & H2)]; [exists []; auto |].
  cbn [List.filter]. destruct (known_roleb m) eqn:Hk; [| eauto].
  destruct (reshape_lookup m) as (m' & Hm' & Hrole & Hmsg).
  exists (m' :: entries'). cbn [map fmap list_fmap]. split.
  - rewrite Hm'. f_equal. exact H1.
  - cbn [List.filter].
    assert (Hk' : known_roleb m' = true).
    { unfold known_roleb in *. rewrite Hrole.
      destruct (m !! "role") as [[| | |r| |]|]; try discriminate. exact Hk. }
    rewrite Hk'. cbn [map]. f_equal; [| exact H2].
    rewrite Hm'. unfold reshape. rewrite Hrole, Hmsg. cbn [from_option id].
    unfold reshape in Hm'. injection Hm' as <-. reflexivity.
Qed.

Lemma normalize_loop_app_dicts (pre : list (gmap string json)) (l acc : list json) :
  normalize_loop ((JObj <$> pre) ++ l) acc
    = normalize_loop l (acc ++ spec_normalize pre).
Proof.
  revert acc. induction pre as [|m rest IH]; intros acc.
  - cbn. unfold spec_normalize. cbn. now rewrite app_nil_r.
  - cbn [fmap list_fmap app normalize_loop Py.get Py.get_default from_option id].
    rewrite known_roleb_code. fold (reshape m).
    unfold spec_normalize. cbn [List.filter].
    destruct (known_roleb m); cbn [negb map].
    + rewrite IH. unfold spec_normalize. now rewrite <- app_assoc.
    + apply IH.
Qed.

(** X13. Normalizing an already normalized history changes nothing, and a
    normalized history is never longer than the raw one. *)
Theorem normalize_chat_history_idempotent
    (entries : list (gmap string json)) (w : world) :
  exists normalized w1,
    _normalize_chat_history (JObj <$> entries) w = (Ok normalized, w1) /\
    fst (_normalize_chat_history normalized w1) = Ok normalized /\
    (length normalized <= length entries)%nat.
Proof.
  rewrite (normalize_chat_history_run entries w).
  eexists _, _. split; [reflexivity |].
  destruct (spec_normalize_fixed entries) as (entries' & H1 & H2). split.
  - rewrite H1 at 1. rewrite normalize_chat_history_run. cbn [fst].
    now rewrite H2.
  - unfold spec_normalize. rewrite length_map. apply filter_length_le.
Qed.

(** X14. An entry of the raw history that is not a dictionary (a number, a
    string, null, a list) makes the normalization raise [AttributeError]
    once the loop reaches it; nothing is printed and no entry is returned. *)
Theorem normalize_chat_history_rejects_non_dict
    (pre : list (gmap string json)) (j : json) (rest : list json) (w : world) :
  (forall m, j <> JObj m) ->
  _normalize_chat_history ((JObj <$> pre) ++ j :: rest) w
    = (Raise (AttributeError
         ("'" +:+ Py.type_name j +:+ "' object has no attribute 'get'")), w).
Proof.
  intros Hj. unfold _normalize_chat_history.
  apply PyFacts.bind_raise. unfold Py.lift.
  rewrite normalize_loop_app_dicts.
  destruct j; try reflexivity. now contradiction (Hj m).
Qed.

End NormalizeEdges.

(** X14 on a history whose second entry is the number 5. *)
Lemma normalize_chat_history_rejects_non_dict_witness :
  App._normalize_chat_history
      [JObj (<["role" := JStr "client"]> ∅); JNum 5; JNull] Demo.empty_world
    = (Raise (AttributeError "'int' object has no attribute 'get'"), Demo.empty_world).
Proof.
  apply (normalize_chat_history_rejects_non_dict
           [<["role" := JStr "client"]> ∅] (JNum 5) [JNull] Demo.empty_world).
  intros m H. discriminate H.
Defined.

Section EndpointEdges.

Import PyStr PyStrFacts PromptStore PromptStoreFacts AIClient AIClientFacts.
Import App AppFacts.

Context (E : environment).

(** X15. Validation comes first and is free of effects.  When the request
    body is a JSON object (an absent, unparsable or falsy body is read as
    the empty object), [/generate-reply] answers 400 when [clientSequence]
    is not a string that is non-empty after trimming, and otherwise 400
    when [chatHistory] is present and not a list; [/improve-ai] checks
    [clientSequence], then [consultantReply], then [chatHistory].  When
    the body is any other JSON value (a non-empty list or string, a
    number other than 0, true), no 400 is answered: the first [data.get]
    raises [AttributeError] in each of the three endpoints.  In every one
    of these cases the world is untouched: no read of the store, no call,
    nothing printed. *)
Theorem endpoints_validate_before_acting (body : option json) (w : world) :
  (forall data : gmap string json,
     request_data body = JObj data ->
     let blank key := forall s, data !! key = Some (JStr s) -> strip s = "" in
     let usable key := exists s, data !! key = Some (JStr s) /\ strip s <> "" in
     let no_list := forall l, default (JArr []) (data !! "chatHistory") <> JArr l in
     (blank "clientSequence" ->
        generate_reply_endpoint E body w
          = (Ok (error_response 400 "clientSequence must be a non-empty string"), w) /\
        improve_ai_endpoint E body w
          = (Ok (error_response 400 "clientSequence must be a non-empty string"), w)) /\
     (usable "clientSequence" -> no_list ->
        generate_reply_endpoint E body w
          = (Ok (error_response 400 "chatHistory must be a list"), w)) /\
     (usable "clientSequence" -> blank "consultantReply" ->
        improve_ai_endpoint E body w
          = (Ok (error_response 400 "consultantReply must be a non-empty string"), w)) /\
     (usable "clientSequence" -> usable "consultantReply" -> no_list ->
        improve_ai_endpoint E body w
          = (Ok (error_response 400 "chatHistory must be a list"), w))) /\
  ((forall data : gmap string json, request_data body <> JObj data) ->
     let e := AttributeError
                ("'" +:+ Py.type_name (request_data body)
                     +:+ "' object has no attribute 'get'") in
     generate_reply_endpoint E body w = (Raise e, w) /\
     improve_ai_endpoint E body w = (Raise e, w) /\
     improve_ai_manually_endpoint E body w = (Raise e, w)).
Proof.
  split.
  - intros data Hbody blank usable no_list.
    split; [| split; [| split]].
    + intros Hcs.
      unfold generate_reply_endpoint, improve_ai_endpoint. rewrite Hbody.
      cbn [Py.get Py.get_default]. rewrite !bind_lift_ok.
      destruct (data !! "clientSequence") as [[| | |s| |]|] eqn:Hl;
        try (split; reflexivity).
      cbn [not_nonblank_str]. rewrite (Hcs s Hl). split; reflexivity.
    + intros (cs & Hcs & Hne) Hl.
      unfold generate_reply_endpoint. rewrite Hbody.
      cbn [Py.get Py.get_default]. rewrite !bind_lift_ok.
      rewrite Hcs, (not_nonblank_str_false cs Hne).
      destruct (default (JArr []) (data !! "chatHistory")) eqn:Hh; try reflexivity.
      now contradiction (Hl l).
    + intros (cs & Hcs & Hne) Hcr.
      unfold improve_ai_endpoint. rewrite Hbody.
      cbn [Py.get Py.get_default]. rewrite !bind_lift_ok.
      rewrite Hcs, (not_nonblank_str_false cs Hne).
      destruct (data !! "consultantReply") as [[| | |s| |]|] eqn:Hl;
        try reflexivity.
      cbn [not_nonblank_str]. rewrite (Hcr s Hl). reflexivity.
    + intros (cs & Hcs & Hne) (cr & Hcr & Hne') Hl.
      unfold improve_ai_endpoint. rewrite Hbody.
      cbn [Py.get Py.get_default]. rewrite !bind_lift_ok.
      rewrite Hcs, (not_nonblank_str_false cs Hne).
      rewrite Hcr, (not_nonblank_str_false cr Hne').
      destruct (default (JArr []) (data !! "chatHistory")) eqn:Hh; try reflexivity.
      now contradiction (Hl l).
  - intros Hbody e. subst e.
    unfold generate_reply_endpoint, improve_ai_endpoint,
      improve_ai_manually_endpoint.
    destruct (request_data body) as [| | | | |m];
      try (repeat split; reflexivity).
    now contradiction (Hbody m).
Qed.

(** An exception other than [AIClientError] passes through the handler. *)
Lemma try_passes {A} (c : Py.M A) (h : string -> Py.M A) (w w' : world) (e : exn) :
  c w = (Raise e, w') ->
  (forall msg, e <> AIClientError msg) ->
  Py.try_except_AIClientError c h w = (Raise e, w').
Proof.
  intros H Hne. unfold Py.try_except_AIClientError. rewrite H.
  destruct e; try reflexivity. now contradiction (Hne msg).
Qed.

(** What [/generate-reply] makes of the outcome of its call. *)
Lemma generate_reply_endpoint_run (body : option json) (data : gmap string json)
    (cs : string) (entries : list (gmap string json)) (w : world)
    (outcome : llm_outcome) :
  request_data body = JObj data ->
  data !! "clientSequence" = Some (JStr cs) ->
  strip cs <> "" ->
  default (JArr []) (data !! "chatHistory") = JArr (JObj <$> entries) ->
  key_set E ->
  answers E (llm_calls w) outcome ->
  generate_reply_endpoint E body w
    = (match read_field E "Error calling OpenAI: " "Model" "Model" "reply" outcome with
       | Ok reply => Ok (mk_response 200 (jsonify1 "aiReply" (JStr reply)))
       | Raise (AIClientError msg) => Ok (error_response 500 msg)
       | Raise e => Raise e
       end,
       after_call (snd (get_latest_prompt E (Py.logged LogKuay w)))).
Proof.
  intros Hbody Hcs Hne Hh Hkey Hans.
  unfold generate_reply_endpoint. rewrite Hbody.
  cbn [Py.get Py.get_default]. rewrite !bind_lift_ok.
  rewrite Hcs, (not_nonblank_str_false cs Hne), Hh.
  rewrite (PyFacts.bind_ok _ _ _ _ _ (normalize_chat_history_run entries w)).
  fold (Py.logged LogKuay w).
  set (wa := Py.logged LogKuay w). set (payload := JObj _).
  pose proof (generate_chat_reply_run E payload wa outcome Hkey Hans) as Hgen.
  set (w' := after_call (snd (get_latest_prompt E wa))) in *.
  destruct (read_field E _ _ _ _ outcome) as [reply|e].
  - rewrite (PyFacts.bind_ok _ _ wa w' (inl reply)); [reflexivity |].
    apply PyFacts.try_ok. now rewrite (PyFacts.bind_ok _ _ _ _ _ Hgen).
  - assert (Hinner : Py.bind (generate_chat_reply E payload)
                       (fun reply => Py.ret (inl (B := response) reply)) wa
                     = (Raise e, w'))
      by now rewrite (PyFacts.bind_raise _ _ _ _ _ Hgen).
    destruct e as [msg|msg|msg|msg].
    + rewrite (PyFacts.bind_ok _ _ wa w' (inr (error_response 500 msg)));
        [reflexivity |].
      now rewrite (PyFacts.try_caught _ _ wa w' msg Hinner).
    + apply PyFacts.bind_raise. now apply try_passes.
    + apply PyFacts.bind_raise. now apply try_passes.
    + apply PyFacts.bind_raise. now apply try_passes.
Qed.

(** X16. [/generate-reply] on a well-formed request, with a key: when the
    service call fails with text [exc] the answer is 500 with error
    ["Error calling OpenAI: " ++ exc]; when the content is not JSON the
    answer is 500 with an error that ends with the raw content; when it is
    an object with string [reply] the answer is 200 with that string as
    [aiReply].  In all three cases one call is made and the table is what
    the read of the latest prompt leaves. *)
Theorem generate_reply_endpoint_outcomes
    (body : option json) (data : gmap string json) (cs : string)
    (entries : list (gmap string json)) (w : world) (outcome : llm_outcome) :
  request_data body = JObj data ->
  data !! "clientSequence" = Some (JStr cs) ->
  strip cs <> "" ->
  default (JArr []) (data !! "chatHistory") = JArr (JObj <$> entries) ->
  key_set E ->
  answers E (llm_calls w) outcome ->
  let w' := after_call (snd (get_latest_prompt E (Py.logged LogKuay w))) in
  let r := generate_reply_endpoint E body w in
  snd r = w' /\
  (forall exc, outcome = OpenAIError exc ->
     fst r = Ok (error_response 500 ("Error calling OpenAI: " +:+ exc))) /\
  (forall content, outcome = Completion content ->
     json_loads E (content_or_empty_object content) = None ->
     exists msg, fst r = Ok (error_response 500 msg) /\
                 endswith msg (content_or_empty_object content)) /\
  (forall content m reply, outcome = Completion content ->
     json_loads E (content_or_empty_object content) = Some (JObj m) ->
     m !! "reply" = Some (JStr reply) ->
     fst r = Ok (mk_response 200 (jsonify1 "aiReply" (JStr reply)))).
Proof.
  intros Hbody Hcs Hne Hh Hkey Hans w' r. subst r.
  rewrite (generate_reply_endpoint_run body data cs entries w outcome
             Hbody Hcs Hne Hh Hkey Hans).
  cbn [fst snd]. split; [reflexivity |]. split; [| split].
  - intros exc ->. reflexivity.
  - intros content -> Hnone.
    destruct (read_field_invalid_json E "Error calling OpenAI: " "Model" "Model"
                "reply" content Hnone) as [msg [Hr Hend]].
    rewrite Hr. eauto.
  - intros content m reply -> Hm Hreply.
    destruct (read_field_object E "Error calling OpenAI: " "Model" "Model"
                "reply" content m Hm) as [Hok _].
    now rewrite (Hok reply Hreply).
Qed.

(** X17. A failing [/improve-ai] stores nothing.  On a well-formed
    request: without an API key (unset or empty) the answer is 500 with
    the configuration error and no call is made; with a key, when the
    first call's outcome makes the client raise [AIClientError] the answer
    is 500 with its text after one call, and when the first call gives a
    reply and the editor call's outcome makes the client raise
    [AIClientError] the answer is 500 with its text after two calls.  In
    all three cases the table is what the read of the latest prompt
    leaves: no version is added. *)
Theorem improve_ai_failure_stores_nothing
    (body : option json) (data : gmap string json) (cs cr : string)
    (entries : list (gmap string json)) (w : world) (o1 o2 : llm_outcome)
    (msg : string) :
  request_data body = JObj data ->
  improve_request data cs cr entries ->
  let read := snd (get_latest_prompt E (Py.logged LogKuay w)) in
  let r := improve_ai_endpoint E body w in
  (OPENAI_API_KEY E = None \/ OPENAI_API_KEY E = Some "" ->
   r = (Ok (error_response 500
              "OPENAI_API_KEY is not set. Please configure it in your .env file."),
        read)) /\
  (key_set E ->
   answers E (llm_calls w) o1 ->
   read_field E "Error calling OpenAI: " "Model" "Model" "reply" o1
     = Raise (AIClientError msg) ->
   r = (Ok (error_response 500 msg), after_call read)) /\
  (key_set E ->
   answers E (llm_calls w) o1 ->
   answers E (S (llm_calls w)) o2 ->
   forall p,
     read_field E "Error calling OpenAI: " "Model" "Model" "reply" o1 = Ok p ->
     read_field E "Error calling OpenAI editor: " "Editor model" "Editor"
       "prompt" o2 = Raise (AIClientError msg) ->
     r = (Ok (error_response 500 msg), after_call (after_call read))) /\
  llm_calls read = llm_calls w /\
  llm_calls (after_call read) = S (llm_calls w) /\
  llm_calls (after_call (after_call read)) = S (S (llm_calls w)) /\
  prompts (after_call read) = prompts read /\
  prompts (after_call (after_call read)) = prompts read /\
  (prompts w <> [] -> prompts read = prompts w).
Proof.
  intros Hbody (Hcs & Hcsne & Hcr & Hcrne & Hhist) read r.
  set (wa := Py.logged LogKuay w) in *.
  set (payload := JObj (<["chatHistory" := JArr (spec_normalize entries)]>
                        (<["clientSequence" := JStr cs]> ∅))).
  assert (Hunfold : r = improve_ai_endpoint E body w) by reflexivity.
  unfold improve_ai_endpoint in Hunfold. rewrite Hbody in Hunfold.
  cbn [Py.get Py.get_default] in Hunfold. rewrite !bind_lift_ok in Hunfold.
  rewrite Hcs, (not_nonblank_str_false cs Hcsne) in Hunfold.
  rewrite Hcr, (not_nonblank_str_false cr Hcrne) in Hunfold.
  rewrite Hhist in Hunfold.
  rewrite (PyFacts.bind_ok _ _ _ _ _ (normalize_chat_history_run entries w))
    in Hunfold.
  fold (Py.logged LogKuay w) in Hunfold. fold wa payload in Hunfold.
  assert (Hreadcalls : llm_calls read = llm_calls w).
  { subst read. now rewrite get_latest_prompt_llm_calls. }
  split; [| split; [| split;
    [| split; [exact Hreadcalls | split; [| split; [| split;
       [reflexivity | split; [reflexivity |]]]]]]]].
  - intros Hkey.
    assert (Hgen : generate_chat_reply E payload wa
                   = (Raise (AIClientError
                        "OPENAI_API_KEY is not set. Please configure it in your .env file."),
                      read)).
    { unfold generate_chat_reply.
      destruct (get_latest_prompt_total E wa) as [t [w1 [Ht _]]].
      rewrite (PyFacts.bind_ok _ _ _ _ _ Ht). subst read. rewrite Ht. cbn [snd].
      now rewrite (PyFacts.bind_raise _ _ _ _ _ (get_openai_client_no_key E w1 Hkey)). }
    rewrite Hunfold.
    rewrite (PyFacts.bind_ok _ _ wa read
               (inr (error_response 500
                  "OPENAI_API_KEY is not set. Please configure it in your .env file.")));
      [reflexivity |].
    rewrite (PyFacts.try_caught _ _ wa read
               "OPENAI_API_KEY is not set. Please configure it in your .env file.");
      [reflexivity |].
    now rewrite (PyFacts.bind_raise _ _ _ _ _ Hgen).
  - intros Hkey Ha1 Hr1.
    pose proof (generate_chat_reply_run E payload wa o1 Hkey Ha1) as Hgen.
    fold read in Hgen. rewrite Hr1 in Hgen.
    rewrite Hunfold.
    rewrite (PyFacts.bind_ok _ _ wa (after_call read)
               (inr (error_response 500 msg))); [reflexivity |].
    rewrite (PyFacts.try_caught _ _ wa (after_call read) msg); [reflexivity |].
    now rewrite (PyFacts.bind_raise _ _ _ _ _ Hgen).
  - intros Hkey Ha1 Ha2 p Hr1 Hr2.
    pose proof (generate_chat_reply_run E payload wa o1 Hkey Ha1) as Hgen.
    fold read in Hgen. rewrite Hr1 in Hgen.
    rewrite Hunfold.
    rewrite (PyFacts.bind_ok _ _ wa (after_call read) (inl p)).
    2:{ apply PyFacts.try_ok. now rewrite (PyFacts.bind_ok _ _ _ _ _ Hgen). }
    cbv iota beta.
    assert (Hne : prompts (after_call read) <> []).
    { cbn [after_call prompts]. subst read.
      destruct (get_latest_prompt_total E wa) as [t [w' [Ht [_ Hn]]]].
      now rewrite Ht. }
    destruct (get_latest_prompt_nonempty E (after_call read) Hne)
      as [existing [Hex _]].
    rewrite (PyFacts.bind_ok _ _ _ _ _ Hex).
    assert (Hcalls : llm_calls (after_call read) = S (llm_calls w)).
    { cbn [after_call llm_calls]. now rewrite Hreadcalls. }
    rewrite <- Hcalls in Ha2.
    pose proof (improve_prompt_with_editor_run E existing cs
                  (spec_normalize entries) cr p (after_call read) o2 Hkey Ha2)
      as Himp.
    rewrite Hr2 in Himp.
    rewrite (PyFacts.bind_ok _ _ (after_call read) (after_call (after_call read))
               (inr (error_response 500 msg))); [reflexivity |].
    rewrite (PyFacts.try_caught _ _ _ (after_call (after_call read)) msg);
      [reflexivity |].
    now rewrite (PyFacts.bind_raise _ _ _ _ _ Himp).
  - cbn [after_call llm_calls]. now rewrite Hreadcalls.
  - cbn [after_call llm_calls]. now rewrite Hreadcalls.
  - intros Hw. subst read.
    assert (Hwa : prompts wa <> []) by exact Hw.
    destruct (get_latest_prompt_nonempty E wa Hwa) as [t [Ht _]].
    now rewrite Ht.
Qed.

(** X18. Manual improvements pile up: after one [/improve-ai-manually] call
    with usable instructions, a second one returns the first result, a
    blank line and the second instructions block, and the two calls add two
    rows with consecutive versions after the table the first call read. *)
Theorem manual_improvements_accumulate
    (body1 body2 : option json) (data1 data2 : gmap string json)
    (i1 i2 : string) (w : world) :
  request_data body1 = JObj data1 ->
  data1 !! "instructions" = Some (JStr i1) -> strip i1 <> "" ->
  request_data body2 = JObj data2 ->
  data2 !! "instructions" = Some (JStr i2) -> strip i2 <> "" ->
  exists u1 w1 u2 w2,
    improve_ai_manually_endpoint E body1 w
      = (Ok (mk_response 200 (jsonify1 "updatedPrompt" (JStr u1))), w1) /\
    improve_ai_manually_endpoint E body2 w1
      = (Ok (mk_response 200 (jsonify1 "updatedPrompt" (JStr u2))), w2) /\
    u2 = u1 +:+ nl +:+ nl +:+ manual_block i2 /\
    exists v id1 now1 id2 now2,
      prompts w2 = prompts (snd (get_latest_prompt E w))
                     ++ [mk_row id1 v u1 now1; mk_row id2 (v + 1) u2 now2].
Proof.
  intros Hb1 Hi1 Hne1 Hb2 Hi2 Hne2.
  destruct (get_latest_prompt_total E w) as [current [w0 [Ht _]]].
  set (u1 := strip (strip current +:+ manual_heading +:+ strip i1)).
  assert (Hu1 : u1 <> "") by now apply manual_update_not_blank.
  set (w1 := saved E u1 w0).
  set (u2 := strip (strip u1 +:+ manual_heading +:+ strip i2)).
  assert (Hu2 : u2 <> "") by now apply manual_update_not_blank.
  exists u1, w1, u2, (saved E u2 w1).
  split; [| split; [| split]].
  - rewrite (improve_ai_manually_endpoint_run E body1 data1 i1 current w w0
               Hb1 Hi1 Hne1 Ht).
    now rewrite (PyFacts.bind_ok _ _ _ _ _ (save_new_prompt_ok E _ w0 Hu1)).
  - rewrite (improve_ai_manually_endpoint_run E body2 data2 i2 u1 w1 w1
               Hb2 Hi2 Hne2 (get_latest_prompt_saved E u1 w0 Hu1)).
    now rewrite (PyFacts.bind_ok _ _ _ _ _ (save_new_prompt_ok E _ w1 Hu2)).
  - subst u2. rewrite (strip_manual_update u1 i2 Hne2).
    assert (Hfix : strip u1 = u1) by apply strip_idempotent.
    rewrite Hfix. apply truthy_true_iff in Hu1. rewrite Hu1.
    now rewrite <- !append_assoc.
  - rewrite Ht. cbn [snd].
    exists (default 0 (max_version (prompts w0)) + 1).
    do 4 eexists. unfold saved, w1, saved. cbn [prompts].
    rewrite <- app_assoc. cbn [app]. do 3 f_equal.
    rewrite (max_version_snoc (prompts w0)
               (mk_row _ (default 0 (max_version (prompts w0)) + 1) u1 _))
      by apply next_version_above.
    reflexivity.
Qed.

End EndpointEdges.

(** X15 on a request without a usable body, and on one whose body is a
    list. *)
Lemma endpoints_validate_before_acting_witness :
  App.generate_reply_endpoint (Demo.env [] []) None Demo.empty_world
    = (Ok (App.error_response 400 "clientSequence must be a non-empty string"),
       Demo.empty_world) /\
  App.improve_ai_manually_endpoint (Demo.env [] []) Demo2.list_body Demo.world_v3
    = (Raise (AttributeError "'list' object has no attribute 'get'"),
       Demo.world_v3).
Proof.
  split.
  - destruct (endpoints_validate_before_acting (Demo.env [] []) None
                Demo.empty_world) as [H _].
    destruct (H ∅ eq_refl) as [H400 _].
    apply H400. intros s Hs. rewrite lookup_empty in Hs. discriminate.
  - destruct (endpoints_validate_before_acting (Demo.env [] []) Demo2.list_body
                Demo.world_v3) as [_ H].
    apply H. intros data. discriminate.
Defined.

(** X16 when the model answers [{"reply": "X"}]. *)
Lemma generate_reply_endpoint_outcomes_witness :
  fst (App.generate_reply_endpoint (Demo.env [Demo.reply_X] []) Demo.reply_request
         Demo.empty_world)
    = Ok (App.mk_response 200 (App.jsonify1 "aiReply" (JStr "X"))).
Proof.
  destruct (generate_reply_endpoint_outcomes (Demo.env [Demo.reply_X] [])
              Demo.reply_request (<["clientSequence" := JStr "hello"]> ∅)
              "hello" [] Demo.empty_world Demo.reply_X)
    as (_ & _ & _ & H).
  - reflexivity.
  - reflexivity.
  - discriminate.
  - reflexivity.
  - exists "sk-test". split; [reflexivity | discriminate].
  - intros req. reflexivity.
  - apply (H (Some (Demo.obj1_text "reply" "X")) (<["reply" := JStr "X"]> ∅) "X");
      reflexivity.
Defined.

(** X17 when the model answers and the editor call fails. *)
Lemma improve_ai_failure_stores_nothing_witness :
  let r := App.improve_ai_endpoint (Demo.env [Demo.reply_X] [])
             Demo.improve_request_body Demo.world_v3 in
  fst r = Ok (App.error_response 500
                "Error calling OpenAI editor: connection refused") /\
  prompts (snd r) = prompts Demo.world_v3 /\
  llm_calls (snd r) = 2%nat.
Proof.
  intros r.
  destruct (improve_ai_failure_stores_nothing (Demo.env [Demo.reply_X] [])
              Demo.improve_request_body
              (<["consultantReply" := JStr "hi there"]>
                 (<["clientSequence" := JStr "hello"]> ∅))
              "hello" "hi there" [] Demo.world_v3 Demo.reply_X
              (OpenAIError "connection refused")
              "Error calling OpenAI editor: connection refused")
    as (_ & _ & H & _ & _ & Hcalls & _ & Hp & Hsame).
  - reflexivity.
  - repeat split; try reflexivity; discriminate.
  - subst r. rewrite (H ltac:(exists "sk-test"; split; [reflexivity | discriminate])
                        ltac:(intros req; reflexivity)
                        ltac:(intros req; reflexivity)
                        "X" eq_refl eq_refl).
    cbn [fst snd]. split; [reflexivity |]. split.
    + rewrite Hp. apply Hsame. discriminate.
    + rewrite Hcalls. reflexivity.
Defined.

(** X18: two manual improvements on the store holding versions 1 to 3. *)
Lemma manual_improvements_accumulate_witness :
  exists u1 w1 u2 w2,
    App.improve_ai_manually_endpoint (Demo.env [] []) (Demo.manual_request "a")
        Demo.world_v3
      = (Ok (App.mk_response 200 (App.jsonify1 "updatedPrompt" (JStr u1))), w1) /\
    App.improve_ai_manually_endpoint (Demo.env [] []) (Demo.manual_request "b") w1
      = (Ok (App.mk_response 200 (App.jsonify1 "updatedPrompt" (JStr u2))), w2) /\
    u2 = u1 +:+ PyStr.nl +:+ PyStr.nl +:+ App.manual_block "b".
Proof.
  destruct (manual_improvements_accumulate (Demo.env [] [])
              (Demo.manual_request "a") (Demo.manual_request "b")
              (<["instructions" := JStr "a"]> ∅) (<["instructions" := JStr "b"]> ∅)
              "a" "b" Demo.world_v3)
    as (u1 & w1 & u2 & w2 & H1 & H2 & Hu & _);
    try reflexivity; try discriminate.
  exists u1, w1, u2, w2. auto.
Defined.

(** ** Bounds on what a computation does *)

Module EffectsFacts.

Import PromptStore PromptStoreFacts AIClient AIClientFacts Effects.

(** *** Calls to the completion service *)

Lemma calls_quiet {A} (c : Py.M A) :
  (forall w, llm_calls (snd (c w)) = llm_calls w) -> calls_at_most 0 c.
Proof. intros H w. rewrite H. lia. Qed.

Lemma calls_weaken {A} (n n' : nat) (c : Py.M A) :
  (n <= n')%nat -> calls_at_most n c -> calls_at_most n' c.
Proof. intros Hle H w. destruct (H w). lia. Qed.

Lemma calls_bind {A B} (n k : nat) (c : Py.M A) (f : A -> Py.M B) :
  calls_at_most n c -> (forall a, calls_at_most k (f a)) ->
  calls_at_most (n + k) (Py.bind c f).
Proof.
  intros Hc Hf w. unfold Py.bind. destruct (Hc w) as [H1 H2].
  destruct (c w) as [[a|e] w1]; cbn [snd] in *; [| lia].
  destruct (Hf a w1). lia.
Qed.

Lemma calls_try {A} (n k : nat) (c : Py.M A) (h : string -> Py.M A) :
  calls_at_most n c -> (forall msg, calls_at_most k (h msg)) ->
  calls_at_most (n + k) (Py.try_except_AIClientError c h).
Proof.
  intros Hc Hh w. unfold Py.try_except_AIClientError. destruct (Hc w) as [H1 H2].
  destruct (c w) as [[a|[msg|msg|msg|msg]] w1]; cbn [snd] in *; try lia.
  destruct (Hh msg w1). lia.
Qed.

(** *** Rows appended to a table that has rows *)

Lemma rows_quiet {A} (c : Py.M A) :
  (forall w, prompts w <> [] -> prompts (snd (c w)) = prompts w) ->
  appends_at_most_on_rows 0 c.
Proof. intros H w Hw. exists []. rewrite (H w Hw), app_nil_r. auto. Qed.

Lemma rows_weaken {A} (n n' : nat) (c : Py.M A) :
  (n <= n')%nat -> appends_at_most_on_rows n c -> appends_at_most_on_rows n' c.
Proof.
  intros Hle H w Hw. destruct (H w Hw) as [x [Hx Hl]].
  exists x. split; [assumption | lia].
Qed.

Lemma rows_bind {A B} (n k : nat) (c : Py.M A) (f : A -> Py.M B) :
  appends_at_most_on_rows n c -> (forall a, appends_at_most_on_rows k (f a)) ->
  appends_at_most_on_rows (n + k) (Py.bind c f).
Proof.
  intros Hc Hf w Hw. unfold Py.bind. destruct (Hc w Hw) as [x [Hx Hl]].
  destruct (c w) as [[a|e] w1]; cbn [snd] in *.
  - assert (Hw1 : prompts w1 <> []).
    { rewrite Hx. destruct (prompts w); [contradiction | discriminate]. }
    destruct (Hf a w1 Hw1) as [y [Hy Hl']].
    exists (x ++ y). rewrite Hy, Hx, length_app, <- app_assoc.
    split; [reflexivity | lia].
  - exists x. split; [assumption | lia].
Qed.

Lemma rows_try {A} (n k : nat) (c : Py.M A) (h : string -> Py.M A) :
  appends_at_most_on_rows n c -> (forall msg, appends_at_most_on_rows k (h msg)) ->
  appends_at_most_on_rows (n + k) (Py.try_except_AIClientError c h).
Proof.
  intros Hc Hh w Hw. unfold Py.try_except_AIClientError.
  destruct (Hc w Hw) as [x [Hx Hl]].
  destruct (c w) as [[a|[msg|msg|msg|msg]] w1]; cbn [snd] in *;
    try (exists x; split; [assumption | lia]).
  assert (Hw1 : prompts w1 <> []).
  { rewrite Hx. destruct (prompts w); [contradiction | discriminate]. }
  destruct (Hh msg w1 Hw1) as [y [Hy Hl']].
  exists (x ++ y). rewrite Hy, Hx, length_app, <- app_assoc.
  split; [reflexivity | lia].
Qed.

(** *** Rows appended to any table *)

Lemma appends_quiet {A} (c : Py.M A) :
  (forall w, prompts (snd (c w)) = prompts w) -> appends_at_most 0 c.
Proof. intros H w. exists []. rewrite H, app_nil_r. auto. Qed.

Lemma appends_weaken {A} (n n' : nat) (c : Py.M A) :
  (n <= n')%nat -> appends_at_most n c -> appends_at_most n' c.
Proof.
  intros Hle H w. destruct (H w) as [x [Hx Hl]].
  exists x. split; [assumption | lia].
Qed.

Lemma appends_bind {A B} (n k : nat) (c : Py.M A) (f : A -> Py.M B) :
  appends_at_most n c -> (forall a, appends_at_most k (f a)) ->
  appends_at_most (n + k) (Py.bind c f).
Proof.
  intros Hc Hf w. unfold Py.bind. destruct (Hc w) as [x [Hx Hl]].
  destruct (c w) as [[a|e] w1]; cbn [snd] in *.
  - destruct (Hf a w1) as [y [Hy Hl']].
    exists (x ++ y). rewrite Hy, Hx, length_app, <- app_assoc.
    split; [reflexivity | lia].
  - exists x. split; [assumption | lia].
Qed.

Lemma appends_try {A} (n k : nat) (c : Py.M A) (h : string -> Py.M A) :
  appends_at_most n c -> (forall msg, appends_at_most k (h msg)) ->
  appends_at_most (n + k) (Py.try_except_AIClientError c h).
Proof.
  intros Hc Hh w. unfold Py.try_except_AIClientError.
  destruct (Hc w) as [x [Hx Hl]].
  destruct (c w) as [[a|[msg|msg|msg|msg]] w1]; cbn [snd] in *;
    try (exists x; split; [assumption | lia]).
  destruct (Hh msg w1) as [y [Hy Hl']].
  exists (x ++ y). rewrite Hy, Hx, length_app, <- app_assoc.
  split; [reflexivity | lia].
Qed.

Section WithEnvironment.

Context (E : environment).

Lemma get_latest_prompt_calls : calls_at_most 0 (get_latest_prompt E).
Proof. apply calls_quiet, get_latest_prompt_llm_calls. Qed.

Lemma save_new_prompt_calls (text : string) :
  calls_at_most 0 (save_new_prompt E text).
Proof.
  apply calls_quiet. intros w. destruct (PyStr.strip text) eqn:Hs.
  - now rewrite (save_new_prompt_blank E text w Hs).
  - rewrite (save_new_prompt_ok E text w) by (rewrite Hs; discriminate).
    reflexivity.
Qed.

Lemma get_openai_client_calls : calls_at_most 0 (_get_openai_client E).
Proof.
  apply calls_quiet. intros w. unfold _get_openai_client.
  destruct (OPENAI_API_KEY E) as [k|]; [destruct (PyStr.truthy k) |]; reflexivity.
Qed.

Lemma create_completion_calls (req : chat_request) :
  calls_at_most 1 (create_completion E req).
Proof. intros w. cbn. lia. Qed.

Lemma generate_chat_reply_calls (payload : json) :
  calls_at_most 1 (generate_chat_reply E payload).
Proof.
  unfold generate_chat_reply.
  apply (calls_bind 0 1); [apply get_latest_prompt_calls | intros base].
  apply (calls_bind 0 1); [apply get_openai_client_calls | intros _].
  apply (calls_bind 1 0); [apply create_completion_calls | intros outcome].
  destruct outcome as [exc|content]; [apply calls_quiet; reflexivity |].
  cbv zeta. destruct (json_loads E _) as [parsed|];
    [| apply calls_quiet; reflexivity].
  apply (calls_bind 0 0); [apply calls_quiet; reflexivity | intros reply].
  destruct reply as [[| | |s| |]|]; apply calls_quiet; reflexivity.
Qed.

Lemma improve_prompt_with_editor_calls
    (existing cs : string) (hist : list json) (cr predicted : string) :
  calls_at_most 1 (improve_prompt_with_editor E existing cs hist cr predicted).
Proof.
  unfold improve_prompt_with_editor.
  apply (calls_bind 0 1); [apply get_openai_client_calls | intros _].
  apply (calls_bind 1 0); [apply create_completion_calls | intros outcome].
  destruct outcome as [exc|content]; [apply calls_quiet; reflexivity |].
  cbv zeta. destruct (json_loads E _) as [parsed|];
    [| apply calls_quiet; reflexivity].
  apply (calls_bind 0 0); [apply calls_quiet; reflexivity | intros reply].
  destruct reply as [[| | |s| |]|]; apply calls_quiet; reflexivity.
Qed.

Lemma get_latest_prompt_appends : appends_at_most 1 (get_latest_prompt E).
Proof.
  intros w. destruct (prompts w) as [|r rest] eqn:Hp.
  - rewrite (get_latest_prompt_empty E w Hp). unfold seeded. cbn [snd prompts].
    rewrite Hp. eexists. split; [reflexivity | simpl; lia].
  - destruct (get_latest_prompt_nonempty E w) as [t [Ht _]]; [congruence |].
    rewrite Ht. cbn [snd]. exists []. rewrite Hp, app_nil_r. split; [reflexivity | simpl; lia].
Qed.

Lemma save_new_prompt_appends (text : string) :
  appends_at_most 1 (save_new_prompt E text).
Proof.
  intros w. destruct (PyStr.strip text) eqn:Hs.
  - rewrite (save_new_prompt_blank E text w Hs). exists [].
    rewrite app_nil_r. split; [reflexivity | simpl; lia].
  - rewrite (save_new_prompt_ok E text w) by (rewrite Hs; discriminate).
    unfold saved. cbn [snd prompts]. eexists. split; [reflexivity | simpl; lia].
Qed.

Lemma get_openai_client_appends : appends_at_most 0 (_get_openai_client E).
Proof.
  apply appends_quiet. intros w. unfold _get_openai_client.
  destruct (OPENAI_API_KEY E) as [k|]; [destruct (PyStr.truthy k) |]; reflexivity.
Qed.

Lemma generate_chat_reply_appends (payload : json) :
  appends_at_most 1 (generate_chat_reply E payload).
Proof.
  unfold generate_chat_reply.
  apply (appends_bind 1 0); [apply get_latest_prompt_appends | intros base].
  apply (appends_bind 0 0); [apply get_openai_client_appends | intros _].
  apply (appends_bind 0 0); [apply appends_quiet; reflexivity | intros outcome].
  destruct outcome as [exc|content]; [apply appends_quiet; reflexivity |].
  cbv zeta. destruct (json_loads E _) as [parsed|];
    [| apply appends_quiet; reflexivity].
  apply (appends_bind 0 0); [apply appends_quiet; reflexivity | intros reply].
  destruct reply as [[| | |s| |]|]; apply appends_quiet; reflexivity.
Qed.

Lemma improve_prompt_with_editor_appends
    (existing cs : string) (hist : list json) (cr predicted : string) :
  appends_at_most 0 (improve_prompt_with_editor E existing cs hist cr predicted).
Proof.
  unfold improve_prompt_with_editor.
  apply (appends_bind 0 0); [apply get_openai_client_appends | intros _].
  apply (appends_bind 0 0); [apply appends_quiet; reflexivity | intros outcome].
  destruct outcome as [exc|content]; [apply appends_quiet; reflexivity |].
  cbv zeta. destruct (json_loads E _) as [parsed|];
    [| apply appends_quiet; reflexivity].
  apply (appends_bind 0 0); [apply appends_quiet; reflexivity | intros reply].
  destruct reply as [[| | |s| |]|]; apply appends_quiet; reflexivity.
Qed.

(** On a table that has rows the model call appends nothing. *)
Lemma generate_chat_reply_rows (payload : json) :
  appends_at_most_on_rows 0 (generate_chat_reply E payload).
Proof.
  intros w Hw.
  destruct (generate_chat_reply_appends payload w) as [x [Hx _]].
  exists []. rewrite app_nil_r. split; [| simpl; lia].
  unfold generate_chat_reply in *.
  destruct (get_latest_prompt_nonempty E w Hw) as [t [Ht _]].
  rewrite (PyFacts.bind_ok _ _ _ _ _ Ht).
  unfold Py.bind, _get_openai_client, create_completion, Py.ret, Py.raise, Py.lift.
  destruct (OPENAI_API_KEY E) as [k|]; [destruct (PyStr.truthy k) |]; try reflexivity.
  destruct (chat_completions_create E _ _) as [exc|content]; [reflexivity |].
  cbv zeta. destruct (json_loads E _) as [parsed|]; [| reflexivity].
  destruct (Py.get parsed "reply") as [[[| | |s| |]|]|e]; reflexivity.
Qed.

Lemma on_rows_of_appends {A} (n : nat) (c : Py.M A) :
  appends_at_most n c -> appends_at_most_on_rows n c.
Proof. intros H w _. apply H. Qed.

End WithEnvironment.

End EffectsFacts.

(** ** The pipeline at its edges *)

Section PipelineEdges.

Import PromptStore PromptStoreFacts AIClient AIClientFacts.
Import App AppFacts PipelineFacts Effects EffectsFacts.

Context (E : environment).

Lemma strings_of_outcome (parts : list json) :
  (exists l, Py.strings_of parts = Ok l /\ parts = JStr <$> l) \/
  (exists msg, Py.strings_of parts = Raise (TypeError msg)).
Proof.
  induction parts as [|j rest IH]; [left; exists []; auto |].
  destruct j; cbn [Py.strings_of]; try (right; eexists; reflexivity).
  destruct IH as [(l & Hl & Hrest) | (msg & Hm)].
  - left. exists (s :: l). rewrite Hl, Hrest. auto.
  - right. rewrite Hm. eauto.
Qed.

Lemma strings_of_non_string (parts : list json) (j : json) :
  In j parts -> (forall t, j <> JStr t) ->
  exists msg, Py.strings_of parts = Raise (TypeError msg).
Proof.
  intros Hin Hj. destruct (strings_of_outcome parts) as [(l & _ & Hl) | H];
    [| exact H].
  exfalso. subst parts. apply in_map_iff in Hin as (t & <- & _).
  now apply (Hj t).
Qed.

Lemma join_outcome (sep : string) (parts : list json) :
  (exists t, Py.join sep parts = Ok t) \/
  (exists msg, Py.join sep parts = Raise (TypeError msg)).
Proof.
  unfold Py.join. destruct (strings_of_outcome parts) as [(l & -> & _) | (msg & ->)];
    eauto.
Qed.

(** X19. A Sample with a text that is not a string (null, a number, ...)
    ends the run: the join happens outside the [try], so the loop raises
    [TypeError] at that Sample without any AI call, store access or log
    line for it, and the Samples after it are not processed. *)
Theorem pipeline_aborts_on_non_string_text
    (idx : nat) (s : DatasetBuilder.Sample) (rest : list DatasetBuilder.Sample)
    (prompt : string) (w : world) (j : json) :
  In j (DatasetBuilder.client_sequence s)
    \/ In j (DatasetBuilder.consultant_reply s) ->
  (forall t, j <> JStr t) ->
  exists msg,
    pipeline_loop E idx (s :: rest) prompt w = (Raise (TypeError msg), w).
Proof.
  intros Hin Hj. cbn [pipeline_loop]. unfold pipeline_step.
  assert (Hstep : exists msg,
            (let! client_seq_text
               := Py.lift (Py.join PyStr.nl (DatasetBuilder.client_sequence s)) in
             let! consultant_reply_text
               := Py.lift (Py.join PyStr.nl (DatasetBuilder.consultant_reply s)) in
             Py.try_except_AIClientError
               (learn_from_sample E idx s prompt client_seq_text
                  consultant_reply_text
                  (map history_entry (DatasetBuilder.chat_history s)))
               (fun exc => let! _ := Py.print (LogSkipped idx exc) in Py.ret prompt)) w
            = (Raise (TypeError msg), w)).
  { destruct (join_outcome PyStr.nl (DatasetBuilder.client_sequence s))
      as [[cst Hc] | [msg Hc]].
    - rewrite Hc, bind_lift_ok.
      destruct Hin as [Hin | Hin].
      + exfalso. unfold Py.join in Hc.
        destruct (strings_of_non_string _ j Hin Hj) as [msg Hm].
        rewrite Hm in Hc. discriminate.
      + unfold Py.join at 1.
        destruct (strings_of_non_string _ j Hin Hj) as [msg ->].
        exists msg. reflexivity.
    - rewrite Hc. exists msg. reflexivity. }
  destruct Hstep as [msg Hstep]. exists msg.
  now rewrite (PyFacts.bind_raise _ _ _ _ _ Hstep).
Qed.

Lemma pipeline_step_calls (idx : nat) (s : DatasetBuilder.Sample) (prompt : string) :
  calls_at_most 2 (pipeline_step E idx s prompt).
Proof.
  unfold pipeline_step.
  apply (calls_bind 0 2); [apply calls_quiet; reflexivity | intros cst].
  apply (calls_bind 0 2); [apply calls_quiet; reflexivity | intros crt].
  apply (calls_try 2 0).
  - unfold learn_from_sample.
    apply (calls_bind 1 1); [apply generate_chat_reply_calls | intros predicted].
    apply (calls_bind 1 0); [apply improve_prompt_with_editor_calls | intros p].
    apply (calls_bind 0 0); [apply save_new_prompt_calls | intros _].
    apply (calls_bind 0 0); [| intros]; apply calls_quiet; reflexivity.
  - intros msg. apply (calls_bind 0 0); [| intros]; apply calls_quiet; reflexivity.
Qed.

Lemma pipeline_step_rows (idx : nat) (s : DatasetBuilder.Sample) (prompt : string) :
  appends_at_most_on_rows 1 (pipeline_step E idx s prompt).
Proof.
  unfold pipeline_step.
  apply (rows_bind 0 1); [apply rows_quiet; reflexivity | intros cst].
  apply (rows_bind 0 1); [apply rows_quiet; reflexivity | intros crt].
  apply (rows_try 1 0).
  - unfold learn_from_sample.
    apply (rows_bind 0 1); [apply generate_chat_reply_rows | intros predicted].
    apply (rows_bind 0 1);
      [apply on_rows_of_appends, improve_prompt_with_editor_appends | intros p].
    apply (rows_bind 1 0);
      [apply on_rows_of_appends, save_new_prompt_appends | intros _].
    apply (rows_bind 0 0); [| intros]; apply rows_quiet; reflexivity.
  - intros msg. apply (rows_bind 0 0); [| intros]; apply rows_quiet; reflexivity.
Qed.

Lemma pipeline_loop_calls (samples : list DatasetBuilder.Sample) :
  forall idx prompt,
    calls_at_most (2 * length samples) (pipeline_loop E idx samples prompt).
Proof.
  induction samples as [|s rest IH]; intros idx prompt.
  - apply calls_quiet. reflexivity.
  - cbn [pipeline_loop length].
    apply (calls_weaken (2 + 2 * length rest)); [lia |].
    apply calls_bind; [apply pipeline_step_calls | intros p; apply IH].
Qed.

Lemma pipeline_loop_rows (samples : list DatasetBuilder.Sample) :
  forall idx prompt,
    appends_at_most_on_rows (length samples) (pipeline_loop E idx samples prompt).
Proof.
  induction samples as [|s rest IH]; intros idx prompt.
  - apply rows_quiet. reflexivity.
  - cbn [pipeline_loop length].
    apply (rows_bind 1 (length rest)); [apply pipeline_step_rows | intros p; apply IH].
Qed.

(** The Samples a run loops over. *)
Lemma run_self_learning_pipeline_unfold (limit : option Z) (w : world) :
  run_self_learning_pipeline E limit w
    = Py.bind (get_latest_prompt E)
        (pipeline_loop E 1
           (match limit with
            | Some n => Py.slice_to (DatasetBuilder.build_samples (conversations_json E)) n
            | None => DatasetBuilder.build_samples (conversations_json E)
            end)) w.
Proof. reflexivity. Qed.

(** X20. Whatever the service does and however a run ends, a run that loops
    over [k] Samples makes at most [2 k] calls to the completion service
    and only appends rows to the table: at most [k] of them when the table
    had rows, one more (the seed) when it was empty. *)
Theorem pipeline_resource_bounds (limit : option Z) (w : world) :
  let samples :=
    match limit with
    | Some n => Py.slice_to (DatasetBuilder.build_samples (conversations_json E)) n
    | None => DatasetBuilder.build_samples (conversations_json E)
    end in
  let w' := snd (run_self_learning_pipeline E limit w) in
  (llm_calls w <= llm_calls w')%nat /\
  (llm_calls w' <= llm_calls w + 2 * length samples)%nat /\
  exists extra,
    prompts w' = prompts w ++ extra /\
    (length extra <= 1 + length samples)%nat /\
    (prompts w <> [] -> (length extra <= length samples)%nat).
Proof.
  intros samples w'. subst w'. rewrite run_self_learning_pipeline_unfold.
  fold samples.
  destruct (calls_bind 0 (2 * length samples) (get_latest_prompt E)
              (pipeline_loop E 1 samples) (get_latest_prompt_calls E)
              (pipeline_loop_calls samples 1) w) as [Hc1 Hc2].
  split; [exact Hc1 |]. split; [simpl in Hc2; lia |].
  unfold Py.bind.
  destruct (get_latest_prompt_total E w) as [t [w1 [Ht [_ Hne1]]]].
  rewrite Ht.
  destruct (pipeline_loop_rows samples 1 t w1 Hne1) as [x [Hx Hl]].
  destruct (get_latest_prompt_appends E w) as [y [Hy Hly]].
  rewrite Ht in Hy. cbn [snd] in Hy.
  exists (y ++ x). rewrite Hx, Hy, <- app_assoc, length_app.
  split; [reflexivity |]. split; [lia |].
  intros Hw. destruct (get_latest_prompt_nonempty E w Hw) as [t' [Ht' _]].
  assert (Hsame : w1 = w) by congruence. subst w1.
  assert (Hy0 : y = []).
  { apply (f_equal (@length _)) in Hy. rewrite length_app in Hy.
    destruct y; [reflexivity | simpl in Hy; lia]. }
  subst y. simpl. lia.
Qed.

(** X21. The limit is a Python slice bound: [None] loops over all Samples,
    [0] over none (the run only reads the latest prompt), and a negative
    limit [-k] over all but the last [k] Samples. *)
Theorem pipeline_limit_edges (w : world) :
  let all := DatasetBuilder.build_samples (conversations_json E) in
  run_self_learning_pipeline E None w
    = Py.bind (get_latest_prompt E) (pipeline_loop E 1 all) w /\
  run_self_learning_pipeline E (Some 0) w = (Ok tt, snd (get_latest_prompt E w)) /\
  (forall k : nat,
     run_self_learning_pipeline E (Some (- Z.of_nat (S k))) w
       = Py.bind (get_latest_prompt E)
           (pipeline_loop E 1 (take (length all - S k) all)) w).
Proof.
  intros all. split; [reflexivity |]. split.
  - rewrite run_self_learning_pipeline_unfold. cbn [Py.slice_to Z.leb Z.compare Z.to_nat take].
    destruct (get_latest_prompt_total E w) as [t [w1 [Ht _]]].
    rewrite (PyFacts.bind_ok _ _ _ _ _ Ht), Ht. reflexivity.
  - intros k. rewrite run_self_learning_pipeline_unfold. fold all.
    unfold Py.slice_to.
    destruct (0 <=? - Z.of_nat (S k)) eqn:Hle; [apply Z.leb_le in Hle; lia |].
    replace (Z.to_nat (- - Z.of_nat (S k))) with (S k) by lia.
    reflexivity.
Qed.

End PipelineEdges.

(** X19 on a Sample whose client text is null. *)
Lemma pipeline_aborts_on_non_string_text_witness :
  exists msg,
    App.pipeline_loop (Demo.env [] []) 1 [Demo2.null_text_sample; Demo.first_turn]
        "prompt" Demo.world_v3
      = (Raise (TypeError msg), Demo.world_v3).
Proof.
  apply (pipeline_aborts_on_non_string_text (Demo.env [] []) 1
           Demo2.null_text_sample [Demo.first_turn] "prompt" Demo.world_v3 JNull).
  - left. left. reflexivity.
  - intros t H. discriminate H.
Defined.

(** ** The endpoints only ever append *)

Section EndpointsAppendOnly.

Import PromptStore PromptStoreFacts AIClient AIClientFacts.
Import App AppFacts Effects EffectsFacts.

Context (E : environment).

(** A computation after which, when it returns, the table has rows. *)
Lemma appends_bind_rows {A B} (n k : nat) (c : Py.M A) (f : A -> Py.M B) :
  appends_at_most n c ->
  (forall w a w', c w = (Ok a, w') -> prompts w' <> []) ->
  (forall a, appends_at_most_on_rows k (f a)) ->
  appends_at_most (n + k) (Py.bind c f).
Proof.
  intros Hc Hrows Hf w. unfold Py.bind. destruct (Hc w) as [x [Hx Hl]].
  destruct (c w) as [[a|e] w1] eqn:Hcw; cbn [snd] in *.
  - destruct (Hf a w1 (Hrows w a w1 Hcw)) as [y [Hy Hl']].
    exists (x ++ y). rewrite Hy, Hx, length_app, <- app_assoc.
    split; [reflexivity | lia].
  - exists x. split; [assumption | lia].
Qed.

Lemma generate_chat_reply_leaves_rows (payload : json) (w : world) :
  prompts (snd (generate_chat_reply E payload w)) <> [].
Proof.
  destruct (get_latest_prompt_total E w) as [t [w1 [Ht [_ Hne]]]].
  unfold generate_chat_reply. rewrite (PyFacts.bind_ok _ _ _ _ _ Ht).
  unfold Py.bind, _get_openai_client, create_completion, Py.ret, Py.raise, Py.lift.
  destruct (OPENAI_API_KEY E) as [k|]; [destruct (PyStr.truthy k) |]; try exact Hne.
  destruct (chat_completions_create E _ _) as [exc|content]; [exact Hne |].
  cbv zeta. destruct (json_loads E _) as [parsed|]; [| exact Hne].
  destruct (Py.get parsed "reply") as [[[| | |s| |]|]|e]; exact Hne.
Qed.

Lemma normalize_chat_history_appends (raw_history : list json) :
  appends_at_most 0 (_normalize_chat_history raw_history).
Proof.
  unfold _normalize_chat_history.
  apply (appends_bind 0 0); [apply appends_quiet; reflexivity | intros l].
  apply (appends_bind 0 0); [| intros]; apply appends_quiet; reflexivity.
Qed.

Lemma get_latest_prompt_rows : appends_at_most_on_rows 0 (get_latest_prompt E).
Proof.
  intros w Hw. destruct (get_latest_prompt_nonempty E w Hw) as [t [Ht _]].
  rewrite Ht. exists []. rewrite app_nil_r. split; [reflexivity | simpl; lia].
Qed.

Lemma generate_reply_endpoint_appends (body : option json) :
  appends_at_most 1 (generate_reply_endpoint E body).
Proof.
  unfold generate_reply_endpoint. cbv zeta.
  apply (appends_bind 0 1); [apply appends_quiet; reflexivity | intros cs].
  apply (appends_bind 0 1); [apply appends_quiet; reflexivity | intros hist].
  destruct cs as [[| | |cs| |]|];
    try (apply (appends_weaken 0 1); [lia | apply appends_quiet; reflexivity]).
  destruct (not_nonblank_str _);
    [apply (appends_weaken 0 1); [lia | apply appends_quiet; reflexivity] |].
  destruct hist;
    try (apply (appends_weaken 0 1); [lia | apply appends_quiet; reflexivity]).
  apply (appends_bind 0 1); [apply normalize_chat_history_appends | intros normalized].
  apply (appends_bind 1 0).
  - apply (appends_try 1 0); [| intros; apply appends_quiet; reflexivity].
    apply (appends_bind 1 0); [apply generate_chat_reply_appends | intros].
    apply appends_quiet; reflexivity.
  - intros [reply|resp]; apply appends_quiet; reflexivity.
Qed.

Lemma improve_ai_endpoint_appends (body : option json) :
  appends_at_most 2 (improve_ai_endpoint E body).
Proof.
  unfold improve_ai_endpoint. cbv zeta.
  apply (appends_bind 0 2); [apply appends_quiet; reflexivity | intros cs].
  apply (appends_bind 0 2); [apply appends_quiet; reflexivity | intros hist].
  apply (appends_bind 0 2); [apply appends_quiet; reflexivity | intros cr].
  destruct cs as [[| | |cs| |]|];
    try (apply (appends_weaken 0 2); [lia | apply appends_quiet; reflexivity]).
  destruct (not_nonblank_str _);
    [apply (appends_weaken 0 2); [lia | apply appends_quiet; reflexivity] |].
  destruct cr as [[| | |cr| |]|];
    try (apply (appends_weaken 0 2); [lia | apply appends_quiet; reflexivity]).
  destruct (not_nonblank_str _);
    [apply (appends_weaken 0 2); [lia | apply appends_quiet; reflexivity] |].
  destruct hist;
    try (apply (appends_weaken 0 2); [lia | apply appends_quiet; reflexivity]).
  apply (appends_bind 0 2); [apply normalize_chat_history_appends | intros normalized].
  apply (appends_bind_rows 1 1).
  - apply (appends_try 1 0); [| intros; apply appends_quiet; reflexivity].
    apply (appends_bind 1 0); [apply generate_chat_reply_appends | intros].
    apply appends_quiet; reflexivity.
  - intros w a w' Hrun.
    pose proof (generate_chat_reply_leaves_rows
      (JObj (<["chatHistory" := JArr normalized]>
            (<["clientSequence" := JStr cs]> ∅))) w) as Hrows.
    unfold Py.try_except_AIClientError, Py.bind in Hrun.
    destruct (generate_chat_reply E _ w) as [[reply|[msg| | |]] w1];
      cbn in Hrun; inversion Hrun; subst; exact Hrows.
  - intros [predicted|resp];
      [| apply (rows_weaken 0 1); [lia | apply rows_quiet; reflexivity]].
    apply (rows_bind 0 1); [apply get_latest_prompt_rows | intros existing].
    apply (rows_bind 0 1).
    + apply (rows_try 0 0); [| intros; apply rows_quiet; reflexivity].
      apply (rows_bind 0 0);
        [apply on_rows_of_appends, improve_prompt_with_editor_appends | intros].
      apply rows_quiet; reflexivity.
    + intros [updated|resp]; [| apply (rows_weaken 0 1); [lia | apply rows_quiet; reflexivity]].
      apply (rows_bind 1 0);
        [apply on_rows_of_appends, save_new_prompt_appends | intros].
      apply rows_quiet; reflexivity.
Qed.

Lemma improve_ai_manually_endpoint_appends (body : option json) :
  appends_at_most 2 (improve_ai_manually_endpoint E body).
Proof.
  unfold improve_ai_manually_endpoint. cbv zeta.
  apply (appends_bind 0 2); [apply appends_quiet; reflexivity | intros ins].
  destruct ins as [[| | |ins| |]|];
    try (apply (appends_weaken 0 2); [lia | apply appends_quiet; reflexivity]).
  destruct (not_nonblank_str _);
    [apply (appends_weaken 0 2); [lia | apply appends_quiet; reflexivity] |].
  apply (appends_bind 1 1); [apply get_latest_prompt_appends | intros current].
  apply (appends_bind 1 0); [apply save_new_prompt_appends | intros].
  apply appends_quiet; reflexivity.
Qed.

(** X22. Whatever the request body, the state of the table and the answers of
    the language model, and whether the endpoint answers or an exception
    leaves it, every endpoint leaves the rows that were in the table in place
    and in order and only adds rows after them: [/generate-reply] at most one
    (the seeded prompt), [/improve-ai] and [/improve-ai-manually] at most
    two (the seeded prompt and the new version). *)
Theorem endpoints_only_append (body : option json) (w : world) :
  (exists added,
     prompts (snd (generate_reply_endpoint E body w)) = prompts w ++ added /\
     (length added <= 1)%nat) /\
  (exists added,
     prompts (snd (improve_ai_endpoint E body w)) = prompts w ++ added /\
     (length added <= 2)%nat) /\
  (exists added,
     prompts (snd (improve_ai_manually_endpoint E body w)) = prompts w ++ added /\
     (length added <= 2)%nat).
Proof.
  split; [| split].
  - apply generate_reply_endpoint_appends.
  - apply improve_ai_endpoint_appends.
  - apply improve_ai_manually_endpoint_appends.
Qed.

End EndpointsAppendOnly.
